(** * Insight generation service: feature extraction, anomaly detection,
      retrying model invocation and rule-based fallback

    Shallow embedding of
      - app/services/feature_extractor.py  (FeatureExtractor)
      - app/services/anomaly_detector.py   (AnomalyDetector)
      - app/services/prompt_builder.py     (PromptBuilder)
      - app/services/insight_service.py    (InsightService)
      - app/models/schemas.py, app/config.py (the records they exchange)

    Numbers are Python floats, i.e. IEEE-754 binary64: they are embedded as
    Rocq's primitive [float], whose operations are the binary64 operations,
    so every definition below evaluates to the very value the Python code
    computes.  Exceptions are values of type [exn]; a function that may
    raise returns [exn + A]. *)

From Stdlib Require Import Floats ZArith Lia.
From stdpp Require Import gmap strings list fin_maps.

Set Warnings "-inexact-float".

(* ===================================================================== *)
(** ** Python builtins on floats and lists *)
(* ===================================================================== *)

Module Py.

(** [a >= b], [a > b] and [a != b] on floats (all false on NaN, except
    [!=]). *)
Definition geb (a b : float) : bool := (b <=? a)%float.
Definition gtb (a b : float) : bool := (b <? a)%float.
Definition neb (a b : float) : bool := negb (a =? b)%float.

(** Nearest integer to [a / 2^k], ties to even ([0 <= a], [0 < k]). *)
Definition round_half_even_shift (a k : Z) : Z :=
  let q := Z.shiftr a k in
  let r := (a - Z.shiftl q k)%Z in
  let h := Z.shiftl 1 (k - 1) in
  if (r <? h)%Z then q
  else if (h <? r)%Z then (q + 1)%Z
  else if Z.even q then q else (q + 1)%Z.

(** [round(x, 2)]: CPython rounds the exact binary value of [x] to the
    nearest decimal with two fractional digits (ties to even) and returns
    the double nearest to that decimal; zeros, infinities and NaN are
    returned unchanged. *)
Definition round2 (x : float) : float :=
  match Prim2SF x with
  | S754_finite s m e =>
      let n := if (0 <=? e)%Z then (Z.pos m * 100 * 2 ^ e)%Z
               else round_half_even_shift (Z.pos m * 100) (- e) in
      match n with
      | Z.pos p =>
          SF2Prim (SFdiv prec emax (S754_finite s p 0) (S754_finite false 100 0))
      | _ => SF2Prim (S754_zero s)
      end
  | _ => x
  end.

(** [l[i]] with Python's negative indices; [None] stands for IndexError. *)
Definition item {A} (l : list A) (i : Z) : option A :=
  if (i <? 0)%Z then
    if (Z.of_nat (length l) + i <? 0)%Z then None
    else l !! Z.to_nat (Z.of_nat (length l) + i)
  else l !! Z.to_nat i.

(** [float(n)] for a length or an index [n]. *)
Definition float_of_nat (n : nat) : float :=
  SF2Prim (binary_normalize prec emax (Z.of_nat n) 0 false).

End Py.

(* ===================================================================== *)
(** ** Exceptions *)
(* ===================================================================== *)

(** The exception classes that occur; every one derives from [Exception],
    so [except Exception] catches them all.  A model client may raise any
    of them; [ProviderError] stands for the errors of its own (HTTP status,
    timeout, ...). *)
Inductive exn : Type :=
| ValueError (msg : string)
| IndexError (msg : string)
| AttributeError (msg : string)
| TypeError (msg : string)
| JSONDecodeError (msg : string)
| ValidationError (msg : string)
| OverflowError (msg : string)
| ProviderError (msg : string)
| PlainException (msg : string).

(** [str(e)] *)
Definition str_exn (e : exn) : string :=
  match e with
  | ValueError m | IndexError m | AttributeError m | TypeError m
  | JSONDecodeError m | ValidationError m | OverflowError m
  | ProviderError m | PlainException m => m
  end.

(* ===================================================================== *)
(** ** Schemas and settings (app/models/schemas.py, app/config.py) *)
(* ===================================================================== *)

Inductive Severity : Type := critical | high | medium | low.

Record FeatureSet : Type := {
  previous_value : float;
  current_value : float;
  change_absolute : float;
  change_percent : float;
  severity : Severity
}.

Record ContextConfig : Type := {
  baseline : option float;
  thresholds : option (gmap string float)
}.

Record Settings : Type := {
  llm_provider : string;
  llm_max_retries : Z;
  llm_timeout_seconds : Z;
  severity_threshold_critical : float;
  severity_threshold_high : float;
  severity_threshold_medium : float
}.

(** The defaults of class [Settings]. *)
Definition default_settings : Settings := {|
  llm_provider := "gemini";
  llm_max_retries := 3;
  llm_timeout_seconds := 30;
  severity_threshold_critical := 50;
  severity_threshold_high := 25;
  severity_threshold_medium := 10
|}.

(* ===================================================================== *)
(** ** FeatureExtractor.extract_from_metrics *)
(* ===================================================================== *)

(** [change_percent] before it is rounded for the FeatureSet. *)
Definition raw_change_percent (previous_value current_value : float) : float :=
  let change_absolute := (current_value - previous_value)%float in
  if (previous_value =? 0)%float then
    if (current_value =? 0)%float then 0%float
    else if Py.gtb current_value 0 then 1000%float else (-1000)%float
  else (change_absolute / previous_value * 100)%float.

(** The thresholds dictionary in force: the caller's [context['thresholds']]
    when there is one, else the three settings. *)
Definition effective_thresholds (settings : Settings)
    (context : option ContextConfig) : gmap string float :=
  let thresholds :=
    match context with Some c => thresholds c | None => None end in
  match thresholds with
  | Some t => t
  | None =>
      <["critical" := severity_threshold_critical settings]>
      (<["high" := severity_threshold_high settings]>
      (<["medium" := severity_threshold_medium settings]> ∅))
  end.

(** The if/elif chain on [abs_change]. *)
Definition classify_severity (thresholds : gmap string float)
    (abs_change : float) : Severity :=
  if Py.geb abs_change (default 50%float (thresholds !! "critical")) then critical
  else if Py.geb abs_change (default 25%float (thresholds !! "high")) then high
  else if Py.geb abs_change (default 10%float (thresholds !! "medium")) then medium
  else low.

Definition extract_from_metrics (settings : Settings) (values : list float)
    (context : option ContextConfig) : exn + FeatureSet :=
  if (length values <? 2)%nat then
    inl (ValueError "Need at least 2 values for comparison")
  else
    match Py.item values (-2), Py.item values (-1) with
    | Some previous_value, Some current_value =>
        let change_absolute := (current_value - previous_value)%float in
        let change_percent := raw_change_percent previous_value current_value in
        let thresholds := effective_thresholds settings context in
        let abs_change := abs change_percent in
        let severity := classify_severity thresholds abs_change in
        inr {| previous_value := previous_value;
               current_value := current_value;
               change_absolute := Py.round2 change_absolute;
               change_percent := Py.round2 change_percent;
               severity := severity |}
    | _, _ => inl (IndexError "list index out of range")
    end.

(* ===================================================================== *)
(** ** The numpy functions the detector calls, on binary64 *)
(* ===================================================================== *)

Module np.

(** [r[j] += a[i + j]] for the accumulators [r] and one group [a] of
    elements. *)
Fixpoint add_group (r a : list float) : list float :=
  match r, a with
  | x :: r', y :: a' => (x + y)%float :: add_group r' a'
  | _, _ => r
  end.

(** The loop [for (i = 8; i < n - (n % 8); i += 8)] over [groups] groups of
    eight: the accumulators, and the elements not yet read. *)
Fixpoint accumulate (groups : nat) (r a : list float)
    : list float * list float :=
  match groups with
  | O => (r, a)
  | S groups' => accumulate groups' (add_group r (take 8 a)) (drop 8 a)
  end.

(** The branch of numpy's [pairwise_sum] for 8 to 128 elements: eight
    accumulators, each adding every eighth element, combined as
    [((r0 + r1) + (r2 + r3)) + ((r4 + r5) + (r6 + r7))]; then the last
    [n % 8] elements are added one by one. *)
Definition block_sum (a : list float) : float :=
  let n := length a in
  let '(r, rest) := accumulate (n / 8 - 1) (take 8 a) (drop 8 a) in
  let r_ i := nth i r 0%float in
  let res := (((r_ 0%nat + r_ 1%nat) + (r_ 2%nat + r_ 3%nat))
              + ((r_ 4%nat + r_ 5%nat) + (r_ 6%nat + r_ 7%nat)))%float in
  fold_left PrimFloat.add rest res.

(** numpy's [pairwise_sum] on doubles: fewer than 8 elements are added
    from the left, starting from 0; up to 128 elements are added by
    [block_sum]; a longer array is cut in two at [n / 2] rounded down to a
    multiple of 8, and the sums of the two parts are added.  [fuel] bounds
    the number of nested cuts; the length of the array is always enough
    (lemma [pairwise_sum_fuel]). *)
Fixpoint pairwise_sum (fuel : nat) (a : list float) : float :=
  let n := length a in
  if (n <? 8)%nat then fold_left PrimFloat.add a 0%float
  else if (n <=? 128)%nat then block_sum a
  else
    match fuel with
    | O => block_sum a
    | S fuel' =>
        let n2 := (n / 2)%nat in
        let n2 := (n2 - n2 mod 8)%nat in
        (pairwise_sum fuel' (take n2 a) + pairwise_sum fuel' (drop n2 a))%float
    end.

(** [np.sum] of a one-dimensional array of doubles: the reduction starts
    from the identity 0 and adds the pairwise sum of the array to it. *)
Definition sum (arr : list float) : float :=
  (0 + pairwise_sum (length arr) arr)%float.

(** [np.mean(arr)] = sum / count. *)
Definition mean (arr : list float) : float :=
  (sum arr / Py.float_of_nat (length arr))%float.

(** [np.std(arr)], ddof = 0: the square root of the mean of the squared
    deviations from the mean (population standard deviation). *)
Definition std (arr : list float) : float :=
  let arrmean := mean arr in
  let x := map (fun v => (v - arrmean)%float) arr in
  let x := map (fun d => (d * d)%float) x in
  PrimFloat.sqrt (sum x / Py.float_of_nat (length arr))%float.

(** numpy's order on doubles: NaN sorts last. *)
Definition lt (a b : float) : bool :=
  (a <? b)%float || (Py.neb b b && (a =? a)%float).

Fixpoint insert (x : float) (l : list float) : list float :=
  match l with
  | [] => [x]
  | y :: l' => if lt x y then x :: l else y :: insert x l'
  end.

(** [np.sort] *)
Definition sort (arr : list float) : list float :=
  fold_right insert [] arr.

(** The integer part of a non-negative finite double (0 otherwise). *)
Definition floor_nat (x : float) : nat :=
  match Prim2SF x with
  | S754_finite false m e =>
      if (0 <=? e)%Z then Z.to_nat (Z.pos m * 2 ^ e)
      else Z.to_nat (Z.shiftr (Z.pos m) (- e))
  | _ => 0%nat
  end.

(** Linear interpolation as numpy computes it: [a + (b - a) * t], and
    [b - (b - a) * (1 - t)] when [t >= 0.5]. *)
Definition lerp (a b t : float) : float :=
  let diff_b_a := (b - a)%float in
  if Py.geb t 0.5 then (b - diff_b_a * (1 - t))%float
  else (a + diff_b_a * t)%float.

(** [np.percentile(arr, q)], default method "linear": the value at the
    virtual index [(n - 1) * q / 100] of the sorted array, interpolated
    between its two neighbours; NaN when the array holds a NaN. *)
Definition percentile (arr : list float) (q : float) : float :=
  let sorted := sort arr in
  let n := length arr in
  let virtual_index := (Py.float_of_nat (n - 1) * (q / 100))%float in
  let previous_index := floor_nat virtual_index in
  let next_index := Nat.min (previous_index + 1) (n - 1) in
  let gamma := (virtual_index - Py.float_of_nat previous_index)%float in
  match last sorted, sorted !! previous_index, sorted !! next_index with
  | Some top, Some previous, Some next =>
      if Py.neb top top then nan else lerp previous next gamma
  | _, _, _ => nan
  end.

(** [np.median(arr)]: the middle element of the sorted array, or the mean
    of the two middle elements; NaN when the array holds a NaN. *)
Definition median (arr : list float) : float :=
  let sorted := sort arr in
  let n := length arr in
  let index := (n / 2)%nat in
  let middle :=
    if Nat.odd n then take 1 (drop index sorted)
    else take 2 (drop (index - 1) sorted) in
  match last sorted with
  | Some top => if Py.neb top top then nan else mean middle
  | None => nan
  end.

End np.

(* ===================================================================== *)
(** ** Remaining schemas *)
(* ===================================================================== *)

Inductive InputType : Type := metrics | text | timeseries.

(** [request.data], a dict: the entries the service reads, each with the
    type the request validation gives it ([values] a list of floats,
    [metric_name] and [series_name] strings); [None] for a key that is
    absent. *)
Record Data : Type := {
  get_values : option (list float);
  get_metric_name : option string;
  get_series_name : option string
}.

Record InsightRequest : Type := {
  user_id : string;
  tenant_id : string;
  input_type : InputType;
  data : Data;
  context : option ContextConfig
}.

(** [InsightOutput]; its field [severity] is [insight_severity] here. *)
Record InsightOutput : Type := {
  summary : string;
  insight_severity : Severity;
  confidence : float;
  recommended_actions : list string;
  key_findings : list string
}.

Record InputSummary : Type := {
  metric_name : string;
  data_points_count : nat
}.

(** [ResponseMetadata]; its field [llm_provider] is [provider] here. *)
Record ResponseMetadata : Type := {
  processing_time_ms : Z;
  provider : string;
  model_version : string;
  fallback_used : bool
}.

(** [InsightResponse] without the generated [insight_id] and [timestamp];
    [user_id] and [tenant_id] are [response_user_id], [response_tenant_id]. *)
Record InsightResponse : Type := {
  response_user_id : string;
  response_tenant_id : string;
  input_summary : InputSummary;
  features : FeatureSet;
  insight : InsightOutput;
  metadata : ResponseMetadata
}.

(** A value of the [details] dict of an AnomalyResult. *)
Inductive detail : Type := DFloat (x : float) | DStr (s : string).

Record AnomalyResult : Type := {
  is_anomaly : bool;
  z_score : float;
  method : string;
  details : gmap string detail
}.

(** [LLMClient]: [generate client k prompt] is what the [k+1]-th call of
    [generate] during a request does with [prompt]: it raises ([inl]) or
    returns a text.  The schema and the temperature the service passes are
    the same constants at every call. *)
Record LLMClient : Type := {
  generate : nat -> string -> exn + string;
  get_model_name : string
}.

(** What a request does that can be observed: the calls of
    [llm_client.generate] in order, and which statement assigned
    [insight]. *)
Inductive event : Type :=
| LLMCall (prompt : string) (result : exn + string)
| ModelOutputAccepted (llm_output : string)
| FallbackGenerated (used : FeatureSet) (name : string).

(* ===================================================================== *)
(** ** A small monad: exceptions over the log of events *)
(* ===================================================================== *)

Definition M (A : Type) : Type := list event -> (exn + A) * list event.

Definition ret {A} (a : A) : M A := fun log => (inr a, log).

Definition raise {A} (e : exn) : M A := fun log => (inl e, log).

Definition bind {A B} (m : M A) (k : A -> M B) : M B :=
  fun log =>
    match m log with
    | (inl e, log') => (inl e, log')
    | (inr a, log') => k a log'
    end.

(** [try: m  except Exception as e: h e] *)
Definition try_except {A} (m : M A) (h : exn -> M A) : M A :=
  fun log =>
    match m log with
    | (inl e, log') => h e log'
    | (inr a, log') => (inr a, log')
    end.

Definition lift {A} (r : exn + A) : M A := fun log => (r, log).

Definition emit (ev : event) : M unit := fun log => (inr tt, log ++ [ev]).

Notation "x <- m ;; k" := (bind m (fun x => k))
  (at level 100, m at next level, right associativity).

Definition is_call (ev : event) : bool :=
  match ev with LLMCall _ _ => true | _ => false end.

(** The prompts sent to the model, in order. *)
Definition prompts_of (log : list event) : list string :=
  omap (fun ev => match ev with LLMCall p _ => Some p | _ => None end) log.

Definition count_calls (log : list event) : nat := length (prompts_of log).

(* ===================================================================== *)
(** ** Text helpers *)
(* ===================================================================== *)

Definition nl : string := String (Ascii.ascii_of_nat 10) EmptyString.
Definition dq : string := String (Ascii.ascii_of_nat 34) EmptyString.

Definition concat_all (parts : list string) : string :=
  fold_right String.append EmptyString parts.

Definition severity_str (s : Severity) : string :=
  match s with
  | critical => "critical" | high => "high" | medium => "medium" | low => "low"
  end.

Definition bool_str (b : bool) : string := if b then "True" else "False".

(* ===================================================================== *)
(** ** More Python builtins: strings, slices, integer division *)
(* ===================================================================== *)

From Stdlib Require Import DecimalString.

(** Strings are sequences of characters with code points below 256; on
    these, [str.lower] acts character by character and [str.split] splits
    at the twelve whitespace characters listed. *)
Module PyStr.

(** [c.isspace()]: tab to carriage return, the four separators 28 to 31,
    space, next-line (133) and no-break space (160). *)
Definition is_space (c : Ascii.ascii) : bool :=
  let n := Ascii.nat_of_ascii c in
  ((9 <=? n) && (n <=? 13)) || ((28 <=? n) && (n <=? 32))
  || (n =? 133) || (n =? 160).

(** [c.lower()]: A-Z, and the upper-case letters 192 to 222 except the
    multiplication sign 215, move up by 32. *)
Definition lower_char (c : Ascii.ascii) : Ascii.ascii :=
  let n := Ascii.nat_of_ascii c in
  if ((65 <=? n) && (n <=? 90))
     || ((192 <=? n) && (n <=? 222) && negb (n =? 215))
  then Ascii.ascii_of_nat (n + 32) else c.

(** [s.lower()] *)
Fixpoint lower (s : string) : string :=
  match s with
  | EmptyString => EmptyString
  | String c s' => String (lower_char c) (lower s')
  end.

(** [needle in s]: [needle] occurs in [s] as a substring. *)
Fixpoint contains (needle s : string) : bool :=
  String.prefix needle s ||
  match s with
  | EmptyString => false
  | String _ s' => contains needle s'
  end.

(** [s.split()], reading [s] with the word begun so far in [word]: words
    are the maximal runs of characters that are not whitespace. *)
Fixpoint split_from (s word : string) : list string :=
  match s with
  | EmptyString => if String.eqb word "" then [] else [word]
  | String c s' =>
      if is_space c then
        if String.eqb word "" then split_from s' ""
        else word :: split_from s' ""
      else split_from s' (word +:+ String c EmptyString)
  end.

Definition split (s : string) : list string := split_from s "".

(** [str(n)] for an int. *)
Definition of_int (n : Z) : string := NilZero.string_of_int (Z.to_int n).

End PyStr.

Module PyNum.

(** [round(x, ndigits)] for [ndigits >= 0], computed as [round(x, 2)] is:
    the exact value of [x] rounded half-even to [ndigits] decimals, then
    the nearest double. *)
Definition round_ndigits (x : float) (ndigits : nat) : float :=
  let scale := (10 ^ Z.of_nat ndigits)%Z in
  match Prim2SF x with
  | S754_finite s m e =>
      let n := if (0 <=? e)%Z then (Z.pos m * scale * 2 ^ e)%Z
               else Py.round_half_even_shift (Z.pos m * scale) (- e) in
      match n with
      | Z.pos p =>
          SF2Prim (SFdiv prec emax (S754_finite s p 0)
                     (S754_finite false (Z.to_pos scale) 0))
      | _ => SF2Prim (S754_zero s)
      end
  | _ => x
  end.

(** An int as an exact operand of a float operation. *)
Definition exact_int (n : Z) : spec_float :=
  match n with
  | Z0 => S754_zero false
  | Z.pos p => S754_finite false p 0
  | Z.neg p => S754_finite true p 0
  end.

(** [a / b] on ints with [b] not zero: the double nearest to the exact
    quotient. *)
Definition int_truediv (a b : Z) : float :=
  SF2Prim (SFdiv prec emax (exact_int a) (exact_int b)).

(** [l[start:stop]] with Python's treatment of negative and out-of-range
    bounds. *)
Definition slice {A} (l : list A) (start stop : Z) : list A :=
  let n := Z.of_nat (length l) in
  let clamp i := if (i <? 0)%Z then Z.max (i + n) 0 else Z.min i n in
  let lo := clamp start in
  let hi := clamp stop in
  take (Z.to_nat (hi - lo)) (drop (Z.to_nat lo) l).

End PyNum.

(* ===================================================================== *)
(** ** FeatureExtractor.extract_from_text *)
(* ===================================================================== *)

Definition urgency_keywords : list string :=
  ["urgent"; "critical"; "emergency"; "immediate"].

Definition extract_from_text (text : string) : FeatureSet :=
  let word_count := length (PyStr.split text) in
  let severity :=
    if existsb (fun kw => PyStr.contains kw (PyStr.lower text)) urgency_keywords
    then high else medium in
  {| previous_value := 0;
     current_value := Py.float_of_nat word_count;
     change_absolute := Py.float_of_nat word_count;
     change_percent := 0;
     severity := severity |}.

(* ===================================================================== *)
(** ** MockLLMClient.generate: the severity it answers with *)
(* ===================================================================== *)

(** The severity [MockLLMClient.generate] derives from the prompt and puts
    into its JSON answer (the rest of the answer is fixed text and a random
    confidence). *)
Definition mock_severity (prompt : string) : string :=
  let severity := "medium" in
  let severity :=
    if PyStr.contains "critical" (PyStr.lower prompt)
       || PyStr.contains "spike" (PyStr.lower prompt)
    then "high" else severity in
  let severity :=
    if PyStr.contains "severe" (PyStr.lower prompt) then "critical"
    else severity in
  severity.

Section InsightService.

(** Library functions taken as given:
    - [format_float spec x] is Python's [format(x, spec)] on a float, the
      conversions written [{x:.2f}], [{x:+.2f}], [{x:.1f}] and [{x}] (empty
      spec) in the f-strings;
    - [json_loads] is [json.loads] on a string, which raises or returns a
      JSON value;
    - [InsightOutput_of_json obj] is the constructor call of InsightOutput
      on the parsed value [obj], unpacked as keyword arguments: pydantic's
      validation against the InsightOutput schema;
    - [elapsed_ms] is the reading [int((time.time() - start_time) * 1000)]. *)
Variable format_float : string -> float -> string.
Variable json : Type.
Variable json_loads : string -> exn + json.
Variable InsightOutput_of_json : json -> exn + InsightOutput.
Variable elapsed_ms : Z.

(* ===================================================================== *)
(** ** AnomalyDetector *)
(* ===================================================================== *)

Definition verdict_str (is_anomaly : bool) : string :=
  if is_anomaly then "(ANOMALY)" else "(NORMAL)".

(** [values[-1]] where the length check has already passed. *)
Definition last_value (values : list float) : float :=
  default 0%float (Py.item values (-1)).

Definition z_score_detection (values : list float) (threshold : float)
    : AnomalyResult :=
  if (length values <? 3)%nat then
    {| is_anomaly := false;
       z_score := 0;
       method := "z_score";
       details := {[ "error" := DStr "Insufficient data for z-score" ]} |}
  else
    let arr := values in
    let mean := np.mean arr in
    let std := np.std arr in
    if (std =? 0)%float then
      {| is_anomaly := false;
         z_score := 0;
         method := "z_score";
         details := <["mean" := DFloat mean]>
                    (<["std" := DFloat 0]>
                    (<["note" := DStr "No variance in data"]> ∅)) |}
    else
      let current_value := last_value values in
      let z_score := ((current_value - mean) / std)%float in
      let is_anomaly := Py.gtb (abs z_score) threshold in
      {| is_anomaly := is_anomaly;
         z_score := z_score;
         method := "z_score";
         details :=
           <["mean" := DFloat mean]>
           (<["std" := DFloat std]>
           (<["current_value" := DFloat current_value]>
           (<["threshold" := DFloat threshold]>
           (<["interpretation" :=
                DStr (concat_all
                  ["Value is "; format_float ".2f" (abs z_score);
                   " standard deviations from mean "; verdict_str is_anomaly])]>
            ∅)))) |}.

Definition range_str (is_anomaly : bool) : string :=
  if is_anomaly then "OUTSIDE" else "WITHIN".

Definition iqr_detection (values : list float) (multiplier : float)
    : AnomalyResult :=
  if (length values <? 4)%nat then
    {| is_anomaly := false;
       z_score := 0;
       method := "iqr";
       details := {[ "error" := DStr "Need at least 4 values for IQR" ]} |}
  else
    let arr := values in
    let q1 := np.percentile arr 25 in
    let q3 := np.percentile arr 75 in
    let iqr := (q3 - q1)%float in
    let lower_bound := (q1 - multiplier * iqr)%float in
    let upper_bound := (q3 + multiplier * iqr)%float in
    let current_value := last_value values in
    let is_anomaly :=
      (current_value <? lower_bound)%float || Py.gtb current_value upper_bound in
    let median := np.median arr in
    let z_equiv :=
      if Py.gtb iqr 0 then (abs (current_value - median) / (iqr / 1.35))%float
      else 0%float in
    {| is_anomaly := is_anomaly;
       z_score := z_equiv;
       method := "iqr";
       details :=
         <["q1" := DFloat q1]>
         (<["q3" := DFloat q3]>
         (<["iqr" := DFloat iqr]>
         (<["lower_bound" := DFloat lower_bound]>
         (<["upper_bound" := DFloat upper_bound]>
         (<["current_value" := DFloat current_value]>
         (<["interpretation" :=
              DStr (concat_all
                ["Value is "; range_str is_anomaly; " normal range [";
                 format_float ".2f" lower_bound; ", ";
                 format_float ".2f" upper_bound; "]"])]>
          ∅)))))) |}.

(* ===================================================================== *)
(** ** PromptBuilder.build_insight_prompt *)
(* ===================================================================== *)

Definition detail_str (d : detail) : string :=
  match d with
  | DStr s => s
  | DFloat x => format_float "" x
  end.

Definition prompt_head (metric_name : string) (features : FeatureSet) : string :=
  concat_all
    ["You are analyzing business metrics for an enterprise data platform."; nl;
     nl;
     "METRIC: "; metric_name; nl;
     "CURRENT VALUE: "; format_float "" (current_value features); nl;
     "PREVIOUS VALUE: "; format_float "" (previous_value features); nl;
     "CHANGE: "; format_float "" (change_absolute features);
       " ("; format_float "+.2f" (change_percent features); "%)"; nl;
     "RULE-BASED SEVERITY: "; severity_str (severity features); nl].

Definition prompt_anomaly (anomaly_result : AnomalyResult) : string :=
  concat_all
    [nl;
     "STATISTICAL ANOMALY ANALYSIS:"; nl;
     "- Method: "; method anomaly_result; nl;
     "- Is Anomaly: "; bool_str (is_anomaly anomaly_result); nl;
     "- Z-Score: "; format_float ".2f" (z_score anomaly_result); nl;
     "- Details: ";
       default "N/A" (detail_str <$> details anomaly_result !! "interpretation");
       nl].

Definition prompt_task : string :=
  concat_all
    [nl;
     "TASK:"; nl;
     "Generate a concise business insight explaining this change. Your response must be actionable and relevant to C-level stakeholders.";
       nl;
     nl;
     "REQUIREMENTS:"; nl;
     "1. Summary: 2-3 sentences explaining what happened and why it matters"; nl;
     "2. Severity: critical | high | medium | low (you may adjust from rule-based if you have good reason)";
       nl;
     "3. Confidence: 0.0-1.0 based on data quality and pattern clarity"; nl;
     "4. Recommended Actions: 2-4 specific, actionable steps"; nl;
     "5. Key Findings: 2-4 bullet points highlighting important patterns"; nl;
     nl;
     "OUTPUT FORMAT: Return ONLY valid JSON matching this schema:"; nl;
     "{"; nl;
     "  "; dq; "summary"; dq; ": "; dq; "string"; dq; ","; nl;
     "  "; dq; "severity"; dq; ": "; dq; "critical|high|medium|low"; dq; ","; nl;
     "  "; dq; "confidence"; dq; ": 0.85,"; nl;
     "  "; dq; "recommended_actions"; dq; ": [";
       dq; "action1"; dq; ", "; dq; "action2"; dq; "],"; nl;
     "  "; dq; "key_findings"; dq; ": [";
       dq; "finding1"; dq; ", "; dq; "finding2"; dq; "]"; nl;
     "}"; nl;
     nl;
     "Generate your response now."].

Definition build_insight_prompt (metric_name : string) (features : FeatureSet)
    (anomaly_result : option AnomalyResult) : string :=
  let prompt := prompt_head metric_name features in
  let prompt :=
    match anomaly_result with
    | Some r => prompt +:+ prompt_anomaly r
    | None => prompt
    end in
  prompt +:+ prompt_task.

(* ===================================================================== *)
(** ** InsightService *)
(* ===================================================================== *)

Variable llm_client : LLMClient.
Variable settings : Settings.

(** [await self.llm_client.generate(prompt, response_schema, temperature)] *)
Definition call_generate (prompt : string) : M string :=
  fun log =>
    let result := generate llm_client (count_calls log) prompt in
    (result, log ++ [LLMCall prompt result]).

(** Truth value of [last_error], which is [None] or a string. *)
Definition truthy (last_error : option string) : bool :=
  match last_error with
  | Some s => negb (String.eqb s "")
  | None => false
  end.

(** The text that [prompt +=] appends. *)
Definition failure_note (last_error : string) : string :=
  concat_all
    [nl; nl; "PREVIOUS ATTEMPT FAILED: "; last_error; nl;
     "Ensure output is valid JSON."].

(** The body of [for attempt in range(llm_max_retries)], from iteration
    [attempt] on, with [remaining] iterations left; after the last one the
    statement following the loop raises. *)
Fixpoint retry_loop (remaining : nat) (attempt : Z) (prompt : string)
    (last_error : option string) : M string :=
  match remaining with
  | O => raise (PlainException "LLM retry limit exceeded")
  | S remaining' =>
      let prompt :=
        if (0 <? attempt)%Z && truthy last_error
        then prompt +:+ failure_note (default "" last_error)
        else prompt in
      try_except
        (response <- call_generate prompt ;;
         _ <- lift (json_loads response) ;;
         ret response)
        (fun e =>
           let last_error := Some (str_exn e) in
           if (attempt =? llm_max_retries settings - 1)%Z then raise e
           else retry_loop remaining' (attempt + 1) prompt last_error)
  end.

Definition _call_llm_with_retry (prompt : string) : M string :=
  retry_loop (Z.to_nat (llm_max_retries settings)) 0 prompt None.

(** [None] is Python's [None]: the function falls off its end for an input
    type other than "metrics". *)
Definition _extract_features (request : InsightRequest)
    : exn + option FeatureSet :=
  match input_type request with
  | metrics =>
      let values := default [] (get_values (data request)) in
      if (length values =? 0)%nat || (length values <? 2)%nat then
        inl (ValueError "Need at least 2 values in data.values")
      else
        match extract_from_metrics settings values (context request) with
        | inl e => inl e
        | inr fs => inr (Some fs)
        end
  | _ => inr None
  end.

Definition _get_metric_name (request : InsightRequest) : string :=
  match input_type request with
  | metrics =>
      match get_metric_name (data request) with
      | Some name => if String.eqb name "" then "Unknown Metric" else name
      | None => "Unknown Metric"
      end
  | text => "Text Analysis"
  | timeseries => default "Time Series" (get_series_name (data request))
  end.

Definition _generate_fallback_insight (features : FeatureSet)
    (metric_name : string) : InsightOutput :=
  let '(direction, action_verb) :=
    if Py.gtb (change_percent features) 0
    then ("increase", "investigate the cause of this growth")
    else ("decrease", "identify factors driving this decline") in
  let summary :=
    concat_all
      [metric_name; " experienced a ";
       format_float ".1f" (abs (change_percent features)); "% "; direction; " ";
       "from "; format_float "" (previous_value features); " to ";
       format_float "" (current_value features); ". ";
       "This change has been classified as "; severity_str (severity features);
       " severity based on "; "historical thresholds."] in
  {| summary := summary;
     insight_severity := severity features;
     confidence := 0.60;
     recommended_actions :=
       [concat_all ["Review "; metric_name;
                    " data for the past 7 days to identify patterns"];
        "Verify data quality and check for any anomalies in data collection";
        concat_all ["Consult with relevant teams to "; action_verb]];
     key_findings :=
       [concat_all [format_float ".1f" (abs (change_percent features));
                    "% change detected"];
        concat_all ["Current value: "; format_float "" (current_value features)];
        "Analysis based on rule-based thresholds (LLM unavailable)"] |}.

Definition zeroed_features : FeatureSet :=
  {| previous_value := 0; current_value := 0; change_absolute := 0;
     change_percent := 0; severity := low |}.

(** Which of the names [features] and [metric_name] are in [locals()] when
    the try block is left, and what they hold ([features] can hold
    [None]). *)
Record locals : Type := {
  local_features : option (option FeatureSet);
  local_metric_name : option string
}.

(** How the try block of [generate_insight] ends. *)
Inductive try_result : Type :=
| Completed (features : FeatureSet) (metric_name : string)
    (insight : InsightOutput) (fallback_used : bool)
| Raised (e : exn) (bound : locals).

(** Step 4: [json.loads(llm_output)], unpacked into the InsightOutput
    constructor. *)
Definition parse_output (llm_output : string) : exn + InsightOutput :=
  match json_loads llm_output with
  | inl e => inl e
  | inr obj => InsightOutput_of_json obj
  end.

(** [except (json.JSONDecodeError, ValidationError)] *)
Definition is_validation_failure (e : exn) : bool :=
  match e with
  | JSONDecodeError _ | ValidationError _ => true
  | _ => false
  end.

Definition try_block (request : InsightRequest) (log : list event)
    : try_result * list event :=
  match _extract_features request with
  | inl e =>
      (Raised e {| local_features := None; local_metric_name := None |}, log)
  | inr None =>
      (* features.dict() in the log message *)
      (Raised (AttributeError "'NoneType' object has no attribute 'dict'")
         {| local_features := Some None; local_metric_name := None |}, log)
  | inr (Some features) =>
      let anomaly_result :=
        match input_type request with
        | metrics =>
            let values := default [] (get_values (data request)) in
            if (3 <=? length values)%nat
            then Some (z_score_detection values 3.0)
            else None
        | _ => None
        end in
      let metric_name := _get_metric_name request in
      let prompt := build_insight_prompt metric_name features anomaly_result in
      let bound := {| local_features := Some (Some features);
                      local_metric_name := Some metric_name |} in
      match _call_llm_with_retry prompt log with
      | (inl e, log) => (Raised e bound, log)
      | (inr llm_output, log) =>
          match parse_output llm_output with
          | inr insight =>
              (Completed features metric_name insight false,
               log ++ [ModelOutputAccepted llm_output])
          | inl e =>
              if is_validation_failure e then
                (Completed features metric_name
                   (_generate_fallback_insight features metric_name) true,
                 log ++ [FallbackGenerated features metric_name])
              else (Raised e bound, log)
          end
      end
  end.

(** The handler [except Exception as e]: it fills in the names that are
    not in [locals()], then calls [_generate_fallback_insight]; when
    [features] holds [None] the first attribute access there raises.
    ([_get_metric_name] cannot raise, so the handler's inner bare [except]
    is never entered.) *)
Definition except_block (request : InsightRequest) (bound : locals)
    : M (FeatureSet * string * InsightOutput * bool) :=
  let features :=
    match local_features bound with
    | None => Some zeroed_features
    | Some held => held
    end in
  let metric_name :=
    match local_metric_name bound with
    | None => _get_metric_name request
    | Some name => name
    end in
  match features with
  | Some features =>
      _ <- emit (FallbackGenerated features metric_name) ;;
      ret (features, metric_name,
           _generate_fallback_insight features metric_name, true)
  | None =>
      raise (AttributeError "'NoneType' object has no attribute 'change_percent'")
  end.

(** Step 5. *)
Definition build_response (request : InsightRequest) (features : FeatureSet)
    (metric_name : string) (insight : InsightOutput) (fallback_used : bool)
    : InsightResponse :=
  {| response_user_id := user_id request;
     response_tenant_id := tenant_id request;
     input_summary :=
       {| metric_name := metric_name;
          data_points_count :=
            length (default [1; 2]%float (get_values (data request))) |};
     features := features;
     insight := insight;
     metadata :=
       {| processing_time_ms := elapsed_ms;
          provider := llm_provider settings;
          model_version := get_model_name llm_client;
          fallback_used := fallback_used |} |}.

Definition generate_insight (request : InsightRequest) : M InsightResponse :=
  fun log =>
    match try_block request log with
    | (Completed features metric_name insight fallback_used, log) =>
        (inr (build_response request features metric_name insight fallback_used),
         log)
    | (Raised _ bound, log) =>
        match except_block request bound log with
        | (inl e, log) => (inl e, log)
        | (inr (features, metric_name, insight, fallback_used), log) =>
            (inr (build_response request features metric_name insight
                    fallback_used), log)
        end
    end.

(* ===================================================================== *)
(** ** Sample collaborators and requests for the closed examples *)
(* ===================================================================== *)

(** A stand-in formatter (the examples do not read the formatted text). *)
Definition sample_format (spec : string) (x : float) : string := "#".

(** A stand-in JSON library: a JSON value is the text itself; the empty
    text does not parse. *)
Definition sample_json_loads (s : string) : exn + string :=
  if String.eqb s "" then
    inl (JSONDecodeError "Expecting value: line 1 column 1 (char 0)")
  else inr s.

Definition sample_output : InsightOutput :=
  {| summary := "Analysis indicates a notable trend change.";
     insight_severity := medium;
     confidence := 0.85;
     recommended_actions := ["Monitor closely"; "Alert relevant team members"];
     key_findings := ["Metric deviation"; "Pattern suggests systematic change"] |}.

Definition sample_of_json (obj : string) : exn + InsightOutput :=
  inr sample_output.

(** A client whose every call raises an error with text [msg]. *)
Definition failing_client (msg : string) : LLMClient :=
  {| generate := fun _ _ => inl (ProviderError msg);
     get_model_name := "mock-llm-v1" |}.

(** A client that answers every prompt with the same JSON text. *)
Definition answering_client : LLMClient :=
  {| generate := fun _ _ => inr "{}";
     get_model_name := "mock-llm-v1" |}.

Definition metrics_request (values : list float) : InsightRequest :=
  {| user_id := "test_user_123";
     tenant_id := "test_tenant";
     input_type := metrics;
     data := {| get_values := Some values;
                get_metric_name := Some "sales_data";
                get_series_name := None |};
     context := None |}.

Definition text_request : InsightRequest :=
  {| user_id := "test_user_123";
     tenant_id := "test_tenant";
     input_type := text;
     data := {| get_values := None;
                get_metric_name := None;
                get_series_name := None |};
     context := None |}.

(* ===================================================================== *)
(** ** Definitions that follow the specification's wording *)
(* ===================================================================== *)

(** The severity rule as the specification words it: the tiers are tried in
    the order critical, high, medium, each with an inclusive comparison;
    low otherwise. *)
Definition severity_rule (t_critical t_high t_medium a : float) : Severity :=
  if (t_critical <=? a)%float then critical
  else if (t_high <=? a)%float then high
  else if (t_medium <=? a)%float then medium
  else low.

(** The threshold of one tier: the caller's entry when the caller supplied
    a thresholds dict holding the tier, the built-in default when the
    supplied dict lacks it, and the configured setting when no dict was
    supplied. *)
Definition tier_threshold (ctx : option ContextConfig) (tier : string)
    (builtin configured : float) : float :=
  match ctx ≫= thresholds with
  | Some supplied => default builtin (supplied !! tier)
  | None => configured
  end.

(** The error an attempt of the retry loop ends with, when it fails: the
    exception [generate] raised, or the one [json.loads] raised on the text
    it returned. *)
Definition attempt_error (result : exn + string) : option exn :=
  match result with
  | inl e => Some e
  | inr response =>
      match json_loads response with
      | inl e => Some e
      | inr _ => None
      end
  end.

(** The next prompt as the specification words it: the note naming the
    failure is appended after every failed attempt. *)
Definition noted_prompt (prompt : string) (e : exn) : string :=
  prompt +:+ failure_note (str_exn e).

(** The next prompt as amended: the note is appended when the failure has a
    non-empty text, and the prompt is kept as it is otherwise. *)
Definition amended_prompt (prompt : string) (e : exn) : string :=
  if String.eqb (str_exn e) "" then prompt else noted_prompt prompt e.

(** [attempts_chain next k prompt calls]: [calls] are consecutive calls of
    [generate], the first one being the client's call number [k] and made
    with [prompt]; every call that has a successor failed with some error
    [e], and its successor is made with [next p e], where [p] is its own
    prompt (so the notes accumulate). *)
Fixpoint attempts_chain (next : string -> exn -> string) (k : nat)
    (prompt : string) (calls : list event) : Prop :=
  match calls with
  | [] => True
  | LLMCall p r :: rest =>
      p = prompt /\ r = generate llm_client k p /\
      match rest with
      | [] => True
      | _ :: _ =>
          exists e, attempt_error r = Some e /\
                    attempts_chain next (S k) (next p e) rest
      end
  | _ :: _ => False
  end.

(** The prompt an iteration of the loop sends, given the prompt and error
    text it starts with. *)
Definition entry_prompt (attempt : Z) (prompt : string)
    (last_error : option string) : string :=
  if (0 <? attempt)%Z && truthy last_error
  then prompt +:+ failure_note (default "" last_error)
  else prompt.

(** How the loop's result relates to its calls: a returned text is the
    parseable answer of the last call; a raised error is the error of the
    last of [n] failed calls (or the loop's own error when no call was
    made). *)
Definition loop_outcome (n : nat) (calls : list event)
    (result : exn + string) : Prop :=
  match result with
  | inr response =>
      exists p, last calls = Some (LLMCall p (inr response)) /\
                attempt_error (inr response) = None
  | inl e =>
      length calls = n /\
      match last calls with
      | Some (LLMCall _ r) => attempt_error r = Some e
      | Some _ => False
      | None => e = PlainException "LLM retry limit exceeded"
      end
  end.

(** Every attempt the client can be asked for fails. *)
Definition all_attempts_fail : Prop :=
  forall k prompt, attempt_error (generate llm_client k prompt) <> None.

(** The prompt the try block builds for a request whose features are
    [features]. *)
Definition prompt_for (request : InsightRequest) (features : FeatureSet)
    : string :=
  let anomaly_result :=
    match input_type request with
    | metrics =>
        let values := default [] (get_values (data request)) in
        if (3 <=? length values)%nat
        then Some (z_score_detection values 3.0)
        else None
    | _ => None
    end in
  build_insight_prompt (_get_metric_name request) features anomaly_result.

(** The response and the final event of the rule-based path. *)
Definition fallback_response (request : InsightRequest) (features : FeatureSet)
    : InsightResponse :=
  build_response request features (_get_metric_name request)
    (_generate_fallback_insight features (_get_metric_name request)) true.

Definition fallback_event (request : InsightRequest) (features : FeatureSet)
    : event :=
  FallbackGenerated features (_get_metric_name request).

(** What [generate_insight] returns and logs once the features are there
    and the retry loop has ended with [result] after [calls]. *)
Definition outcome_after_loop (request : InsightRequest) (features : FeatureSet)
    (log calls : list event) (result : exn + string)
    : (exn + InsightResponse) * list event :=
  match result with
  | inr llm_output =>
      match parse_output llm_output with
      | inr insight =>
          (inr (build_response request features (_get_metric_name request)
                  insight false),
           log ++ calls ++ [ModelOutputAccepted llm_output])
      | inl _ =>
          (inr (fallback_response request features),
           log ++ calls ++ [fallback_event request features])
      end
  | inl _ =>
      (inr (fallback_response request features),
       log ++ calls ++ [fallback_event request features])
  end.

(* ===================================================================== *)
(** ** Further definitions for statements about the service *)
(* ===================================================================== *)

(** [q] is [p] with some text appended. *)
Definition extends (p q : string) : Prop := exists suffix, q = p +:+ suffix.

(** Each prompt of the list extends the one before it. *)
Fixpoint growing (prompts : list string) : Prop :=
  match prompts with
  | p :: (q :: _) as rest => extends p q /\ growing rest
  | _ => True
  end.

(** The last event of a log is the one that produced the insight, and all
    events before it are calls of the model. *)
Definition calls_then_producer (log : list event) : Prop :=
  exists calls producer,
    log = calls ++ [producer] /\
    Forall (fun ev => is_call ev = true) calls /\
    is_call producer = false.

(** Every character of [s] satisfies [P]. *)
Fixpoint all_chars (P : Ascii.ascii -> bool) (s : string) : bool :=
  match s with
  | EmptyString => true
  | String c s' => P c && all_chars P s'
  end.

(** [s] holds [part] somewhere inside. *)
Definition has_part (part s : string) : Prop :=
  exists before after, s = before +:+ part +:+ after.

(* ===================================================================== *)
(** ** AnomalyDetector.rolling_std_detection *)
(* ===================================================================== *)

(** A value of the [details] dict as [rolling_std_detection] fills it: a
    float, a string, or the int [window_size]. *)
Inductive rolling_detail : Type :=
| RFloat (x : float)
| RStr (s : string)
| RInt (n : Z).

(** The AnomalyResult of [rolling_std_detection]. *)
Record RollingResult : Type := {
  rolling_is_anomaly : bool;
  rolling_z_score : float;
  rolling_method : string;
  rolling_details : gmap string rolling_detail
}.

Definition rolling_std_detection (values : list float) (window : Z)
    (threshold : float) : exn + RollingResult :=
  if (Z.of_nat (length values) <? window + 1)%Z then
    inr {| rolling_is_anomaly := false;
           rolling_z_score := 0;
           rolling_method := "rolling_std";
           rolling_details :=
             {[ "error" :=
                  RStr (concat_all ["Need at least ";
                                    PyStr.of_int (window + 1); " values"]) ]} |}
  else
    let arr := values in
    let rolling_window := PyNum.slice arr (- (window + 1)) (-1) in
    let rolling_mean := np.mean rolling_window in
    let rolling_std := np.std rolling_window in
    if (rolling_std =? 0)%float then
      inr {| rolling_is_anomaly := false;
             rolling_z_score := 0;
             rolling_method := "rolling_std";
             rolling_details :=
               <["rolling_mean" := RFloat rolling_mean]>
               (<["rolling_std" := RFloat 0]>
               (<["note" := RStr "No variance in rolling window"]> ∅)) |}
    else
      match Py.item values (-1) with
      | None => inl (IndexError "list index out of range")
      | Some current_value =>
          let deviation := abs (current_value - rolling_mean) in
          let threshold_value := (threshold * rolling_std)%float in
          let is_anomaly := Py.gtb deviation threshold_value in
          inr {| rolling_is_anomaly := is_anomaly;
                 rolling_z_score := (deviation / rolling_std)%float;
                 rolling_method := "rolling_std";
                 rolling_details :=
                   <["rolling_mean" := RFloat rolling_mean]>
                   (<["rolling_std" := RFloat rolling_std]>
                   (<["current_value" := RFloat current_value]>
                   (<["deviation" := RFloat deviation]>
                   (<["threshold_value" := RFloat threshold_value]>
                   (<["window_size" := RInt window]>
                   (<["interpretation" :=
                        RStr (concat_all
                          ["Value deviates by "; format_float ".2f" deviation;
                           " (threshold: ";
                           format_float ".2f" threshold_value; ") ";
                           verdict_str is_anomaly])]>
                    ∅)))))) |}
      end.

(* ===================================================================== *)
(** ** Stored rows (app/models/database.py, InsightRepository.create) *)
(* ===================================================================== *)

(** A value in a JSONB column as [InsightRepository.create] fills it from
    [FeatureSet.dict()] and [InsightOutput.dict()]: a string, a float or a
    list of strings. *)
Inductive jsonb : Type :=
| JString (s : string)
| JNumber (x : float)
| JStrings (l : list string).

(** [a != b] *)
Definition jsonb_ne (a b : jsonb) : bool :=
  match a, b with
  | JString s, JString t => negb (bool_decide (s = t))
  | JNumber x, JNumber y => Py.neb x y
  | JStrings l, JStrings m => negb (bool_decide (l = m))
  | _, _ => true
  end.

(** [v < x] with [x] a float: a string or a list on the left raises. *)
Definition jsonb_lt_float (v : jsonb) (x : float) : exn + bool :=
  match v with
  | JNumber y => inr (y <? x)%float
  | JString _ =>
      inl (TypeError
             "'<' not supported between instances of 'str' and 'float'")
  | JStrings _ =>
      inl (TypeError
             "'<' not supported between instances of 'list' and 'float'")
  end.

(** [features.dict()] *)
Definition FeatureSet_dict (fs : FeatureSet) : gmap string jsonb :=
  <["previous_value" := JNumber (previous_value fs)]>
  (<["current_value" := JNumber (current_value fs)]>
  (<["change_absolute" := JNumber (change_absolute fs)]>
  (<["change_percent" := JNumber (change_percent fs)]>
  (<["severity" := JString (severity_str (severity fs))]> ∅)))).

(** [insight.dict()] *)
Definition InsightOutput_dict (o : InsightOutput) : gmap string jsonb :=
  <["summary" := JString (summary o)]>
  (<["severity" := JString (severity_str (insight_severity o))]>
  (<["confidence" := JNumber (confidence o)]>
  (<["recommended_actions" := JStrings (recommended_actions o)]>
  (<["key_findings" := JStrings (key_findings o)]> ∅)))).

(** A row of the table [insights], with the columns [DriftMonitor] reads;
    [row_insight_id] is [str(insight.insight_id)] and [row_created_at] is
    [insight.created_at.isoformat()]. *)
Record InsightRow : Type := {
  row_insight_id : string;
  row_features : gmap string jsonb;
  row_llm_output : gmap string jsonb;
  row_created_at : string
}.

(** The row [InsightRepository.create] stores for a response whose
    [insight_id] and [timestamp] print as given. *)
Definition row_of_response (insight_id timestamp : string)
    (insight_data : InsightResponse) : InsightRow :=
  {| row_insight_id := insight_id;
     row_features := FeatureSet_dict (features insight_data);
     row_llm_output := InsightOutput_dict (insight insight_data);
     row_created_at := timestamp |}.

(* ===================================================================== *)
(** ** DriftMonitor (app/services/drift_monitor.py) *)
(* ===================================================================== *)

Record SeverityMismatch : Type := {
  mismatch_insight_id : string;
  mismatch_rule_severity : jsonb;
  mismatch_llm_severity : jsonb;
  mismatch_created_at : string
}.

Record ConfidenceDrop : Type := {
  drop_insight_id : string;
  drop_confidence : jsonb
}.

(** The variables the loop of [detect_drift] updates. *)
Record DriftCounters : Type := {
  disagreements : Z;
  severity_mismatches : list SeverityMismatch;
  confidence_drop : list ConfidenceDrop
}.

(** One pass of [for insight in insights]. *)
Definition drift_loop_body (insight : InsightRow) (st : DriftCounters)
    : exn + DriftCounters :=
  let rule_severity :=
    default (JString "unknown") (row_features insight !! "severity") in
  let llm_severity :=
    default (JString "unknown") (row_llm_output insight !! "severity") in
  let llm_confidence :=
    default (JNumber 0) (row_llm_output insight !! "confidence") in
  let st1 :=
    if jsonb_ne rule_severity llm_severity then
      {| disagreements := disagreements st + 1;
         severity_mismatches :=
           severity_mismatches st ++
           [{| mismatch_insight_id := row_insight_id insight;
               mismatch_rule_severity := rule_severity;
               mismatch_llm_severity := llm_severity;
               mismatch_created_at := row_created_at insight |}];
         confidence_drop := confidence_drop st |}
    else st in
  match jsonb_lt_float llm_confidence 0.5 with
  | inl e => inl e
  | inr true =>
      inr {| disagreements := disagreements st1;
             severity_mismatches := severity_mismatches st1;
             confidence_drop :=
               confidence_drop st1 ++
               [{| drop_insight_id := row_insight_id insight;
                   drop_confidence := llm_confidence |}] |}
  | inr false => inr st1
  end.

Fixpoint drift_loop (insights : list InsightRow) (st : DriftCounters)
    : exn + DriftCounters :=
  match insights with
  | [] => inr st
  | insight :: rest =>
      match drift_loop_body insight st with
      | inl e => inl e
      | inr st' => drift_loop rest st'
      end
  end.

Definition _get_recommendation (drift_rate threshold : float) : string :=
  if (drift_rate <? threshold * 0.5)%float then
    "No action needed. LLM and rules are aligned."
  else if (drift_rate <? threshold)%float then
    "Monitor closely. Slight divergence detected."
  else if (drift_rate <? threshold * 1.5)%float then
    "Review prompt templates. Significant drift detected."
  else
    "URGENT: Major drift detected. Review LLM provider updates and consider prompt retraining.".

(** The dict [detect_drift] returns when there are rows. *)
Record DriftReport : Type := {
  status : string;
  drift_rate : float;
  total_insights : Z;
  report_disagreements : Z;
  report_threshold : float;
  period_days : Z;
  low_confidence_count : Z;
  report_severity_mismatches : list SeverityMismatch;
  recommendation : string
}.

Inductive DriftResult : Type :=
| NoData (no_data_status message : string)
| Drift (report : DriftReport).

(** [timedelta(days=days)] for an int: the number of days it holds.  The
    constructor refuses a magnitude above 999999999, and before that a
    number that does not fit a C int. *)
Definition timedelta_days (days : Z) : exn + Z :=
  if ((days <? -2147483648) || (2147483647 <? days))%Z then
    inl (OverflowError "Python int too large to convert to C int")
  else if (999999999 <? Z.abs days)%Z then
    inl (OverflowError
           (concat_all ["days="; PyStr.of_int days;
                        "; must have magnitude <= 999999999"]))
  else inr days.

(** The ordinals of [date.min] and [date.max] (0001-01-01, 9999-12-31). *)
Definition MINORDINAL : Z := 1.
Definition MAXORDINAL : Z := 3652059.

(** [now - delta] for a datetime [now] and a timedelta of whole days, on
    the ordinal of the date (the time of day is unchanged): the result
    must be a date of the years 1 to 9999. *)
Definition datetime_sub_days (now_ordinal delta_days : Z) : exn + Z :=
  let ordinal := (now_ordinal - delta_days)%Z in
  if ((MINORDINAL <=? ordinal) && (ordinal <=? MAXORDINAL))%Z then inr ordinal
  else inl (OverflowError "date value out of range").

(** [cutoff_date = datetime.utcnow() - timedelta(days=days)], with
    [utcnow] the ordinal of the current UTC date. *)
Definition cutoff_date (utcnow days : Z) : exn + Z :=
  match timedelta_days days with
  | inl e => inl e
  | inr delta => datetime_sub_days utcnow delta
  end.

(** [detect_drift]: [utcnow] is the ordinal of the current UTC date and
    [insights] the rows the query returns for the cutoff date (those
    created in the last [days] days).  In [drift_rate] the branch for
    [total <= 0] is never taken, the list being non-empty. *)
Definition detect_drift (utcnow : Z) (insights : list InsightRow) (days : Z)
    (disagreement_threshold : float) : exn + DriftResult :=
  match cutoff_date utcnow days with
  | inl e => inl e
  | inr _ =>
  match insights with
  | [] => inr (NoData "no_data" "Not enough data to detect drift")
  | _ :: _ =>
      let total := Z.of_nat (length insights) in
      match drift_loop insights
              {| disagreements := 0; severity_mismatches := [];
                 confidence_drop := [] |} with
      | inl e => inl e
      | inr st =>
          let rate :=
            if (0 <? total)%Z
            then PyNum.int_truediv (disagreements st) total
            else 0%float in
          let is_drifting := Py.gtb rate disagreement_threshold in
          inr (Drift
            {| status := if is_drifting then "drift_detected" else "normal";
               drift_rate := PyNum.round_ndigits rate 3;
               total_insights := total;
               report_disagreements := disagreements st;
               report_threshold := disagreement_threshold;
               period_days := days;
               low_confidence_count := Z.of_nat (length (confidence_drop st));
               report_severity_mismatches :=
                 PyNum.slice (severity_mismatches st) 0 10;
               recommendation :=
                 _get_recommendation rate disagreement_threshold |})
      end
  end
  end.

(* ===================================================================== *)
(** ** Saving and the callers of generate_insight
       (app/api/routes/insights.py, app/tasks/insight_tasks.py) *)
(* ===================================================================== *)

(** The database session: [repo_create result db] is
    [InsightRepository(session).create(result)] with the session opened and
    closed around it, on the database [db]. *)
Variable database : Type.
Variable repo_create :
  InsightResponse -> database -> (exn + unit) * database.

(** [isinstance(e, ValueError)]: json's and pydantic's errors are
    subclasses of ValueError. *)
Definition isinstance_ValueError (e : exn) : bool :=
  match e with
  | ValueError _ | JSONDecodeError _ | ValidationError _ => true
  | _ => false
  end.

(** What the route answers: the body with status 200, or an
    HTTPException. *)
Inductive http_result : Type :=
| Ok200 (body : InsightResponse)
| HTTPException (status_code : Z) (http_detail : string).

(** The two handlers of the route [generate_insight]. *)
Definition route_handler (e : exn) : http_result :=
  if isinstance_ValueError e then HTTPException 400 (str_exn e)
  else HTTPException 500 "Internal server error".

(** POST /api/v1/generate-insight, once the rate limiter has let the
    validated request through. *)
Definition route_generate_insight (insight_request : InsightRequest)
    (log : list event) (db : database)
    : http_result * list event * database :=
  match generate_insight insight_request log with
  | (inl e, log') => (route_handler e, log', db)
  | (inr result, log') =>
      match repo_create result db with
      | (inl e, db') => (route_handler e, log', db')
      | (inr _, db') => (Ok200 result, log', db')
      end
  end.

(** The items of a batch are dicts; [InsightRequest_of_raw] is the
    validation pydantic does when InsightRequest is built from it, and
    [uuid4_str i] the [str(result.insight_id)] of the response built for
    item [i]. *)
Variable raw_request : Type.
Variable InsightRequest_of_raw : raw_request -> exn + InsightRequest.
Variable uuid4_str : nat -> string.

Record BatchResults : Type := {
  total : Z;
  successful : Z;
  failed : Z;
  insight_ids : list string
}.

Definition item_failed (results : BatchResults) : BatchResults :=
  {| total := total results; successful := successful results;
     failed := failed results + 1; insight_ids := insight_ids results |}.

Definition item_succeeded (results : BatchResults) (insight_id : string)
    : BatchResults :=
  {| total := total results; successful := successful results + 1;
     failed := failed results;
     insight_ids := insight_ids results ++ [insight_id] |}.

(** One pass of [for request_data in requests_data], for the item at
    position [i]. *)
Definition batch_item (i : nat) (request_data : raw_request)
    (results : BatchResults) (log : list event) (db : database)
    : BatchResults * list event * database :=
  match InsightRequest_of_raw request_data with
  | inl _ => (item_failed results, log, db)
  | inr request =>
      match generate_insight request log with
      | (inl _, log') => (item_failed results, log', db)
      | (inr result, log') =>
          match repo_create result db with
          | (inl _, db') => (item_failed results, log', db')
          | (inr _, db') => (item_succeeded results (uuid4_str i), log', db')
          end
      end
  end.

Fixpoint batch_loop (i : nat) (requests_data : list raw_request)
    (results : BatchResults) (log : list event) (db : database)
    : BatchResults * list event * database :=
  match requests_data with
  | [] => (results, log, db)
  | request_data :: rest =>
      let '(results', log', db') := batch_item i request_data results log db in
      batch_loop (S i) rest results' log' db'
  end.

Definition batch_generate_insights (requests_data : list raw_request)
    (log : list event) (db : database)
    : BatchResults * list event * database :=
  batch_loop 0 requests_data
    {| total := Z.of_nat (length requests_data); successful := 0;
       failed := 0; insight_ids := [] |}
    log db.

(** The batch items that are valid requests of type metrics. *)
Definition is_metrics_item (request_data : raw_request) : bool :=
  match InsightRequest_of_raw request_data with
  | inr request =>
      match input_type request with metrics => true | _ => false end
  | inl _ => false
  end.

(** Whether the stored value of [confidence] can be compared with a
    float. *)
Definition confidence_comparable (insight : InsightRow) : bool :=
  match row_llm_output insight !! "confidence" with
  | Some (JString _) | Some (JStrings _) => false
  | _ => true
  end.

(** The rows of saved responses, each with the printed id and timestamp it
    was given. *)
Definition stored_row (saved : string * string * InsightResponse)
    : InsightRow :=
  row_of_response saved.1.1 saved.1.2 saved.2.

Definition from_model (saved : string * string * InsightResponse) : bool :=
  negb (fallback_used (metadata saved.2)).

(* ===================================================================== *)
(** ** More stand-ins for the closed instances *)
(* ===================================================================== *)

(** Settings with the retry loop switched off. *)
Definition no_retry_settings : Settings := {|
  llm_provider := "mock";
  llm_max_retries := 0;
  llm_timeout_seconds := 30;
  severity_threshold_critical := 50;
  severity_threshold_high := 25;
  severity_threshold_medium := 10
|}.

(** A client that times out on the first call and answers afterwards. *)
Definition flaky_client : LLMClient :=
  {| generate := fun k _ =>
       match k with
       | O => inl (ProviderError "timeout")
       | S _ => inr "{}"
       end;
     get_model_name := "mock-llm-v1" |}.

(** A database that keeps every response it is given. *)
Definition sample_repo_create (result : InsightResponse)
    (db : list InsightResponse) : (exn + unit) * list InsightResponse :=
  (inr tt, db ++ [result]).

(** Batch items for the stand-in validation: a dict that validates to a
    request, or one that does not. *)
Definition sample_validate (request_data : option InsightRequest)
    : exn + InsightRequest :=
  match request_data with
  | Some request => inr request
  | None => inl (ValidationError "1 validation error for InsightRequest")
  end.

Definition sample_uuid4_str (i : nat) : string :=
  "00000000-0000-4000-8000-00000000000" +:+ PyStr.of_int (Z.of_nat i).

(* ===================================================================== *)
(** ** Request validation (app/models/schemas.py) *)
(* ===================================================================== *)

(** The [data] dict of a payload before validation: the entries the three
    data models read, each of the type its model names when it is present
    ([None] for an absent key); a point of [data_points] is its timestamp
    text and its value. *)
Record RawData : Type := {
  raw_metric_name : option string;
  raw_values : option (list float);
  raw_content : option string;
  raw_series_name : option string;
  raw_data_points : option (list (string * float))
}.

(** The keyword arguments [InsightRequest] is built from. *)
Record Payload : Type := {
  payload_user_id : string;
  payload_tenant_id : string;
  payload_input_type : InputType;
  payload_data : RawData;
  payload_context : option ContextConfig
}.

(** The texts pydantic gives its errors: [str(e)] for the error of a data
    model, and for the ValidationError of the request. *)
Variable data_error_text : InputType -> RawData -> string.
Variable request_error_text : Payload -> string.

Definition input_type_str (t : InputType) : string :=
  match t with
  | metrics => "metrics" | text => "text" | timeseries => "timeseries"
  end.

(** [MetricsData], [TextData] and [TimeSeriesData] applied to the dict and
    turned back into a dict with [.dict()]: [None] when the model refuses
    it (a required field absent, [values] or [data_points] with fewer than
    2 items, [content] empty). *)
Definition MetricsData_dict (v : RawData) : option Data :=
  match raw_metric_name v, raw_values v with
  | Some name, Some values =>
      if (length values <? 2)%nat then None
      else Some {| get_values := Some values;
                   get_metric_name := Some name;
                   get_series_name := None |}
  | _, _ => None
  end.

Definition TextData_dict (v : RawData) : option Data :=
  match raw_content v with
  | Some content =>
      if (String.length content <? 1)%nat then None
      else Some {| get_values := None;
                   get_metric_name := None;
                   get_series_name := None |}
  | None => None
  end.

Definition TimeSeriesData_dict (v : RawData) : option Data :=
  match raw_series_name v, raw_data_points v with
  | Some name, Some points =>
      if (length points <? 2)%nat then None
      else Some {| get_values := None;
                   get_metric_name := None;
                   get_series_name := Some name |}
  | _, _ => None
  end.

(** The validator of the field [data]. *)
Definition validate_data_format (input_type : InputType) (v : RawData)
    : exn + Data :=
  let validated :=
    match input_type with
    | metrics => MetricsData_dict v
    | text => TextData_dict v
    | timeseries => TimeSeriesData_dict v
    end in
  match validated with
  | Some d => inr d
  | None =>
      inl (ValueError
             (concat_all ["Invalid data format for ";
                          input_type_str input_type; ": ";
                          data_error_text input_type v]))
  end.

(** [InsightRequest] applied to the payload: the request every caller of
    the service builds (the route, the tasks), or pydantic's
    ValidationError when the validator of [data] raises. *)
Definition InsightRequest_of_payload (p : Payload) : exn + InsightRequest :=
  match validate_data_format (payload_input_type p) (payload_data p) with
  | inl _ => inl (ValidationError (request_error_text p))
  | inr d =>
      inr {| user_id := payload_user_id p;
             tenant_id := payload_tenant_id p;
             input_type := payload_input_type p;
             data := d;
             context := payload_context p |}
  end.

(** The payloads of the API tests: sales_data with the given values, and a
    text. *)
Definition metrics_payload (values : list float) : Payload :=
  {| payload_user_id := "test_user_123";
     payload_tenant_id := "test_tenant";
     payload_input_type := metrics;
     payload_data := {| raw_metric_name := Some "sales_data";
                        raw_values := Some values;
                        raw_content := None;
                        raw_series_name := None;
                        raw_data_points := None |};
     payload_context := None |}.

Definition text_payload (content : string) : Payload :=
  {| payload_user_id := "test_user_123";
     payload_tenant_id := "test_tenant";
     payload_input_type := text;
     payload_data := {| raw_metric_name := None;
                        raw_values := None;
                        raw_content := Some content;
                        raw_series_name := None;
                        raw_data_points := None |};
     payload_context := None |}.

Definition sample_error_text (t : InputType) (v : RawData) : string :=
  "1 validation error".

Definition sample_request_error_text (p : Payload) : string :=
  "1 validation error for InsightRequest".

(* ===================================================================== *)
(** ** Facts about binary64 comparisons and list indexing *)
(* ===================================================================== *)

Lemma float_pos_nonzero (c : float) :
  (0 <? c)%float = true -> (c =? 0)%float = false.
Proof.
  rewrite FloatAxioms.ltb_spec, FloatAxioms.eqb_spec.
  change (Prim2SF 0) with (S754_zero false).
  destruct (Prim2SF c) as [s|s| |s m e]; try destruct s;
    cbv [SFltb SFeqb SFcompare]; congruence.
Qed.

Lemma float_neg_nonzero (c : float) :
  (c <? 0)%float = true -> (c =? 0)%float = false /\ (0 <? c)%float = false.
Proof.
  rewrite !FloatAxioms.ltb_spec, FloatAxioms.eqb_spec.
  change (Prim2SF 0) with (S754_zero false).
  destruct (Prim2SF c) as [s|s| |s m e]; try destruct s;
    cbv [SFltb SFeqb SFcompare]; intuition congruence.
Qed.

Lemma item_last_two {A} (l : list A) :
  (2 <= length l)%nat ->
  exists p c, Py.item l (-2) = Some p /\ Py.item l (-1) = Some c.
Proof.
  intros Hlen. unfold Py.item. simpl.
  destruct (Z.ltb_spec (Z.of_nat (length l) + -2) 0) as [?|_]; [lia|].
  destruct (Z.ltb_spec (Z.of_nat (length l) + -1) 0) as [?|_]; [lia|].
  destruct (lookup_lt_is_Some_2 l (Z.to_nat (Z.of_nat (length l) + -2)))
    as [p Hp]; [lia|].
  destruct (lookup_lt_is_Some_2 l (Z.to_nat (Z.of_nat (length l) + -1)))
    as [c Hc]; [lia|].
  exists p, c. split; assumption.
Qed.

(** For two or more values the extractor returns the FeatureSet built from
    the last two. *)
Lemma extract_from_metrics_ok (s : Settings) (values : list float)
    (ctx : option ContextConfig) :
  (2 <= length values)%nat ->
  exists p c,
    Py.item values (-2) = Some p /\ Py.item values (-1) = Some c /\
    extract_from_metrics s values ctx =
      inr {| previous_value := p;
             current_value := c;
             change_absolute := Py.round2 (c - p);
             change_percent := Py.round2 (raw_change_percent p c);
             severity := classify_severity (effective_thresholds s ctx)
                           (abs (raw_change_percent p c)) |}.
Proof.
  intros Hlen. destruct (item_last_two values Hlen) as (p & c & Hp & Hc).
  exists p, c. repeat split; try assumption.
  unfold extract_from_metrics.
  destruct (Nat.ltb_spec (length values) 2) as [?|_]; [lia|].
  rewrite Hp, Hc. reflexivity.
Qed.

Lemma extract_from_metrics_short (s : Settings) (values : list float)
    (ctx : option ContextConfig) :
  (length values < 2)%nat ->
  extract_from_metrics s values ctx =
    inl (ValueError "Need at least 2 values for comparison").
Proof.
  intros Hlen. unfold extract_from_metrics.
  destruct (Nat.ltb_spec (length values) 2) as [_|?]; [reflexivity|lia].
Qed.

Lemma float_eqb_geb (a t : float) :
  (a =? t)%float = true -> Py.geb a t = true.
Proof.
  unfold Py.geb. rewrite FloatAxioms.leb_spec, FloatAxioms.eqb_spec.
  destruct (Prim2SF a) as [sa|sa| |sa ma ea], (Prim2SF t) as [st|st| |st mt et];
    cbv [SFleb SFeqb SFcompare]; try congruence;
    try (destruct sa, st; congruence).
  destruct sa, st; try congruence;
    destruct (Z.compare_spec ea et) as [->|?|?]; try congruence;
    rewrite Z.compare_refl;
    change (Pos.compare_cont Eq ma mt) with (Pos.compare ma mt);
    change (Pos.compare_cont Eq mt ma) with (Pos.compare mt ma);
    rewrite (Pos.compare_antisym ma mt);
    destruct (Pos.compare ma mt); simpl; congruence.
Qed.

(* ===================================================================== *)
(** ** The embedding on the inputs of the repository's tests *)
(* ===================================================================== *)

(** [round(x, 2)] on doubles whose decimal expansion is a near tie. *)
Example round2_samples :
  map Py.round2 [0.125; 2.675; 1.005; 8.345; 49.99600000000001; -0.001]%float
  = [0.12; 2.67; 1.0; 8.35; 50.0; -0.0]%float.
Proof. vm_compute. reflexivity. Qed.

Example test_basic_increase :
  extract_from_metrics default_settings [100; 150]%float None
  = inr {| previous_value := 100; current_value := 150; change_absolute := 50;
           change_percent := 50; severity := critical |}.
Proof. vm_compute. reflexivity. Qed.

Example test_basic_decrease :
  extract_from_metrics default_settings [100; 80]%float None
  = inr {| previous_value := 100; current_value := 80; change_absolute := -20;
           change_percent := -20; severity := medium |}.
Proof. vm_compute. reflexivity. Qed.

Example test_no_change :
  extract_from_metrics default_settings [100; 100]%float None
  = inr {| previous_value := 100; current_value := 100; change_absolute := 0;
           change_percent := 0; severity := low |}.
Proof. vm_compute. reflexivity. Qed.

Example test_custom_thresholds :
  let custom :=
    {| baseline := None;
       thresholds := Some (<["critical" := 100%float]>
                          (<["high" := 50%float]>
                          (<["medium" := 20%float]> ∅))) |} in
  (exists fs, extract_from_metrics default_settings [100; 130]%float None = inr fs
              /\ severity fs = high) /\
  (exists fs, extract_from_metrics default_settings [100; 130]%float (Some custom)
                = inr fs /\ severity fs = medium).
Proof. split; eexists; split; vm_compute; reflexivity. Qed.

Example test_insufficient_data :
  extract_from_metrics default_settings [100]%float None
  = inl (ValueError "Need at least 2 values for comparison").
Proof. reflexivity. Qed.

Example test_z_score_insufficient_data :
  let result := z_score_detection [100; 105]%float 3.0 in
  is_anomaly result = false /\ is_Some (details result !! "error").
Proof. split; [reflexivity|]. eexists. reflexivity. Qed.

Example test_z_score_zero_std :
  let result := z_score_detection [100; 100; 100; 100]%float 3.0 in
  is_anomaly result = false /\ z_score result = 0%float /\
  details result !! "note" = Some (DStr "No variance in data").
Proof. repeat split; vm_compute; reflexivity. Qed.

Example test_iqr_detection_normal :
  is_anomaly
    (iqr_detection [100; 105; 110; 108; 112; 115; 120; 118]%float 1.5) = false.
Proof. vm_compute. reflexivity. Qed.

(* ===================================================================== *)
(** ** FeatureExtractor: the percent-change rule, severity, and the
       absolute change *)
(* ===================================================================== *)

(** C5. For every list of at least two values, extract_from_metrics returns
    a FeatureSet whose change_percent follows the three-case rule on
    previous = values[-2] and current = values[-1]: 0.0 when both are 0;
    when previous is 0 and current is not, +1000.0 if current > 0 and
    -1000.0 if not, so +1000.0 when current > 0 and -1000.0 when
    current < 0; and otherwise (previous not 0)
    ((current - previous) / previous) * 100 rounded to two decimals.  In
    particular [0, 100] gives 1000.0 with severity critical, and [0, -100]
    gives -1000.0. *)
Theorem C5_change_percent_rule :
  (forall (s : Settings) (values : list float) (ctx : option ContextConfig),
     (2 <= length values)%nat ->
     exists p c fs,
       Py.item values (-2) = Some p /\ Py.item values (-1) = Some c /\
       extract_from_metrics s values ctx = inr fs /\
       ((p =? 0)%float = true -> (c =? 0)%float = true ->
          change_percent fs = 0%float) /\
       ((p =? 0)%float = true -> (c =? 0)%float = false ->
          change_percent fs = if (0 <? c)%float then 1000%float
                              else (-1000)%float) /\
       ((p =? 0)%float = true -> (0 <? c)%float = true ->
          change_percent fs = 1000%float) /\
       ((p =? 0)%float = true -> (c <? 0)%float = true ->
          change_percent fs = (-1000)%float) /\
       ((p =? 0)%float = false ->
          change_percent fs = Py.round2 ((c - p) / p * 100)%float)) /\
  (exists fs,
     extract_from_metrics default_settings [0; 100]%float None = inr fs /\
     change_percent fs = 1000%float /\ severity fs = critical) /\
  (exists fs,
     extract_from_metrics default_settings [0; -100]%float None = inr fs /\
     change_percent fs = (-1000)%float).
Proof.
  split; [|split].
  - intros s values ctx Hlen.
    destruct (extract_from_metrics_ok s values ctx Hlen)
      as (p & c & Hp & Hc & Hfs).
    exists p, c. eexists. repeat split; try eassumption; simpl;
      unfold raw_change_percent.
    + intros -> ->. reflexivity.
    + intros -> ->. unfold Py.gtb. destruct (0 <? c)%float; reflexivity.
    + intros -> Hpos. rewrite (float_pos_nonzero c Hpos).
      unfold Py.gtb. rewrite Hpos. reflexivity.
    + intros -> Hneg. destruct (float_neg_nonzero c Hneg) as [-> Hle].
      unfold Py.gtb. rewrite Hle. reflexivity.
    + intros ->. reflexivity.
  - eexists. repeat split; vm_compute; reflexivity.
  - eexists. repeat split; vm_compute; reflexivity.
Qed.

(** C6, as amended. Severity is classified from the absolute value of the
    percent change before it is rounded for the FeatureSet, against the
    thresholds in force (settings 50 / 25 / 10 by default, each tier
    overridable on its own by the caller), in the order critical, high,
    medium, else low, with an inclusive comparison; an unrounded change equal
    to the critical threshold is critical. *)
Theorem C6_severity_from_unrounded_change (s : Settings) (values : list float)
    (ctx : option ContextConfig) :
  (2 <= length values)%nat ->
  exists p c fs,
    Py.item values (-2) = Some p /\ Py.item values (-1) = Some c /\
    extract_from_metrics s values ctx = inr fs /\
    let a := abs (raw_change_percent p c) in
    let t_critical :=
      tier_threshold ctx "critical" 50 (severity_threshold_critical s) in
    let t_high := tier_threshold ctx "high" 25 (severity_threshold_high s) in
    let t_medium :=
      tier_threshold ctx "medium" 10 (severity_threshold_medium s) in
    severity fs = severity_rule t_critical t_high t_medium a /\
    ((a =? t_critical)%float = true -> severity fs = critical) /\
    change_percent fs = Py.round2 (raw_change_percent p c) /\
    severity_threshold_critical default_settings = 50%float /\
    severity_threshold_high default_settings = 25%float /\
    severity_threshold_medium default_settings = 10%float.
Proof.
  intros Hlen.
  destruct (extract_from_metrics_ok s values ctx Hlen)
    as (p & c & Hp & Hc & Hfs).
  exists p, c. eexists. split; [exact Hp|]. split; [exact Hc|].
  split; [exact Hfs|]. cbv zeta. simpl severity. simpl change_percent.
  assert (Hrule :
    classify_severity (effective_thresholds s ctx) (abs (raw_change_percent p c))
    = severity_rule
        (tier_threshold ctx "critical" 50 (severity_threshold_critical s))
        (tier_threshold ctx "high" 25 (severity_threshold_high s))
        (tier_threshold ctx "medium" 10 (severity_threshold_medium s))
        (abs (raw_change_percent p c))).
  { unfold classify_severity, severity_rule, tier_threshold,
      effective_thresholds, Py.geb.
    destruct ctx as [[b [d|]]|]; simpl; try reflexivity;
      rewrite lookup_insert_eq;
      rewrite lookup_insert_ne, lookup_insert_eq by discriminate;
      rewrite !lookup_insert_ne, lookup_insert_eq by discriminate;
      reflexivity. }
  repeat split; try reflexivity.
  - exact Hrule.
  - intros Heq. rewrite Hrule. unfold severity_rule.
    apply float_eqb_geb in Heq. unfold Py.geb in Heq. rewrite Heq. reflexivity.
Qed.

(** C7, as amended. The FeatureSet carries previous_value = values[-2] and
    current_value = values[-1] unchanged, and change_absolute is their
    difference rounded to two decimals. *)
Theorem C7_change_absolute_rounded (s : Settings) (values : list float)
    (ctx : option ContextConfig) :
  (2 <= length values)%nat ->
  exists p c fs,
    Py.item values (-2) = Some p /\ Py.item values (-1) = Some c /\
    extract_from_metrics s values ctx = inr fs /\
    previous_value fs = p /\ current_value fs = c /\
    change_absolute fs = Py.round2 (current_value fs - previous_value fs)%float.
Proof.
  intros Hlen.
  destruct (extract_from_metrics_ok s values ctx Hlen)
    as (p & c & Hp & Hc & Hfs).
  exists p, c. eexists. repeat split; try eassumption; reflexivity.
Qed.

(* ===================================================================== *)
(** ** AnomalyDetector *)
(* ===================================================================== *)

(** C3 (the code at the two lists of the claim). With threshold 3.0 the
    z-score, computed as (last value - mean) / population standard
    deviation of the whole list, is 1.6685... on [100,105,98,102,110] and
    1.9997... on [100,105,98,102,500] (mean 181, deviation 159.51...): the
    detector reports no anomaly for either list. *)
Theorem C3_z_score_on_claimed_lists :
  (forall (values : list float) (threshold : float),
     (3 <= length values)%nat ->
     (np.std values =? 0)%float = false ->
     let z := ((last_value values - np.mean values) / np.std values)%float in
     z_score (z_score_detection values threshold) = z /\
     is_anomaly (z_score_detection values threshold)
       = (threshold <? abs z)%float) /\
  is_anomaly (z_score_detection [100; 105; 98; 102; 110]%float 3.0) = false /\
  z_score (z_score_detection [100; 105; 98; 102; 110]%float 3.0)
    = 1.6685595311797865%float /\
  np.mean [100; 105; 98; 102; 500]%float = 181%float /\
  np.std [100; 105; 98; 102; 500]%float = 159.51677027823752%float /\
  is_anomaly (z_score_detection [100; 105; 98; 102; 500]%float 3.0) = false /\
  z_score (z_score_detection [100; 105; 98; 102; 500]%float 3.0)
    = 1.9997897364871635%float /\
  (3.0 <? z_score (z_score_detection [100; 105; 98; 102; 500]%float 3.0))%float
    = false.
Proof.
  split.
  - intros values threshold Hlen Hstd. unfold z_score_detection.
    destruct (Nat.ltb_spec (length values) 3) as [?|_]; [lia|].
    rewrite Hstd. split; reflexivity.
  - repeat split; vm_compute; reflexivity.
Qed.

(** C9. iqr_detection with multiplier 1.5: fewer than 4 values give the
    non-anomalous diagnostic result; otherwise Q1 and Q3 are the 25th and
    75th percentiles of the whole list, the last value is flagged exactly
    when it lies outside [Q1 - 1.5 IQR, Q3 + 1.5 IQR], and the reported
    score is |last - median| / (IQR / 1.35) when IQR > 0 and 0 otherwise.
    On [100,105,110,108,112,115,120,500] the result is an anomaly and the
    reported current value is 500. *)
Theorem C9_iqr_detection :
  (forall values : list float,
     (length values < 4)%nat ->
     iqr_detection values 1.5 =
       {| is_anomaly := false; z_score := 0; method := "iqr";
          details := {[ "error" := DStr "Need at least 4 values for IQR" ]} |}) /\
  (forall values : list float,
     (4 <= length values)%nat ->
     let r := iqr_detection values 1.5 in
     let q1 := np.percentile values 25 in
     let q3 := np.percentile values 75 in
     let iqr := (q3 - q1)%float in
     let last := last_value values in
     details r !! "q1" = Some (DFloat q1) /\
     details r !! "q3" = Some (DFloat q3) /\
     details r !! "iqr" = Some (DFloat iqr) /\
     details r !! "current_value" = Some (DFloat last) /\
     is_anomaly r =
       ((last <? q1 - 1.5 * iqr)%float || (q3 + 1.5 * iqr <? last)%float) /\
     z_score r =
       (if (0 <? iqr)%float
        then (abs (last - np.median values) / (iqr / 1.35))%float
        else 0%float)) /\
  (let r := iqr_detection [100; 105; 110; 108; 112; 115; 120; 500]%float 1.5 in
   is_anomaly r = true /\
   details r !! "current_value" = Some (DFloat 500) /\
   details r !! "q1" = Some (DFloat 107.25) /\
   details r !! "q3" = Some (DFloat 116.25) /\
   details r !! "lower_bound" = Some (DFloat 93.75) /\
   details r !! "upper_bound" = Some (DFloat 129.75)).
Proof.
  split; [|split].
  - intros values Hlen. unfold iqr_detection.
    destruct (Nat.ltb_spec (length values) 4) as [_|?]; [reflexivity|lia].
  - intros values Hlen. cbv zeta. unfold iqr_detection.
    destruct (Nat.ltb_spec (length values) 4) as [?|_]; [lia|].
    cbn [details is_anomaly z_score]. unfold Py.gtb.
    repeat split; reflexivity.
  - cbv zeta. repeat split; vm_compute; reflexivity.
Qed.

(* ===================================================================== *)
(** ** The retry loop *)
(* ===================================================================== *)

Lemma count_calls_snoc (log : list event) (p : string) (r : exn + string) :
  count_calls (log ++ [LLMCall p r]) = S (count_calls log).
Proof.
  unfold count_calls, prompts_of. rewrite omap_app, length_app. simpl. lia.
Qed.

(** One iteration of the loop. *)
Lemma retry_loop_step (remaining : nat) (attempt : Z) (prompt : string)
    (last_error : option string) (log : list event) :
  retry_loop (S remaining) attempt prompt last_error log =
    let p := entry_prompt attempt prompt last_error in
    let r := generate llm_client (count_calls log) p in
    let log' := log ++ [LLMCall p r] in
    match attempt_error r with
    | None => (r, log')
    | Some e =>
        if (attempt =? llm_max_retries settings - 1)%Z then (inl e, log')
        else retry_loop remaining (attempt + 1) p (Some (str_exn e)) log'
    end.
Proof.
  cbn [retry_loop]. fold (entry_prompt attempt prompt last_error).
  unfold try_except, bind, call_generate, lift, ret, raise, attempt_error.
  destruct (generate llm_client (count_calls log)
              (entry_prompt attempt prompt last_error)) as [e|response].
  - destruct (attempt =? llm_max_retries settings - 1)%Z; reflexivity.
  - destruct (json_loads response) as [e|obj]; [|reflexivity].
    destruct (attempt =? llm_max_retries settings - 1)%Z; reflexivity.
Qed.

Lemma entry_prompt_next (attempt : Z) (p : string) (e : exn) :
  (0 <= attempt)%Z ->
  entry_prompt (attempt + 1) p (Some (str_exn e)) = amended_prompt p e.
Proof.
  intros Hge. unfold entry_prompt, amended_prompt, noted_prompt, truthy.
  destruct (Z.ltb_spec 0 (attempt + 1)) as [_|?]; [|lia].
  simpl. destruct (String.eqb (str_exn e) ""); reflexivity.
Qed.

(** The loop from iteration [attempt] on, with [remaining] iterations left
    of [llm_max_retries] in all. *)
Lemma retry_loop_spec (remaining : nat) :
  forall (attempt : Z) (prompt : string) (last_error : option string)
         (log : list event),
    (0 <= attempt)%Z ->
    (attempt + Z.of_nat remaining = llm_max_retries settings)%Z ->
    exists calls result,
      retry_loop remaining attempt prompt last_error log
        = (result, log ++ calls) /\
      (length calls <= remaining)%nat /\
      attempts_chain amended_prompt (count_calls log)
        (entry_prompt attempt prompt last_error) calls /\
      loop_outcome remaining calls result.
Proof.
  induction remaining as [|remaining IH]; intros attempt prompt last_error log
    Hge Hinv.
  - exists [], (inl (PlainException "LLM retry limit exceeded")).
    rewrite app_nil_r. repeat split; reflexivity.
  - rewrite retry_loop_step. cbv zeta.
    set (p := entry_prompt attempt prompt last_error).
    set (r := generate llm_client (count_calls log) p).
    destruct (attempt_error r) as [e|] eqn:Herr.
    + destruct (Z.eqb_spec attempt (llm_max_retries settings - 1)) as [Hlast|Hmore].
      * exists [LLMCall p r], (inl e). repeat split; simpl; try lia.
        exact Herr.
      * destruct (IH (attempt + 1)%Z p (Some (str_exn e))
                    (log ++ [LLMCall p r])) as (calls & result & Hrun & Hlen & Hchain & Hout);
          [lia|lia|].
        exists (LLMCall p r :: calls), result.
        rewrite Hrun, <- app_assoc. simpl.
        rewrite count_calls_snoc, entry_prompt_next in Hchain by exact Hge.
        assert (Hne : calls <> []).
        { intros ->. destruct result as [e'|response]; simpl in Hout.
          - destruct Hout as [Hz _]. simpl in Hz. lia.
          - destruct Hout as (? & Hl & _). discriminate Hl. }
        repeat split; try reflexivity; try lia.
        -- destruct calls as [|c calls']; [congruence|].
           exists e. split; assumption.
        -- destruct result as [e'|response]; simpl in Hout |- *.
           ++ destruct Hout as [Hn Hl]. split; [lia|].
              destruct calls as [|c calls']; [congruence|]. exact Hl.
           ++ destruct Hout as (p' & Hl & Hok). exists p'.
              destruct calls as [|c calls']; [congruence|]. split; assumption.
    + exists [LLMCall p r], r. repeat split; simpl; try lia.
      destruct r as [e|response]; simpl in Herr |- *; [discriminate|].
      exists p. split; [reflexivity|exact Herr].
Qed.

(** The whole of [_call_llm_with_retry]. *)
Lemma call_llm_with_retry_spec (prompt : string) (log : list event) :
  exists calls result,
    _call_llm_with_retry prompt log = (result, log ++ calls) /\
    (length calls <= Z.to_nat (llm_max_retries settings))%nat /\
    attempts_chain amended_prompt (count_calls log) prompt calls /\
    loop_outcome (Z.to_nat (llm_max_retries settings)) calls result.
Proof.
  unfold _call_llm_with_retry.
  destruct (Z.le_gt_cases (llm_max_retries settings) 0) as [Hle|Hgt].
  - replace (Z.to_nat (llm_max_retries settings)) with 0%nat by lia.
    exists [], (inl (PlainException "LLM retry limit exceeded")).
    rewrite app_nil_r. repeat split; reflexivity.
  - apply (retry_loop_spec (Z.to_nat (llm_max_retries settings)) 0 prompt None log);
      lia.
Qed.

(* ===================================================================== *)
(** ** generate_insight, path by path *)
(* ===================================================================== *)

Lemma attempts_chain_calls (next : string -> exn -> string) (calls : list event) :
  forall (k : nat) (prompt : string),
    attempts_chain next k prompt calls ->
    Forall (fun ev => exists k' p, ev = LLMCall p (generate llm_client k' p)) calls.
Proof.
  induction calls as [|ev rest IH]; intros k prompt Hchain; [constructor|].
  destruct ev as [p r| |]; simpl in Hchain; try contradiction.
  destruct Hchain as (_ & -> & Hrest). constructor.
  - exists k, p. reflexivity.
  - destruct rest as [|ev' rest']; [constructor|].
    destruct Hrest as (e & _ & Hrest). exact (IH _ _ Hrest).
Qed.

Lemma calls_count (calls : list event) :
  Forall (fun ev => exists k' p, ev = LLMCall p (generate llm_client k' p)) calls ->
  count_calls calls = length calls.
Proof.
  unfold count_calls, prompts_of.
  induction 1 as [|ev rest (k' & p & ->) _ IH]; simpl; [reflexivity|].
  f_equal. exact IH.
Qed.

Lemma extract_features_metrics (request : InsightRequest) (values : list float) :
  input_type request = metrics ->
  default [] (get_values (data request)) = values ->
  (2 <= length values)%nat ->
  exists fs,
    _extract_features request = inr (Some fs) /\
    extract_from_metrics settings values (context request) = inr fs.
Proof.
  intros Hty Hvals Hlen. unfold _extract_features. rewrite Hty, Hvals.
  destruct (extract_from_metrics_ok settings values (context request) Hlen)
    as (p & c & _ & _ & Hfs).
  destruct (Nat.eqb_spec (length values) 0) as [?|_]; [lia|].
  destruct (Nat.ltb_spec (length values) 2) as [?|_]; [lia|].
  rewrite Hfs. eexists. split; reflexivity.
Qed.

Lemma extract_features_short (request : InsightRequest) :
  input_type request = metrics ->
  (length (default [] (get_values (data request))) < 2)%nat ->
  _extract_features request
    = inl (ValueError "Need at least 2 values in data.values").
Proof.
  intros Hty Hlen. unfold _extract_features. rewrite Hty.
  destruct (Nat.ltb_spec (length (default [] (get_values (data request)))) 2)
    as [_|?]; [|lia].
  rewrite orb_true_r. reflexivity.
Qed.

Lemma extract_features_cases (request : InsightRequest) :
  input_type request = metrics ->
  (exists fs, _extract_features request = inr (Some fs)) \/
  (length (default [] (get_values (data request))) < 2)%nat.
Proof.
  intros Hty.
  destruct (Nat.lt_ge_cases (length (default [] (get_values (data request)))) 2)
    as [Hlt|Hge]; [right; exact Hlt|left].
  destruct (extract_features_metrics request _ Hty eq_refl Hge) as (fs & H & _).
  exists fs. exact H.
Qed.

(** With the features extracted, the request ends in a response whatever
    the retry loop does. *)
Lemma generate_insight_extracted (request : InsightRequest) (fs : FeatureSet)
    (log : list event) :
  _extract_features request = inr (Some fs) ->
  exists calls result,
    _call_llm_with_retry (prompt_for request fs) log = (result, log ++ calls) /\
    (length calls <= Z.to_nat (llm_max_retries settings))%nat /\
    attempts_chain amended_prompt (count_calls log) (prompt_for request fs) calls /\
    loop_outcome (Z.to_nat (llm_max_retries settings)) calls result /\
    generate_insight request log = outcome_after_loop request fs log calls result.
Proof.
  intros Hfs.
  destruct (call_llm_with_retry_spec (prompt_for request fs) log)
    as (calls & result & Hrun & Hlen & Hchain & Hout).
  exists calls, result. repeat split; try assumption.
  unfold generate_insight, try_block. rewrite Hfs.
  fold (prompt_for request fs). rewrite Hrun.
  unfold outcome_after_loop, fallback_response, fallback_event.
  destruct result as [e|llm_output].
  - unfold except_block, bind, emit, ret. simpl. rewrite <- app_assoc. reflexivity.
  - destruct (parse_output llm_output) as [e|insight].
    + destruct (is_validation_failure e).
      * rewrite <- app_assoc. reflexivity.
      * unfold except_block, bind, emit, ret. simpl. rewrite <- app_assoc.
        reflexivity.
    + rewrite <- app_assoc. reflexivity.
Qed.

(** A metrics request with fewer than two values: the ValueError of the
    extraction is caught, and the handler answers from zeroed features. *)
Lemma generate_insight_short (request : InsightRequest) (log : list event) :
  input_type request = metrics ->
  (length (default [] (get_values (data request))) < 2)%nat ->
  generate_insight request log =
    (inr (fallback_response request zeroed_features),
     log ++ [fallback_event request zeroed_features]).
Proof.
  intros Hty Hlen. unfold generate_insight, try_block.
  rewrite (extract_features_short request Hty Hlen). reflexivity.
Qed.

(** A request that is not of type metrics: no features, and the handler's
    call of the fallback generator raises. *)
Lemma generate_insight_not_metrics (request : InsightRequest) (log : list event) :
  input_type request <> metrics ->
  _extract_features request = inr None /\
  generate_insight request log =
    (inl (AttributeError "'NoneType' object has no attribute 'change_percent'"),
     log).
Proof.
  intros Hty. unfold generate_insight, try_block, _extract_features.
  destruct (input_type request); [congruence| |]; split; reflexivity.
Qed.

(** When every attempt fails the loop raises after exactly
    [llm_max_retries] calls. *)
Lemma loop_raises_when_attempts_fail (k : nat) (prompt : string)
    (calls : list event) (result : exn + string) :
  all_attempts_fail ->
  attempts_chain amended_prompt k prompt calls ->
  loop_outcome (Z.to_nat (llm_max_retries settings)) calls result ->
  (exists e, result = inl e) /\
  length calls = Z.to_nat (llm_max_retries settings).
Proof.
  intros Hfail Hchain Hout.
  destruct result as [e|response]; simpl in Hout.
  - split; [exists e; reflexivity | apply Hout].
  - destruct Hout as (p & Hlast & Hok). exfalso.
    pose proof (attempts_chain_calls _ _ _ _ Hchain) as Hall.
    rewrite Forall_forall in Hall.
    destruct (Hall (LLMCall p (inr response))) as (k' & p' & Heq).
    { apply last_Some_elem_of. exact Hlast. }
    injection Heq as -> Hr. apply (Hfail k' p'). rewrite <- Hr. exact Hok.
Qed.

Lemma always_raising_client_fails :
  (forall k prompt, exists e, generate llm_client k prompt = inl e) ->
  all_attempts_fail.
Proof.
  intros Hraise k prompt. destruct (Hraise k prompt) as [e ->]. discriminate.
Qed.

(** A request whose features were extracted and whose every attempt fails
    is answered by the rule-based path after exactly [llm_max_retries]
    calls, the last event being the fallback. *)
Lemma fallback_when_attempts_fail (request : InsightRequest) (fs : FeatureSet) :
  all_attempts_fail ->
  _extract_features request = inr (Some fs) ->
  exists log,
    generate_insight request [] = (inr (fallback_response request fs), log) /\
    count_calls log = Z.to_nat (llm_max_retries settings) /\
    last log = Some (fallback_event request fs).
Proof.
  intros Hfail Hfs.
  destruct (generate_insight_extracted request fs [] Hfs)
    as (calls & result & _ & _ & Hchain & Hout & Hrun).
  destruct (loop_raises_when_attempts_fail _ _ _ _ Hfail Hchain Hout)
    as [[e ->] Hn].
  simpl in Hrun. exists (calls ++ [fallback_event request fs]).
  split; [exact Hrun|]. split; [|apply last_snoc].
  unfold count_calls, prompts_of. rewrite omap_app, length_app. simpl.
  fold (prompts_of calls). fold (count_calls calls).
  rewrite (calls_count calls (attempts_chain_calls _ _ _ _ Hchain)). lia.
Qed.

(* ===================================================================== *)
(** ** InsightService: the claims about generate_insight *)
(* ===================================================================== *)

(** C1. For a metrics request whose data.values holds at least two floats,
    and a client whose generate always raises, generate_insight does not
    raise: it returns a response whose metadata has fallback_used = true and
    whose insight has confidence 0.60, three recommended actions and three
    key findings, one of them the sentence saying that the analysis is
    rule-based because the LLM is unavailable. *)
Theorem C1_degrades_to_fallback (request : InsightRequest) (values : list float) :
  input_type request = metrics ->
  get_values (data request) = Some values ->
  (2 <= length values)%nat ->
  (forall k prompt, exists e, generate llm_client k prompt = inl e) ->
  exists response log,
    generate_insight request [] = (inr response, log) /\
    fallback_used (metadata response) = true /\
    confidence (insight response) = 0.60%float /\
    length (recommended_actions (insight response)) = 3%nat /\
    length (key_findings (insight response)) = 3%nat /\
    In "Analysis based on rule-based thresholds (LLM unavailable)"
       (key_findings (insight response)) /\
    extract_from_metrics settings values (context request)
      = inr (features response).
Proof.
  intros Hty Hvals Hlen Hraise.
  destruct (extract_features_metrics request values Hty) as (fs & Hfs & Hex);
    [rewrite Hvals; reflexivity|exact Hlen|].
  destruct (fallback_when_attempts_fail request fs
              (always_raising_client_fails Hraise) Hfs) as (log & Hrun & _).
  exists (fallback_response request fs), log.
  split; [exact Hrun|].
  unfold fallback_response, build_response, _generate_fallback_insight; simpl.
  destruct (Py.gtb (change_percent fs) 0); simpl;
    repeat split; try reflexivity; try exact Hex; right; right; left; reflexivity.
Qed.

(** C2. Whenever generate_insight returns a response, fallback_used is true
    exactly when the insight of the response was produced by
    _generate_fallback_insight (the event that closes the log), and false
    exactly when it was parsed and validated from a text the model
    returned. *)
Theorem C2_fallback_flag_tracks_producer (request : InsightRequest)
    (response : InsightResponse) (log : list event) :
  generate_insight request [] = (inr response, log) ->
  (fallback_used (metadata response) = true <->
     exists fs name,
       last log = Some (FallbackGenerated fs name) /\
       insight response = _generate_fallback_insight fs name) /\
  (fallback_used (metadata response) = false <->
     exists llm_output p,
       last log = Some (ModelOutputAccepted llm_output) /\
       In (LLMCall p (inr llm_output)) log /\
       parse_output llm_output = inr (insight response)).
Proof.
  intros Hrun.
  assert (Hcases :
    (fallback_used (metadata response) = true /\
     exists fs name,
       last log = Some (FallbackGenerated fs name) /\
       insight response = _generate_fallback_insight fs name) \/
    (fallback_used (metadata response) = false /\
     exists llm_output p,
       last log = Some (ModelOutputAccepted llm_output) /\
       In (LLMCall p (inr llm_output)) log /\
       parse_output llm_output = inr (insight response))).
  { destruct (input_type request) eqn:Hty.
    - destruct (extract_features_cases request Hty) as [[fs Hfs]|Hshort].
      + destruct (generate_insight_extracted request fs [] Hfs)
          as (calls & result & _ & _ & _ & Hout & Hgen).
        rewrite Hgen in Hrun. unfold outcome_after_loop in Hrun. simpl in Hrun.
        destruct result as [e|llm_output].
        * injection Hrun as <- <-. left. split; [reflexivity|].
          exists fs, (_get_metric_name request).
          split; [apply last_snoc|reflexivity].
        * destruct (parse_output llm_output) as [e|parsed] eqn:Hparse.
          -- injection Hrun as <- <-. left. split; [reflexivity|].
             exists fs, (_get_metric_name request).
             split; [apply last_snoc|reflexivity].
          -- injection Hrun as <- <-. right. split; [reflexivity|].
             simpl in Hout. destruct Hout as (p & Hlast & _).
             exists llm_output, p. split; [apply last_snoc|]. split; [|exact Hparse].
             apply in_or_app. left. apply list_elem_of_In.
             apply last_Some_elem_of. exact Hlast.
      + rewrite (generate_insight_short request [] Hty Hshort) in Hrun.
        injection Hrun as <- <-. left. split; [reflexivity|].
        exists zeroed_features, (_get_metric_name request).
        split; reflexivity.
    - destruct (generate_insight_not_metrics request []) as [_ Hgen];
        [congruence|]. rewrite Hgen in Hrun. discriminate Hrun.
    - destruct (generate_insight_not_metrics request []) as [_ Hgen];
        [congruence|]. rewrite Hgen in Hrun. discriminate Hrun. }
  destruct Hcases as [[Hflag Hfb]|[Hflag Hmodel]]; rewrite Hflag.
  - split; split; try (intros _; exact Hfb); try reflexivity; try discriminate.
    intros (llm_output & p & Hlast & _).
    destruct Hfb as (fs & name & Hlast' & _). congruence.
  - split; split; try (intros _; exact Hmodel); try reflexivity; try discriminate.
    intros (fs & name & Hlast & _).
    destruct Hmodel as (llm_output & p & Hlast' & _). congruence.
Qed.

(** C8, as amended. The loop makes at most llm_max_retries (3 by default)
    calls of generate, one after the other.  The first is made with the
    prompt it was given; after a failed attempt that has a successor, the
    successor's prompt is the failed one's prompt with the note naming the
    failure appended when the failure's text is not empty, and the same
    prompt otherwise, so notes accumulate and are never reset.  A returned
    text that json.loads rejects is a failed attempt.  The loop returns the
    text of the last call when it parses, and raises the last error after
    llm_max_retries failed calls; when every attempt fails, the request is
    answered by the fallback path with no further call of generate. *)
Theorem C8_retry_protocol (prompt : string) :
  exists calls result,
    _call_llm_with_retry prompt [] = (result, calls) /\
    (length calls <= Z.to_nat (llm_max_retries settings))%nat /\
    llm_max_retries default_settings = 3%Z /\
    attempts_chain amended_prompt 0 prompt calls /\
    loop_outcome (Z.to_nat (llm_max_retries settings)) calls result /\
    (all_attempts_fail ->
       (exists e, result = inl e) /\
       length calls = Z.to_nat (llm_max_retries settings) /\
       forall request fs,
         _extract_features request = inr (Some fs) ->
         exists log,
           generate_insight request [] = (inr (fallback_response request fs), log) /\
           count_calls log = Z.to_nat (llm_max_retries settings) /\
           last log = Some (fallback_event request fs)).
Proof.
  destruct (call_llm_with_retry_spec prompt [])
    as (calls & result & Hrun & Hlen & Hchain & Hout).
  exists calls, result. simpl in Hrun, Hchain.
  split; [exact Hrun|]. split; [exact Hlen|]. split; [reflexivity|].
  split; [exact Hchain|]. split; [exact Hout|].
  intros Hfail.
  destruct (loop_raises_when_attempts_fail _ _ _ _ Hfail Hchain Hout)
    as [Hraised Hcount].
  split; [exact Hraised|]. split; [exact Hcount|].
  intros request fs Hfs. exact (fallback_when_attempts_fail request fs Hfail Hfs).
Qed.

(** C10 (the code on text and timeseries requests). The routing returns no
    FeatureSet for them, the try block fails, and the handler, finding the
    name features bound (to None), hands None to the fallback generator:
    generate_insight raises AttributeError instead of returning a response,
    without calling the model. *)
Theorem C10_other_input_types_raise (request : InsightRequest) (log : list event) :
  input_type request = text \/ input_type request = timeseries ->
  _extract_features request = inr None /\
  generate_insight request log =
    (inl (AttributeError "'NoneType' object has no attribute 'change_percent'"),
     log) /\
  (forall response log', generate_insight request log <> (inr response, log')).
Proof.
  intros Hty.
  destruct (generate_insight_not_metrics request log) as [Hnone Hgen].
  { destruct Hty as [H|H]; rewrite H; discriminate. }
  repeat split; try assumption. rewrite Hgen. discriminate.
Qed.

(* ===================================================================== *)
(** ** Further properties of the retry loop *)
(* ===================================================================== *)

Lemma append_empty_r (s : string) : s +:+ "" = s.
Proof.
  induction s as [|a s IH]; [reflexivity|].
  change (String a (s +:+ "") = String a s). f_equal. exact IH.
Qed.

Lemma append_assoc (a b c : string) : (a +:+ b) +:+ c = a +:+ (b +:+ c).
Proof.
  induction a as [|x a IH]; [reflexivity|].
  change (String x ((a +:+ b) +:+ c) = String x (a +:+ (b +:+ c))).
  f_equal. exact IH.
Qed.

Lemma extends_refl (p : string) : extends p p.
Proof. exists "". symmetry. apply append_empty_r. Qed.

Lemma extends_trans (p q r : string) : extends p q -> extends q r -> extends p r.
Proof.
  intros [s ->] [t ->]. exists (s +:+ t). apply append_assoc.
Qed.

Lemma amended_prompt_extends (p : string) (e : exn) : extends p (amended_prompt p e).
Proof.
  unfold amended_prompt, noted_prompt.
  destruct (String.eqb (str_exn e) ""); [apply extends_refl|].
  exists (failure_note (str_exn e)). reflexivity.
Qed.

Lemma attempts_chain_prompts (calls : list event) :
  forall (k : nat) (prompt : string),
    attempts_chain amended_prompt k prompt calls ->
    growing (prompts_of calls) /\
    Forall (extends prompt) (prompts_of calls) /\
    head (prompts_of calls) = (if calls is [] then None else Some prompt).
Proof.
  induction calls as [|ev rest IH]; intros k prompt Hchain.
  - repeat split; constructor.
  - destruct ev as [p r| |]; simpl in Hchain; try contradiction.
    destruct Hchain as (-> & _ & Hrest).
    destruct rest as [|ev' rest'].
    + repeat split. constructor; [apply extends_refl|constructor].
    + destruct Hrest as (e & _ & Hrest).
      destruct (IH _ _ Hrest) as (Hgrow & Hall & Hhead).
      change (prompts_of (LLMCall prompt r :: ev' :: rest'))
        with (prompt :: prompts_of (ev' :: rest')).
      destruct (prompts_of (ev' :: rest')) as [|q qs] eqn:Hq;
        [discriminate Hhead|].
      injection Hhead as ->.
      repeat split.
      * apply amended_prompt_extends.
      * exact Hgrow.
      * constructor; [apply extends_refl|].
        eapply Forall_impl; [exact Hall|].
        intros q' Hq'. eapply extends_trans; [apply amended_prompt_extends|exact Hq'].
Qed.

(** X1. The prompts [_call_llm_with_retry] sends never shrink: the first
    is the prompt it was given, each later one is the one before it with
    text appended (possibly none), so every prompt begins with the
    original. *)
Theorem X1_retry_prompts_only_grow (prompt : string) (log : list event) :
  exists calls result,
    _call_llm_with_retry prompt log = (result, log ++ calls) /\
    growing (prompts_of calls) /\
    Forall (extends prompt) (prompts_of calls) /\
    head (prompts_of calls) = (if calls is [] then None else Some prompt).
Proof.
  destruct (call_llm_with_retry_spec prompt log)
    as (calls & result & Hrun & _ & Hchain & _).
  exists calls, result. split; [exact Hrun|].
  exact (attempts_chain_prompts calls _ _ Hchain).
Qed.

(** X2. With [llm_max_retries] zero or negative the model is never called:
    the loop raises its own "LLM retry limit exceeded" at once, and a
    request whose features were extracted is answered by the rule-based
    path with no call logged. *)
Theorem X2_no_attempts_configured (request : InsightRequest) (fs : FeatureSet) :
  (llm_max_retries settings <= 0)%Z ->
  _extract_features request = inr (Some fs) ->
  (forall prompt log,
     _call_llm_with_retry prompt log
       = (inl (PlainException "LLM retry limit exceeded"), log)) /\
  generate_insight request []
    = (inr (fallback_response request fs), [fallback_event request fs]).
Proof.
  intros Hmax Hfs.
  assert (Hloop : forall prompt log,
    _call_llm_with_retry prompt log
      = (inl (PlainException "LLM retry limit exceeded"), log)).
  { intros prompt log. unfold _call_llm_with_retry.
    replace (Z.to_nat (llm_max_retries settings)) with 0%nat by lia.
    reflexivity. }
  split; [exact Hloop|].
  unfold generate_insight, try_block. rewrite Hfs.
  fold (prompt_for request fs). rewrite Hloop. reflexivity.
Qed.

Lemma attempts_chain_lookup (next : string -> exn -> string) (calls : list event) :
  forall (k : nat) (prompt : string) (i : nat) (ev : event),
    attempts_chain next k prompt calls ->
    calls !! i = Some ev ->
    exists p, ev = LLMCall p (generate llm_client (k + i) p) /\
              (S i < length calls ->
               attempt_error (generate llm_client (k + i) p) <> None).
Proof.
  induction calls as [|c rest IH]; intros k prompt i ev Hchain Hi;
    [discriminate Hi|].
  destruct c as [p r| |]; simpl in Hchain; try contradiction.
  destruct Hchain as (-> & -> & Hrest).
  destruct i as [|i].
  - injection Hi as <-. exists prompt. rewrite Nat.add_0_r.
    split; [reflexivity|]. intros Hlen.
    destruct rest as [|c' rest']; [simpl in Hlen; lia|].
    destruct Hrest as (e & He & _). rewrite He. discriminate.
  - simpl in Hi. destruct rest as [|c' rest']; [discriminate Hi|].
    destruct Hrest as (e & _ & Hrest).
    destruct (IH _ _ i ev Hrest Hi) as (p & Hev & Hnext).
    exists p. replace (k + S i)%nat with (S k + i)%nat by lia.
    split; [exact Hev|]. intros Hlen. apply Hnext. simpl in Hlen |- *. lia.
Qed.

(** X3. The loop stops at the first attempt that succeeds: when the
    client's attempts number 1 to k fail (by raising or by returning text
    that is not JSON), attempt k+1 returns parseable text, and k+1 is within
    [llm_max_retries], exactly k+1 calls are made and the text of the last
    one is returned. *)
Theorem X3_loop_stops_at_first_success (k : nat) (prompt : string) :
  (Z.of_nat k < llm_max_retries settings)%Z ->
  (forall j p, (j < k)%nat -> attempt_error (generate llm_client j p) <> None) ->
  (forall p, attempt_error (generate llm_client k p) = None) ->
  exists calls response p,
    _call_llm_with_retry prompt [] = (inr response, calls) /\
    length calls = S k /\
    last calls = Some (LLMCall p (inr response)) /\
    generate llm_client k p = inr response.
Proof.
  intros Hk Hfail Hok.
  destruct (call_llm_with_retry_spec prompt [])
    as (calls & result & Hrun & Hlen & Hchain & Hout).
  simpl in Hrun, Hchain.
  assert (Hat : forall i ev, calls !! i = Some ev ->
            exists p, ev = LLMCall p (generate llm_client i p) /\
                      (S i < length calls ->
                       attempt_error (generate llm_client i p) <> None)).
  { intros i ev Hi. exact (attempts_chain_lookup _ _ 0 prompt i ev Hchain Hi). }
  destruct result as [e|response]; simpl in Hout.
  - exfalso. destruct Hout as [Hn Hlast].
    assert (Hkin : (k < length calls)%nat) by lia.
    destruct (lookup_lt_is_Some_2 calls k Hkin) as [ev Hev].
    destruct (Hat k ev Hev) as (p & -> & Hnext).
    destruct (Nat.eq_dec (S k) (length calls)) as [Hend|Hmore].
    + assert (Hl : last calls = Some (LLMCall p (generate llm_client k p))).
      { rewrite last_lookup. rewrite <- Hend. exact Hev. }
      rewrite Hl in Hlast. rewrite (Hok p) in Hlast. discriminate Hlast.
    + apply Hnext; [lia|apply Hok].
  - destruct Hout as (p & Hlast & Hparse).
    assert (Hpos : (0 < length calls)%nat).
    { destruct calls; [discriminate Hlast|simpl; lia]. }
    pose proof Hlast as Hl. rewrite last_lookup in Hl.
    destruct (Hat _ _ Hl) as (p' & Heq & _).
    injection Heq as <- Hr.
    assert (Hidx : pred (length calls) = k).
    { destruct (Nat.lt_trichotomy (pred (length calls)) k) as [Hlt|[Heq|Hgt]];
        [|exact Heq|].
      - exfalso. apply (Hfail _ p Hlt). rewrite <- Hr. exact Hparse.
      - exfalso.
        assert (Hkin : (k < length calls)%nat) by lia.
        destruct (lookup_lt_is_Some_2 calls k Hkin) as [ev Hev].
        destruct (Hat k ev Hev) as (q & _ & Hnext).
        apply Hnext; [lia|apply Hok]. }
    exists calls, response, p. split; [exact Hrun|].
    split; [lia|]. split; [exact Hlast|]. rewrite <- Hidx. symmetry. exact Hr.
Qed.

(* ===================================================================== *)
(** ** Further properties of generate_insight *)
(* ===================================================================== *)

Lemma first_call_parses (prompt text : string) (obj : json) :
  (0 < llm_max_retries settings)%Z ->
  generate llm_client 0 prompt = inr text ->
  json_loads text = inr obj ->
  _call_llm_with_retry prompt [] = (inr text, [LLMCall prompt (inr text)]).
Proof.
  intros Hmax Hgen Hjson. unfold _call_llm_with_retry.
  destruct (Z.to_nat (llm_max_retries settings)) as [|remaining] eqn:Hn; [lia|].
  rewrite retry_loop_step. cbv zeta.
  change (entry_prompt 0 prompt None) with prompt.
  change (count_calls []) with 0%nat. rewrite Hgen.
  unfold attempt_error. rewrite Hjson. reflexivity.
Qed.

(** X4. A first answer that is JSON settles the request with one call of
    the model: when the InsightOutput validation accepts it, it becomes the
    insight and fallback_used is false; when validation rejects it, the
    rule-based insight is returned at once, and the model is not asked
    again. *)
Theorem X4_first_json_answer_decides (request : InsightRequest)
    (fs : FeatureSet) (text : string) (obj : json) :
  _extract_features request = inr (Some fs) ->
  (0 < llm_max_retries settings)%Z ->
  generate llm_client 0 (prompt_for request fs) = inr text ->
  json_loads text = inr obj ->
  generate_insight request [] =
    match InsightOutput_of_json obj with
    | inr accepted =>
        (inr (build_response request fs (_get_metric_name request) accepted false),
         [LLMCall (prompt_for request fs) (inr text); ModelOutputAccepted text])
    | inl _ =>
        (inr (fallback_response request fs),
         [LLMCall (prompt_for request fs) (inr text); fallback_event request fs])
    end.
Proof.
  intros Hfs Hmax Hgen Hjson.
  destruct (generate_insight_extracted request fs [] Hfs)
    as (calls & result & Hrun & _ & _ & _ & Hout).
  rewrite (first_call_parses _ _ _ Hmax Hgen Hjson) in Hrun.
  injection Hrun as <- <-. rewrite Hout.
  unfold outcome_after_loop, parse_output. rewrite Hjson.
  destruct (InsightOutput_of_json obj); reflexivity.
Qed.

Lemma metric_name_of_metrics_nonempty (request : InsightRequest) :
  input_type request = metrics -> _get_metric_name request <> "".
Proof.
  intros Hty. unfold _get_metric_name. rewrite Hty.
  destruct (get_metric_name (data request)) as [name|]; [|discriminate].
  destruct (String.eqb_spec name ""); [discriminate|assumption].
Qed.

(** The three ways a response comes about. *)
Lemma response_cases (request : InsightRequest) (response : InsightResponse)
    (log : list event) :
  generate_insight request [] = (inr response, log) ->
  input_type request = metrics /\
  exists fs calls,
    (_extract_features request = inr (Some fs) \/
     (fs = zeroed_features /\ calls = [] /\
      (length (default [] (get_values (data request))) < 2)%nat)) /\
    Forall (fun ev => is_call ev = true) calls /\
    (length calls <= Z.to_nat (llm_max_retries settings))%nat /\
    ((response = fallback_response request fs /\
      log = calls ++ [fallback_event request fs]) \/
     (exists llm_output accepted,
        response = build_response request fs (_get_metric_name request)
                     accepted false /\
        log = calls ++ [ModelOutputAccepted llm_output])).
Proof.
  intros Hrun.
  destruct (input_type request) eqn:Hty;
    try (destruct (generate_insight_not_metrics request []) as [_ Hgen];
         [congruence|rewrite Hgen in Hrun; discriminate Hrun]).
  split; [reflexivity|].
  destruct (extract_features_cases request Hty) as [[fs Hfs]|Hshort].
  - destruct (generate_insight_extracted request fs [] Hfs)
      as (calls & result & _ & Hlen & Hchain & _ & Hgen).
    exists fs, calls. split; [left; exact Hfs|].
    split.
    { eapply Forall_impl; [exact (attempts_chain_calls _ _ _ _ Hchain)|].
      intros ev (k' & p & ->). reflexivity. }
    split; [exact Hlen|].
    rewrite Hgen in Hrun. unfold outcome_after_loop in Hrun. simpl in Hrun.
    destruct result as [e|llm_output];
      [|destruct (parse_output llm_output) as [e|accepted]];
      injection Hrun as <- <-.
    + left. split; reflexivity.
    + left. split; reflexivity.
    + right. exists llm_output, accepted. split; reflexivity.
  - rewrite (generate_insight_short request [] Hty Hshort) in Hrun.
    injection Hrun as <- <-.
    exists zeroed_features, []. split; [right; repeat split; exact Hshort|].
    split; [constructor|]. split; [simpl; lia|].
    left. split; reflexivity.
Qed.

(** X5. Whatever the model answers, the envelope of a returned response is
    fixed by the request: a response is only ever returned for a metrics
    request; it carries the request's ids, a metric name that is never
    empty, the number of values, the configured provider and the client's
    model name; and its features are those extracted from the request, or
    the zeroed ones when the extraction failed. *)
Theorem X5_model_cannot_change_envelope (request : InsightRequest)
    (response : InsightResponse) (log : list event) :
  generate_insight request [] = (inr response, log) ->
  input_type request = metrics /\
  response_user_id response = user_id request /\
  response_tenant_id response = tenant_id request /\
  metric_name (input_summary response) = _get_metric_name request /\
  metric_name (input_summary response) <> "" /\
  data_points_count (input_summary response)
    = length (default [1; 2]%float (get_values (data request))) /\
  provider (metadata response) = llm_provider settings /\
  model_version (metadata response) = get_model_name llm_client /\
  features response =
    match _extract_features request with
    | inr (Some fs) => fs
    | _ => zeroed_features
    end.
Proof.
  intros Hrun.
  destruct (response_cases request response log Hrun)
    as (Hty & fs & calls & Hfs & _ & _ & Hresp).
  assert (Hfeat : match _extract_features request with
                  | inr (Some fs') => fs'
                  | _ => zeroed_features
                  end = fs).
  { destruct Hfs as [->|(-> & _ & Hshort)]; [reflexivity|].
    rewrite (extract_features_short request Hty Hshort). reflexivity. }
  pose proof (metric_name_of_metrics_nonempty request Hty) as Hname.
  rewrite Hfeat.
  destruct Hresp as [[-> _]|(llm_output & accepted & -> & _)];
    repeat split; try reflexivity; try exact Hty; exact Hname.
Qed.

(** X6. Every response with fallback_used = true carries the rule-based
    insight built from the very features and metric name it reports, so its
    insight severity equals its feature severity and its confidence is
    0.60, whether the fallback came from failed attempts, from rejected
    output or from a failed extraction. *)
Theorem X6_fallback_insight_agrees_with_features (request : InsightRequest)
    (response : InsightResponse) (log : list event) :
  generate_insight request [] = (inr response, log) ->
  fallback_used (metadata response) = true ->
  insight response =
    _generate_fallback_insight (features response)
      (metric_name (input_summary response)) /\
  insight_severity (insight response) = severity (features response) /\
  confidence (insight response) = 0.60%float.
Proof.
  intros Hrun Hflag.
  destruct (response_cases request response log Hrun)
    as (_ & fs & calls & _ & _ & _ & Hresp).
  destruct Hresp as [[-> _]|(llm_output & accepted & -> & _)];
    [|discriminate Hflag].
  unfold fallback_response, build_response, _generate_fallback_insight. simpl.
  destruct (Py.gtb (change_percent fs) 0); repeat split; reflexivity.
Qed.

Lemma metrics_request_answered (request : InsightRequest) :
  input_type request = metrics ->
  exists response log, generate_insight request [] = (inr response, log).
Proof.
  intros Hty.
  destruct (extract_features_cases request Hty) as [[fs Hfs]|Hshort].
  - destruct (generate_insight_extracted request fs [] Hfs)
      as (calls & result & _ & _ & _ & _ & Hgen).
    rewrite Hgen. unfold outcome_after_loop.
    destruct result as [e|llm_output];
      [|destruct (parse_output llm_output)]; eexists; eexists; reflexivity.
  - rewrite (generate_insight_short request [] Hty Hshort).
    eexists; eexists; reflexivity.
Qed.

(** X7. The log of a request: when a response is returned, it is at most
    [llm_max_retries] calls of the model followed by the single event that
    produced the insight, so the model is never called after the insight
    exists; when the request raises, nothing was logged and the model was
    not called. *)
Theorem X7_log_shape (request : InsightRequest)
    (outcome : exn + InsightResponse) (log : list event) :
  generate_insight request [] = (outcome, log) ->
  (count_calls log <= Z.to_nat (llm_max_retries settings))%nat /\
  match outcome with
  | inr _ => calls_then_producer log /\ count_calls log = pred (length log)
  | inl _ => log = []
  end.
Proof.
  intros Hrun. destruct outcome as [e|response].
  - destruct (input_type request) eqn:Hty.
    + destruct (metrics_request_answered request Hty) as (response & log' & Hok).
      rewrite Hok in Hrun. discriminate Hrun.
    + destruct (generate_insight_not_metrics request []) as [_ Hgen];
        [congruence|]. rewrite Hgen in Hrun. injection Hrun as _ <-.
      split; [unfold count_calls; simpl; lia|reflexivity].
    + destruct (generate_insight_not_metrics request []) as [_ Hgen];
        [congruence|]. rewrite Hgen in Hrun. injection Hrun as _ <-.
      split; [unfold count_calls; simpl; lia|reflexivity].
  - destruct (response_cases request response log Hrun)
      as (_ & fs & calls & _ & Hcalls & Hlen & Hresp).
    assert (Hcount : forall producer, is_call producer = false ->
              count_calls (calls ++ [producer]) = length calls).
    { intros producer Hp. unfold count_calls, prompts_of.
      rewrite omap_app, length_app.
      replace (length (omap _ [producer])) with 0%nat
        by (destruct producer; [discriminate Hp|reflexivity|reflexivity]).
      rewrite Nat.add_0_r. clear -Hcalls.
      induction Hcalls as [|ev rest Hev _ IH]; [reflexivity|].
      destruct ev; try discriminate Hev. simpl. f_equal. exact IH. }
    destruct Hresp as [[_ ->]|(llm_output & accepted & _ & ->)];
      rewrite Hcount by reflexivity; rewrite length_app; simpl;
      (split; [lia|]); (split; [|lia]); eexists; eexists;
      (split; [reflexivity|]); split; try exact Hcalls; reflexivity.
Qed.

(* ===================================================================== *)
(** ** Further properties of extract_from_metrics *)
(* ===================================================================== *)

Lemma item_app_last_two {A} (old : list A) (p c : A) :
  Py.item (old ++ [p; c]) (-2) = Some p /\ Py.item (old ++ [p; c]) (-1) = Some c.
Proof.
  unfold Py.item. simpl. rewrite length_app. simpl.
  destruct (Z.ltb_spec (Z.of_nat (length old + 2) + -2) 0) as [?|_]; [lia|].
  destruct (Z.ltb_spec (Z.of_nat (length old + 2) + -1) 0) as [?|_]; [lia|].
  replace (Z.to_nat (Z.of_nat (length old + 2) + -2)) with (length old + 0)%nat
    by lia.
  replace (Z.to_nat (Z.of_nat (length old + 2) + -1)) with (length old + 1)%nat
    by lia.
  rewrite !lookup_app_r by lia.
  replace (length old + 0 - length old)%nat with 0%nat by lia.
  replace (length old + 1 - length old)%nat with 1%nat by lia.
  split; reflexivity.
Qed.

(** X8. extract_from_metrics reads nothing but the last two values: any
    history before them leaves the FeatureSet unchanged; and it fails, with
    the ValueError asking for two values, exactly on lists shorter than
    two. *)
Theorem X8_only_last_two_values_matter (s : Settings) (ctx : option ContextConfig) :
  (forall (old : list float) (p c : float),
     extract_from_metrics s (old ++ [p; c]) ctx
       = extract_from_metrics s [p; c] ctx) /\
  (forall values : list float,
     (length values < 2)%nat <->
     extract_from_metrics s values ctx
       = inl (ValueError "Need at least 2 values for comparison")) /\
  (forall values : list float,
     (2 <= length values)%nat <->
     exists fs, extract_from_metrics s values ctx = inr fs).
Proof.
  split; [|split].
  - intros old p c.
    destruct (item_app_last_two old p c) as [Hp Hc].
    destruct (extract_from_metrics_ok s (old ++ [p; c]) ctx)
      as (p' & c' & Hp' & Hc' & ->); [rewrite length_app; simpl; lia|].
    rewrite Hp in Hp'. rewrite Hc in Hc'.
    injection Hp' as <-. injection Hc' as <-. reflexivity.
  - intros values. split.
    + apply extract_from_metrics_short.
    + intros Hfail.
      destruct (Nat.lt_ge_cases (length values) 2) as [Hlt|Hge]; [exact Hlt|].
      destruct (extract_from_metrics_ok s values ctx Hge)
        as (p & c & _ & _ & Hok).
      rewrite Hok in Hfail. discriminate Hfail.
  - intros values. split.
    + intros Hge.
      destruct (extract_from_metrics_ok s values ctx Hge)
        as (p & c & _ & _ & Hok).
      eexists. exact Hok.
    + intros [fs Hok].
      destruct (Nat.lt_ge_cases (length values) 2) as [Hlt|Hge]; [|exact Hge].
      rewrite (extract_from_metrics_short s values ctx Hlt) in Hok.
      discriminate Hok.
Qed.

Lemma extract_from_metrics_thresholds (s : Settings) (values : list float)
    (ctx : option ContextConfig) :
  extract_from_metrics s values ctx =
    if (length values <? 2)%nat then
      inl (ValueError "Need at least 2 values for comparison")
    else
      match Py.item values (-2), Py.item values (-1) with
      | Some p, Some c =>
          inr {| previous_value := p;
                 current_value := c;
                 change_absolute := Py.round2 (c - p);
                 change_percent := Py.round2 (raw_change_percent p c);
                 severity :=
                   severity_rule
                     (tier_threshold ctx "critical" 50 (severity_threshold_critical s))
                     (tier_threshold ctx "high" 25 (severity_threshold_high s))
                     (tier_threshold ctx "medium" 10 (severity_threshold_medium s))
                     (abs (raw_change_percent p c)) |}
      | _, _ => inl (IndexError "list index out of range")
      end.
Proof.
  unfold extract_from_metrics.
  destruct (length values <? 2)%nat; [reflexivity|].
  destruct (Py.item values (-2)) as [p|]; [|reflexivity].
  destruct (Py.item values (-1)) as [c|]; [|reflexivity].
  do 2 f_equal.
  unfold classify_severity, severity_rule, tier_threshold,
    effective_thresholds, Py.geb.
  destruct ctx as [[b [d|]]|]; simpl; try reflexivity;
    rewrite lookup_insert_eq;
    rewrite lookup_insert_ne, lookup_insert_eq by discriminate;
    rewrite !lookup_insert_ne, lookup_insert_eq by discriminate;
    reflexivity.
Qed.

(** X9. How the caller's context acts on extract_from_metrics: [baseline]
    is never read; a supplied thresholds dict replaces the configured
    settings altogether, so that with any dict the result is the same under
    all settings, and with an empty dict the built-in 50 / 25 / 10 apply,
    as under the default settings, however the service was configured. *)
Theorem X9_context_thresholds_replace_settings (values : list float) :
  (forall (s : Settings) (b1 b2 : option float) (t : option (gmap string float)),
     extract_from_metrics s values (Some {| baseline := b1; thresholds := t |})
       = extract_from_metrics s values (Some {| baseline := b2; thresholds := t |})) /\
  (forall (s1 s2 : Settings) (b : option float) (d : gmap string float),
     extract_from_metrics s1 values (Some {| baseline := b; thresholds := Some d |})
       = extract_from_metrics s2 values
           (Some {| baseline := b; thresholds := Some d |})) /\
  (forall (s : Settings) (b : option float),
     extract_from_metrics s values (Some {| baseline := b; thresholds := Some ∅ |})
       = extract_from_metrics default_settings values None) /\
  (forall (s : Settings) (b : option float),
     extract_from_metrics s values (Some {| baseline := b; thresholds := None |})
       = extract_from_metrics s values None).
Proof.
  repeat split; intros; rewrite !extract_from_metrics_thresholds; reflexivity.
Qed.

(* ===================================================================== *)
(** ** Strings: lower, contains and split *)
(* ===================================================================== *)

Lemma append_cons (c : Ascii.ascii) (a b : string) :
  String c a +:+ b = String c (a +:+ b).
Proof. reflexivity. Qed.

Lemma lower_app (a b : string) :
  PyStr.lower (a +:+ b) = PyStr.lower a +:+ PyStr.lower b.
Proof.
  induction a as [|c a IH]; [reflexivity|].
  rewrite append_cons. cbn [PyStr.lower]. rewrite append_cons, IH. reflexivity.
Qed.

Lemma lower_app_inv (t : string) :
  forall a b : string,
    PyStr.lower t = a +:+ b ->
    exists t1 t2, t = t1 +:+ t2 /\ PyStr.lower t1 = a /\ PyStr.lower t2 = b.
Proof.
  induction t as [|c t IH]; intros a b H.
  - destruct a; [|discriminate H]. destruct b; [|discriminate H].
    exists "", "". repeat split.
  - destruct a as [|x a].
    + exists "", (String c t). repeat split. exact H.
    + rewrite append_cons in H. cbn [PyStr.lower] in H.
      injection H as Hx Hrest.
      destruct (IH a b Hrest) as (t1 & t2 & -> & Ha & Hb).
      exists (String c t1), t2. repeat split; [|exact Hb].
      cbn [PyStr.lower]. rewrite Hx, Ha. reflexivity.
Qed.

Lemma prefix_iff (n s : string) :
  String.prefix n s = true <-> exists after, s = n +:+ after.
Proof.
  revert s. induction n as [|c n IH]; intros s.
  - split; [intros _; exists s; reflexivity|].
    intros _. destruct s; reflexivity.
  - destruct s as [|d s]; simpl.
    + split; [discriminate|]. intros [after H]. discriminate H.
    + destruct (Ascii.ascii_dec c d) as [->|Hne].
      * rewrite IH. split; intros [after H]; exists after.
        -- rewrite append_cons. f_equal. exact H.
        -- rewrite append_cons in H. injection H as H. exact H.
      * split; [discriminate|]. intros [after H].
        rewrite append_cons in H. injection H as H _. congruence.
Qed.

Lemma contains_iff (n s : string) :
  PyStr.contains n s = true <-> has_part n s.
Proof.
  unfold has_part. induction s as [|d s IH].
  - cbn [PyStr.contains]. rewrite orb_false_r, prefix_iff. split.
    + intros [after H]. exists "", after. exact H.
    + intros (before & after & H).
      destruct before; [exists after; exact H|discriminate H].
  - cbn [PyStr.contains]. rewrite orb_true_iff, prefix_iff, IH. split.
    + intros [[after H]|(before & after & H)].
      * exists "", after. exact H.
      * exists (String d before), after. rewrite append_cons. f_equal. exact H.
    + intros (before & after & H). destruct before as [|x before].
      * left. exists after. exact H.
      * right. rewrite append_cons in H. injection H as _ H.
        exists before, after. exact H.
Qed.

Lemma has_part_app (part s before after : string) :
  has_part part s -> has_part part (before +:+ s +:+ after).
Proof.
  intros (a & b & ->). exists (before +:+ a), (b +:+ after).
  rewrite !append_assoc. reflexivity.
Qed.

(** X10. extract_from_text answers severity high exactly when one of the
    four urgency keywords occurs somewhere in the text in any mix of upper
    and lower case, also inside a longer word, and medium otherwise; it
    never answers critical or low, and it always reports previous value 0
    and change 0 percent. *)
Theorem X10_text_severity_by_keyword (text : string) :
  (severity (extract_from_text text) = high <->
     exists before word after,
       text = before +:+ word +:+ after /\
       In (PyStr.lower word) urgency_keywords) /\
  (severity (extract_from_text text) <> high ->
     severity (extract_from_text text) = medium) /\
  previous_value (extract_from_text text) = 0%float /\
  change_percent (extract_from_text text) = 0%float /\
  change_absolute (extract_from_text text) = current_value (extract_from_text text).
Proof.
  assert (Hex :
    existsb (fun kw => PyStr.contains kw (PyStr.lower text)) urgency_keywords = true
    <-> exists before word after,
          text = before +:+ word +:+ after /\
          In (PyStr.lower word) urgency_keywords).
  { rewrite existsb_exists. split.
    - intros (kw & Hin & Hc). apply contains_iff in Hc.
      destruct Hc as (a & b & Hc).
      destruct (lower_app_inv _ _ _ Hc) as (t1 & t2' & -> & _ & H2).
      destruct (lower_app_inv _ _ _ H2) as (w & t3 & -> & Hw & _).
      exists t1, w, t3. split; [reflexivity|]. rewrite Hw. exact Hin.
    - intros (before & word & after & -> & Hin).
      exists (PyStr.lower word). split; [exact Hin|].
      apply contains_iff. rewrite !lower_app.
      exists (PyStr.lower before), (PyStr.lower after). reflexivity. }
  unfold extract_from_text. cbn [severity previous_value change_percent
    change_absolute current_value].
  destruct (existsb _ urgency_keywords) eqn:Hany.
  - repeat split; try reflexivity; try congruence.
    + intros _. apply Hex. reflexivity.
  - repeat split; try reflexivity; try congruence; try discriminate.
    intros H. apply Hex in H. discriminate H.
Qed.

Lemma split_from_space (a b word : string) (sp : Ascii.ascii) :
  PyStr.is_space sp = true ->
  PyStr.split_from (a +:+ String sp b) word
    = PyStr.split_from a word ++ PyStr.split b.
Proof.
  intros Hsp. revert word. induction a as [|c a IH]; intros word.
  - change ("" +:+ String sp b) with (String sp b).
    cbn [PyStr.split_from]. rewrite Hsp. unfold PyStr.split.
    destruct (String.eqb word ""); reflexivity.
  - rewrite append_cons. cbn [PyStr.split_from].
    destruct (PyStr.is_space c).
    + destruct (String.eqb word ""); rewrite IH; reflexivity.
    + apply IH.
Qed.

Lemma all_chars_snoc (P : Ascii.ascii -> bool) (w : string) (c : Ascii.ascii) :
  all_chars P w = true -> P c = true ->
  all_chars P (w +:+ String c EmptyString) = true.
Proof.
  intros Hw Hc. induction w as [|d w IH].
  - simpl. rewrite Hc. reflexivity.
  - rewrite append_cons. simpl in Hw |- *.
    apply andb_true_iff in Hw as [Hd Hw]. rewrite Hd. exact (IH Hw).
Qed.

Lemma snoc_nonempty (w : string) (c : Ascii.ascii) :
  w +:+ String c EmptyString <> "".
Proof. destruct w; discriminate. Qed.

Lemma split_from_words (s : string) :
  forall word : string,
    all_chars (fun c => negb (PyStr.is_space c)) word = true ->
    Forall (fun w => w <> "" /\
                     all_chars (fun c => negb (PyStr.is_space c)) w = true)
           (PyStr.split_from s word).
Proof.
  induction s as [|c s IH]; intros word Hword; cbn [PyStr.split_from].
  - destruct (String.eqb_spec word ""); [constructor|].
    constructor; [split; assumption|constructor].
  - destruct (PyStr.is_space c) eqn:Hc.
    + destruct (String.eqb_spec word "").
      * apply IH. reflexivity.
      * constructor; [split; assumption|]. apply IH. reflexivity.
    + apply IH. apply all_chars_snoc; [exact Hword|]. rewrite Hc. reflexivity.
Qed.

Lemma split_from_all_space (s : string) :
  all_chars PyStr.is_space s = true -> PyStr.split_from s "" = [].
Proof.
  induction s as [|c s IH]; intros Hs; [reflexivity|].
  simpl in Hs. apply andb_true_iff in Hs as [Hc Hs].
  cbn [PyStr.split_from]. rewrite Hc. simpl. exact (IH Hs).
Qed.

(** X11. The word count of extract_from_text: the words are the non-empty
    runs of characters that are not whitespace; a text made of whitespace
    only (the empty text included) counts 0 words; and joining two texts
    with one whitespace character adds their counts. *)
Theorem X11_text_word_count :
  (forall s : string,
     Forall (fun w => w <> "" /\
                      all_chars (fun c => negb (PyStr.is_space c)) w = true)
            (PyStr.split s)) /\
  (forall s : string,
     all_chars PyStr.is_space s = true ->
     current_value (extract_from_text s) = 0%float) /\
  (forall (a b : string) (sp : Ascii.ascii),
     PyStr.is_space sp = true ->
     current_value (extract_from_text (a +:+ String sp b))
       = Py.float_of_nat (length (PyStr.split a) + length (PyStr.split b))).
Proof.
  split; [|split].
  - intros s. apply split_from_words. reflexivity.
  - intros s Hs. unfold extract_from_text, PyStr.split. simpl.
    rewrite (split_from_all_space s Hs). reflexivity.
  - intros a b sp Hsp. unfold extract_from_text. simpl.
    unfold PyStr.split at 1. rewrite (split_from_space a b "" sp Hsp).
    rewrite length_app. reflexivity.
Qed.

(* ===================================================================== *)
(** ** The prompts of a request, and the mock client's reading of them *)
(* ===================================================================== *)

Lemma build_insight_prompt_has_task (name : string) (fs : FeatureSet)
    (anomaly_result : option AnomalyResult) :
  has_part prompt_task (build_insight_prompt name fs anomaly_result).
Proof.
  unfold build_insight_prompt.
  destruct anomaly_result as [r|].
  - exists (prompt_head name fs +:+ prompt_anomaly r), "".
    rewrite append_empty_r. reflexivity.
  - exists (prompt_head name fs), "". rewrite append_empty_r. reflexivity.
Qed.

Lemma has_part_extends (part p q : string) :
  has_part part p -> extends p q -> has_part part q.
Proof.
  intros (a & b & ->) [suffix ->]. exists a, (b +:+ suffix).
  rewrite !append_assoc. reflexivity.
Qed.

Lemma prompts_of_snoc_producer (calls : list event) (producer : event) :
  is_call producer = false ->
  prompts_of (calls ++ [producer]) = prompts_of calls.
Proof.
  intros Hp. unfold prompts_of. rewrite omap_app.
  destruct producer; [discriminate Hp| |]; apply app_nil_r.
Qed.

(** Every prompt a request sends holds the task block of the template,
    notes of failed attempts or not. *)
Lemma request_prompts_hold_task (request : InsightRequest)
    (outcome : exn + InsightResponse) (log : list event) :
  generate_insight request [] = (outcome, log) ->
  Forall (has_part prompt_task) (prompts_of log).
Proof.
  intros Hrun.
  destruct (input_type request) eqn:Hty;
    try (destruct (generate_insight_not_metrics request []) as [_ Hgen];
         [congruence|rewrite Hgen in Hrun; injection Hrun as _ <-; constructor]).
  destruct (extract_features_cases request Hty) as [[fs Hfs]|Hshort].
  - destruct (generate_insight_extracted request fs [] Hfs)
      as (calls & result & _ & _ & Hchain & _ & Hgen).
    simpl in Hchain.
    destruct (attempts_chain_prompts calls _ _ Hchain) as (_ & Hall & _).
    assert (Hcalls : Forall (has_part prompt_task) (prompts_of calls)).
    { eapply Forall_impl; [exact Hall|]. intros p Hp.
      eapply has_part_extends; [|exact Hp].
      apply build_insight_prompt_has_task. }
    rewrite Hgen in Hrun. unfold outcome_after_loop in Hrun. simpl in Hrun.
    destruct result as [e|llm_output];
      [|destruct (parse_output llm_output)];
      injection Hrun as _ <-;
      rewrite prompts_of_snoc_producer by reflexivity; exact Hcalls.
  - rewrite (generate_insight_short request [] Hty Hshort) in Hrun.
    injection Hrun as _ <-. constructor.
Qed.

Lemma mock_severity_on_task (p : string) :
  has_part prompt_task p ->
  mock_severity p = "high" \/ mock_severity p = "critical".
Proof.
  intros (a & b & ->).
  assert (Hc : PyStr.contains "critical"
                 (PyStr.lower (a +:+ prompt_task +:+ b)) = true).
  { apply contains_iff. rewrite !lower_app. apply has_part_app.
    apply contains_iff. vm_compute. reflexivity. }
  unfold mock_severity. rewrite Hc. simpl.
  destruct (PyStr.contains "severe" _); [right|left]; reflexivity.
Qed.

(** X12. MockLLMClient never answers severity medium to the service: every
    prompt generate_insight sends, first attempt or retry, holds the task
    block of the prompt template, whose text names the word critical, so
    the mock's severity is high, or critical when the prompt also holds
    "severe", whatever the features of the request are. *)
Theorem X12_mock_severity_never_medium (request : InsightRequest)
    (outcome : exn + InsightResponse) (log : list event) :
  generate_insight request [] = (outcome, log) ->
  Forall (fun p => has_part prompt_task p /\
                   (mock_severity p = "high" \/ mock_severity p = "critical"))
         (prompts_of log).
Proof.
  intros Hrun.
  eapply Forall_impl; [exact (request_prompts_hold_task _ _ _ Hrun)|].
  intros p Hp. split; [exact Hp|apply mock_severity_on_task; exact Hp].
Qed.

(* ===================================================================== *)
(** ** np.sum *)
(* ===================================================================== *)

Lemma pairwise_sum_O (a : list float) :
  np.pairwise_sum 0 a =
    if (length a <? 8)%nat then fold_left PrimFloat.add a 0%float
    else np.block_sum a.
Proof.
  unfold np.pairwise_sum.
  destruct (length a <? 8)%nat; [reflexivity|].
  destruct (length a <=? 128)%nat; reflexivity.
Qed.

Lemma pairwise_sum_S (fuel : nat) (a : list float) :
  np.pairwise_sum (S fuel) a =
    if (length a <? 8)%nat then fold_left PrimFloat.add a 0%float
    else if (length a <=? 128)%nat then np.block_sum a
    else
      let n2 := (length a / 2 - (length a / 2) mod 8)%nat in
      (np.pairwise_sum fuel (take n2 a)
       + np.pairwise_sum fuel (drop n2 a))%float.
Proof. reflexivity. Qed.

Lemma cut_point_bounds (n : nat) :
  (128 < n)%nat ->
  (0 < n / 2 - (n / 2) mod 8 < n)%nat.
Proof.
  intros Hn.
  pose proof (Nat.mod_upper_bound (n / 2) 8 ltac:(discriminate)) as Hmod.
  pose proof (Nat.div_mod_eq n 2) as Hdiv.
  pose proof (Nat.mod_upper_bound n 2 ltac:(discriminate)) as Hmod2.
  lia.
Qed.

(** The length of the array is enough fuel for [pairwise_sum]: more fuel
    gives the same sum, so [np.sum] is the sum numpy's recursion ends
    with. *)
Lemma pairwise_sum_fuel (fuel1 : nat) :
  forall (fuel2 : nat) (a : list float),
    (length a <= fuel1)%nat -> (length a <= fuel2)%nat ->
    np.pairwise_sum fuel1 a = np.pairwise_sum fuel2 a.
Proof.
  induction fuel1 as [|fuel1 IH]; intros fuel2 a H1 H2.
  - destruct a; [|simpl in H1; lia]. destruct fuel2; reflexivity.
  - destruct fuel2 as [|fuel2].
    { destruct a; [|simpl in H2; lia]. reflexivity. }
    rewrite !pairwise_sum_S.
    destruct (length a <? 8)%nat; [reflexivity|].
    destruct (Nat.leb_spec (length a) 128) as [_|Hbig]; [reflexivity|].
    cbv zeta. destruct (cut_point_bounds (length a) Hbig) as [Hpos Hlt].
    rewrite (IH fuel2 (take _ a)), (IH fuel2 (drop _ a));
      rewrite ?length_take, ?length_drop; try lia.
    reflexivity.
Qed.

(** Eight equal values add up without rounding in the eight accumulators,
    where adding them one after the other does not: the mean of eight 0.1
    is 0.1 and their deviation is 0. *)
Example np_sum_eight_tenths :
  np.sum [0.1; 0.1; 0.1; 0.1; 0.1; 0.1; 0.1; 0.1]%float = 0.8%float /\
  fold_left PrimFloat.add [0.1; 0.1; 0.1; 0.1; 0.1; 0.1; 0.1; 0.1]%float
    0%float = 0.7999999999999999%float /\
  np.std [0.1; 0.1; 0.1; 0.1; 0.1; 0.1; 0.1; 0.1]%float = 0%float.
Proof. repeat split; vm_compute; reflexivity. Qed.

(* ===================================================================== *)
(** ** rolling_std_detection *)
(* ===================================================================== *)

Lemma item_last_none {A} (l : list A) : Py.item l (-1) = None -> l = [].
Proof.
  destruct l as [|a l]; [reflexivity|]. intros H. exfalso.
  unfold Py.item in H.
  destruct (-1 <? 0)%Z eqn:Hneg; [|discriminate Hneg].
  destruct (Z.ltb_spec (Z.of_nat (length (a :: l)) + -1) 0) as [Hlt|_].
  { simpl length in Hlt. lia. }
  apply lookup_ge_None in H. simpl length in H. lia.
Qed.

Lemma slice_window {A} (old w : list A) (x : A) (window : Z) :
  (0 <= window)%Z -> length w = Z.to_nat window ->
  PyNum.slice (old ++ w ++ [x]) (- (window + 1)) (-1) = w.
Proof.
  intros Hge Hlen. unfold PyNum.slice. rewrite !length_app. simpl.
  destruct (Z.ltb_spec (- (window + 1)) 0) as [_|?]; [|lia].
  replace (Z.max (- (window + 1) + Z.of_nat (length old + (length w + 1))) 0)
    with (Z.of_nat (length old)) by lia.
  replace (Z.max (-1 + Z.of_nat (length old + (length w + 1))) 0
           - Z.of_nat (length old))%Z with (Z.of_nat (length w)) by lia.
  rewrite !Nat2Z.id, drop_app_length. apply take_app_length.
Qed.

(** X13. rolling_std_detection and its error cases: with fewer than
    window + 1 values it returns the non-anomalous diagnostic naming the
    number of values needed; it raises, with IndexError, exactly when the
    list is empty and the window is negative (the length check then lets
    the empty list through). *)
Theorem X13_rolling_error_cases (values : list float) (window : Z)
    (threshold : float) :
  ((Z.of_nat (length values) < window + 1)%Z ->
   exists r,
     rolling_std_detection values window threshold = inr r /\
     rolling_is_anomaly r = false /\ rolling_z_score r = 0%float /\
     rolling_details r !! "error"
       = Some (RStr (concat_all ["Need at least "; PyStr.of_int (window + 1);
                                 " values"]))) /\
  ((exists e, rolling_std_detection values window threshold = inl e) <->
   values = [] /\ (window < 0)%Z) /\
  (forall e, rolling_std_detection values window threshold = inl e ->
             e = IndexError "list index out of range").
Proof.
  split; [|split].
  - intros Hshort. unfold rolling_std_detection.
    destruct (Z.ltb_spec (Z.of_nat (length values)) (window + 1)) as [_|?];
      [|lia].
    eexists. repeat split.
  - split.
    + intros [e He]. unfold rolling_std_detection in He.
      destruct (Z.ltb_spec (Z.of_nat (length values)) (window + 1)) as [?|Hge];
        [discriminate He|].
      destruct (np.std _ =? 0)%float; [discriminate He|].
      destruct (Py.item values (-1)) eqn:Hitem; [discriminate He|].
      apply item_last_none in Hitem. subst values. simpl in Hge.
      split; [reflexivity|lia].
    + intros [-> Hneg]. unfold rolling_std_detection. simpl length.
      destruct (Z.ltb_spec (Z.of_nat 0) (window + 1)) as [?|_]; [lia|].
      assert (Hslice : PyNum.slice (@nil float) (- (window + 1)) (-1) = []).
      { unfold PyNum.slice. rewrite drop_nil. apply take_nil. }
      rewrite Hslice. eexists. reflexivity.
  - intros e He. unfold rolling_std_detection in He.
    destruct (Z.of_nat (length values) <? window + 1)%Z; [discriminate He|].
    destruct (np.std _ =? 0)%float; [discriminate He|].
    destruct (Py.item values (-1)); [discriminate He|].
    injection He as <-. reflexivity.
Qed.

(** X14. The baseline of rolling_std_detection is the window of values
    just before the last one: values older than the window change nothing,
    the last value is not part of the mean and deviation it is compared
    with, a window without variance is never an anomaly, and otherwise the
    last value x is flagged exactly when |x - mean| exceeds threshold times
    the window's deviation. *)
Theorem X14_rolling_window_is_the_baseline (old w : list float) (x : float)
    (window : Z) (threshold : float) :
  (0 <= window)%Z -> length w = Z.to_nat window ->
  rolling_std_detection (old ++ w ++ [x]) window threshold
    = rolling_std_detection (w ++ [x]) window threshold /\
  exists r,
    rolling_std_detection (w ++ [x]) window threshold = inr r /\
    rolling_details r !! "rolling_mean" = Some (RFloat (np.mean w)) /\
    ((np.std w =? 0)%float = true ->
       rolling_is_anomaly r = false /\ rolling_z_score r = 0%float) /\
    ((np.std w =? 0)%float = false ->
       rolling_is_anomaly r
         = (threshold * np.std w <? abs (x - np.mean w))%float /\
       rolling_z_score r = (abs (x - np.mean w) / np.std w)%float /\
       rolling_details r !! "window_size" = Some (RInt window)).
Proof.
  intros Hge Hlen.
  assert (Hrun : forall old',
    rolling_std_detection (old' ++ w ++ [x]) window threshold =
      if (np.std w =? 0)%float then
        inr {| rolling_is_anomaly := false;
               rolling_z_score := 0;
               rolling_method := "rolling_std";
               rolling_details :=
                 <["rolling_mean" := RFloat (np.mean w)]>
                 (<["rolling_std" := RFloat 0]>
                 (<["note" := RStr "No variance in rolling window"]> ∅)) |}
      else
        inr {| rolling_is_anomaly :=
                 Py.gtb (abs (x - np.mean w)) (threshold * np.std w);
               rolling_z_score := (abs (x - np.mean w) / np.std w)%float;
               rolling_method := "rolling_std";
               rolling_details :=
                 <["rolling_mean" := RFloat (np.mean w)]>
                 (<["rolling_std" := RFloat (np.std w)]>
                 (<["current_value" := RFloat x]>
                 (<["deviation" := RFloat (abs (x - np.mean w))]>
                 (<["threshold_value" := RFloat (threshold * np.std w)]>
                 (<["window_size" := RInt window]>
                 (<["interpretation" :=
                      RStr (concat_all
                        ["Value deviates by ";
                         format_float ".2f" (abs (x - np.mean w));
                         " (threshold: ";
                         format_float ".2f" (threshold * np.std w); ") ";
                         verdict_str
                           (Py.gtb (abs (x - np.mean w))
                              (threshold * np.std w))])]>
                  ∅)))))) |}).
  { intros old'. unfold rolling_std_detection.
    rewrite (slice_window old' w x window Hge Hlen).
    destruct (Z.ltb_spec (Z.of_nat (length (old' ++ w ++ [x]))) (window + 1))
      as [Hlt|_].
    { rewrite !length_app in Hlt. simpl in Hlt. lia. }
    destruct (np.std w =? 0)%float; [reflexivity|].
    assert (Hitem : Py.item (old' ++ w ++ [x]) (-1) = Some x).
    { destruct w as [|a w'] using rev_ind.
      - destruct old' as [|b old''] using rev_ind.
        + reflexivity.
        + rewrite <- app_assoc.
          exact (proj2 (item_app_last_two old'' b x)).
      - rewrite <- (app_assoc w' [a] [x]), app_assoc.
        exact (proj2 (item_app_last_two (old' ++ w') a x)). }
    rewrite Hitem. reflexivity. }
  split.
  - rewrite (Hrun old). rewrite <- (Hrun []). reflexivity.
  - rewrite <- (app_nil_l (w ++ [x])). rewrite (Hrun []).
    destruct (np.std w =? 0)%float; eexists; split; try reflexivity;
      repeat split; try reflexivity; try discriminate.
Qed.

Lemma float_sub_nan (x : float) : (x - nan)%float = nan.
Proof.
  apply Prim2SF_inj. rewrite FloatAxioms.sub_spec.
  change (Prim2SF nan) with S754_nan.
  destruct (Prim2SF x) as [s|s| |s m e]; reflexivity.
Qed.

Lemma float_mul_nan (x : float) : (x * nan)%float = nan.
Proof.
  apply Prim2SF_inj. rewrite FloatAxioms.mul_spec.
  change (Prim2SF nan) with S754_nan.
  destruct (Prim2SF x) as [s|s| |s m e]; reflexivity.
Qed.

(** X15. With window 0 rolling_std_detection has an empty baseline: for
    every non-empty list and every threshold it returns a result that is
    not an anomaly and whose z_score is NaN, never the diagnostic and never
    a flag. *)
Theorem X15_rolling_window_zero_never_flags (values : list float)
    (threshold : float) :
  values <> [] ->
  exists r,
    rolling_std_detection values 0 threshold = inr r /\
    rolling_is_anomaly r = false /\
    rolling_z_score r = nan /\
    rolling_details r !! "error" = None /\
    rolling_details r !! "note" = None.
Proof.
  intros Hne.
  destruct values as [|a rest] using rev_ind; [congruence|]. clear IHrest.
  assert (Hslice : PyNum.slice (rest ++ [a]) (- (0 + 1)) (-1) = []).
  { exact (slice_window rest [] a 0 (Z.le_refl 0) eq_refl). }
  unfold rolling_std_detection. rewrite Hslice.
  destruct (Z.ltb_spec (Z.of_nat (length (rest ++ [a]))) (0 + 1)) as [Hlt|_].
  { rewrite length_app in Hlt. simpl in Hlt. lia. }
  change (np.mean []) with nan. change (np.std []) with nan.
  change (nan =? 0)%float with false. cbv iota.
  assert (Hitem : Py.item (rest ++ [a]) (-1) = Some a).
  { destruct rest as [|b rest'] using rev_ind; [reflexivity|].
    rewrite <- app_assoc. exact (proj2 (item_app_last_two rest' b a)). }
  rewrite Hitem, float_sub_nan, float_mul_nan.
  eexists. split; [reflexivity|]. repeat split.
Qed.

(** A window of eight equal values has no variance, whatever follows. *)
Example rolling_window_of_eight_tenths :
  exists r,
    rolling_std_detection
      [0.1; 0.1; 0.1; 0.1; 0.1; 0.1; 0.1; 0.1; 0.2]%float 8 2 = inr r /\
    rolling_is_anomaly r = false /\
    rolling_details r !! "note" = Some (RStr "No variance in rolling window").
Proof. eexists. split; [vm_compute; reflexivity|]. split; reflexivity. Qed.

(* ===================================================================== *)
(** ** DriftMonitor.detect_drift *)
(* ===================================================================== *)

Lemma drift_loop_body_counts (insight : InsightRow) (st st' : DriftCounters) :
  drift_loop_body insight st = inr st' ->
  (disagreements st <= disagreements st' <= disagreements st + 1)%Z /\
  (Z.of_nat (length (severity_mismatches st')) - disagreements st'
   = Z.of_nat (length (severity_mismatches st)) - disagreements st)%Z /\
  (length (confidence_drop st) <= length (confidence_drop st')
   <= length (confidence_drop st) + 1)%nat.
Proof.
  unfold drift_loop_body. intros H.
  destruct (jsonb_lt_float _ 0.5) as [e|[|]]; [discriminate H| |];
    injection H as <-;
    destruct (jsonb_ne _ _); simpl; rewrite ?length_app; simpl;
    repeat split; lia.
Qed.

Lemma drift_loop_counts (insights : list InsightRow) :
  forall st st', drift_loop insights st = inr st' ->
  (disagreements st <= disagreements st'
   <= disagreements st + Z.of_nat (length insights))%Z /\
  (Z.of_nat (length (severity_mismatches st')) - disagreements st'
   = Z.of_nat (length (severity_mismatches st)) - disagreements st)%Z /\
  (length (confidence_drop st) <= length (confidence_drop st')
   <= length (confidence_drop st) + length insights)%nat.
Proof.
  induction insights as [|insight rest IH]; intros st st' H; simpl in H.
  - injection H as <-. simpl. repeat split; lia.
  - destruct (drift_loop_body insight st) as [e|st1] eqn:Hbody;
      [discriminate H|].
    destruct (drift_loop_body_counts _ _ _ Hbody) as (Hd & Hm & Hc).
    destruct (IH _ _ H) as (Hd' & Hm' & Hc').
    simpl length. repeat split; lia.
Qed.

Lemma drift_loop_body_raises (insight : InsightRow) (st : DriftCounters) :
  (confidence_comparable insight = true ->
   exists st', drift_loop_body insight st = inr st') /\
  (confidence_comparable insight = false ->
   exists m, drift_loop_body insight st = inl (TypeError m)).
Proof.
  unfold confidence_comparable, drift_loop_body.
  destruct (row_llm_output insight !! "confidence") as [[s|x|l]|]; simpl;
    split; intros H; try discriminate H;
    try (eexists; reflexivity);
    match goal with |- context [if ?b then _ else _] => destruct b end;
    eexists; reflexivity.
Qed.

Lemma drift_loop_raises (insights : list InsightRow) :
  forall st,
  (forallb confidence_comparable insights = true ->
   exists st', drift_loop insights st = inr st') /\
  (forallb confidence_comparable insights = false ->
   exists m, drift_loop insights st = inl (TypeError m)).
Proof.
  induction insights as [|insight rest IH]; intros st; simpl.
  - split; [eexists; reflexivity|discriminate].
  - destruct (drift_loop_body_raises insight st) as [Hok Hbad].
    destruct (confidence_comparable insight); simpl.
    + destruct (Hok eq_refl) as [st1 ->]. apply IH.
    + destruct (Hbad eq_refl) as [m ->].
      split; [discriminate|intros _; eexists; reflexivity].
Qed.

Lemma slice_prefix_length {A} (l : list A) (n : Z) :
  (0 <= n)%Z ->
  length (PyNum.slice l 0 n) = Z.to_nat (Z.min (Z.of_nat (length l)) n).
Proof.
  intros Hn. unfold PyNum.slice.
  destruct (Z.ltb_spec 0 0) as [?|_]; [lia|].
  destruct (Z.ltb_spec n 0) as [?|_]; [lia|].
  rewrite length_take, length_drop. lia.
Qed.

Lemma timedelta_days_cases (days : Z) :
  ((Z.abs days <= 999999999)%Z -> timedelta_days days = inr days) /\
  ((999999999 < Z.abs days)%Z ->
   exists m, timedelta_days days = inl (OverflowError m)).
Proof.
  unfold timedelta_days. split; intros H.
  - destruct (Z.ltb_spec days (-2147483648)) as [?|_]; [lia|].
    destruct (Z.ltb_spec 2147483647 days) as [?|_]; [lia|]. simpl.
    destruct (Z.ltb_spec 999999999 (Z.abs days)) as [?|_]; [lia|reflexivity].
  - destruct ((days <? -2147483648) || (2147483647 <? days))%Z;
      [eexists; reflexivity|].
    destruct (Z.ltb_spec 999999999 (Z.abs days)) as [_|?]; [|lia].
    eexists; reflexivity.
Qed.

Lemma cutoff_date_cases (utcnow days : Z) :
  ((Z.abs days <= 999999999 /\ 1 <= utcnow - days <= 3652059)%Z ->
   cutoff_date utcnow days = inr (utcnow - days)%Z) /\
  (~ (Z.abs days <= 999999999 /\ 1 <= utcnow - days <= 3652059)%Z ->
   exists m, cutoff_date utcnow days = inl (OverflowError m)).
Proof.
  unfold cutoff_date.
  destruct (timedelta_days_cases days) as [Hok Hbad].
  destruct (Z.le_gt_cases (Z.abs days) 999999999) as [Hle|Hgt].
  - rewrite (Hok Hle). unfold datetime_sub_days, MINORDINAL, MAXORDINAL.
    destruct (Z.leb_spec 1 (utcnow - days)) as [H1|H1];
      destruct (Z.leb_spec (utcnow - days) 3652059) as [H2|H2]; simpl;
      split; intros H; try reflexivity; try lia;
      eexists; reflexivity.
  - destruct (Hbad Hgt) as [m ->].
    split; intros H; [lia|eexists; reflexivity].
Qed.

(** X16. detect_drift, given the current date and the rows of the period.
    It first computes the cutoff date, which raises OverflowError, before
    any row is read, exactly when days exceeds 999999999 in magnitude or
    today minus days is not a date of the years 1 to 9999.  Otherwise:
    without rows it answers no_data; it raises, always a TypeError, exactly
    when some row stores a confidence that is not a number; and else the
    report counts every row in total_insights, the disagreements and the
    low-confidence rows are between 0 and that total, at most ten
    mismatches are listed (all of them when there are fewer), drift_rate is
    disagreements/total rounded to 3 decimals, and the status is
    drift_detected exactly when the unrounded rate exceeds the threshold. *)
Theorem X16_drift_report_counts (utcnow : Z) (insights : list InsightRow)
    (days : Z) (disagreement_threshold : float) :
  ((exists cutoff, cutoff_date utcnow days = inr cutoff) <->
   (Z.abs days <= 999999999 /\ 1 <= utcnow - days <= 3652059)%Z) /\
  (forall e, cutoff_date utcnow days = inl e ->
     (exists m, e = OverflowError m) /\
     detect_drift utcnow insights days disagreement_threshold = inl e) /\
  (forall cutoff, cutoff_date utcnow days = inr cutoff ->
  detect_drift utcnow [] days disagreement_threshold
    = inr (NoData "no_data" "Not enough data to detect drift") /\
  ((exists e, detect_drift utcnow insights days disagreement_threshold
              = inl e) <->
   forallb confidence_comparable insights = false) /\
  (forall e, detect_drift utcnow insights days disagreement_threshold = inl e ->
             exists m, e = TypeError m) /\
  (forall result,
     detect_drift utcnow insights days disagreement_threshold = inr result ->
     insights <> [] ->
     exists report,
       result = Drift report /\
       total_insights report = Z.of_nat (length insights) /\
       (0 <= report_disagreements report <= total_insights report)%Z /\
       (0 <= low_confidence_count report <= total_insights report)%Z /\
       length (report_severity_mismatches report)
         = Z.to_nat (Z.min (report_disagreements report) 10) /\
       drift_rate report
         = PyNum.round_ndigits
             (PyNum.int_truediv (report_disagreements report)
                (total_insights report)) 3 /\
       (status report = "drift_detected" <->
        (disagreement_threshold
           <? PyNum.int_truediv (report_disagreements report)
                (total_insights report))%float = true) /\
       period_days report = days /\
       report_threshold report = disagreement_threshold)).
Proof.
  destruct (cutoff_date_cases utcnow days) as [Hin Hout].
  split; [|split].
  { split.
    - intros [cutoff Hcut].
      destruct (Z.le_gt_cases (Z.abs days) 999999999) as [Hle|Hgt];
        [destruct (Z.le_gt_cases 1 (utcnow - days)) as [H1|H1];
         [destruct (Z.le_gt_cases (utcnow - days) 3652059) as [H2|H2]|]|];
        try (repeat split; assumption);
        destruct Hout as [m Hm]; try lia; congruence.
    - intros H. eexists. exact (Hin H). }
  { intros e Hcut. split.
    - destruct (Z.le_gt_cases (Z.abs days) 999999999) as [Hle|Hgt];
        [destruct (Z.le_gt_cases 1 (utcnow - days)) as [H1|H1];
         [destruct (Z.le_gt_cases (utcnow - days) 3652059) as [H2|H2]|]|];
        try (rewrite Hin in Hcut by lia; discriminate Hcut);
        destruct Hout as [m Hm]; try lia;
        rewrite Hm in Hcut; injection Hcut as <-; eexists; reflexivity.
    - unfold detect_drift. rewrite Hcut. reflexivity. }
  intros cutoff Hcut.
  split; [unfold detect_drift; rewrite Hcut; reflexivity|].
  set (st0 := {| disagreements := 0; severity_mismatches := [];
                 confidence_drop := [] |}).
  destruct (drift_loop_raises insights st0) as [Hok Hbad].
  destruct insights as [|insight rest].
  { unfold detect_drift. rewrite Hcut. simpl. split; [|split].
    - split; [intros [e He]; discriminate He|discriminate].
    - intros e He. discriminate He.
    - intros result _ Hne. congruence. }
  unfold detect_drift. rewrite Hcut. fold st0.
  destruct (forallb confidence_comparable (insight :: rest)) eqn:Hall.
  - destruct (Hok eq_refl) as [st Hst]. rewrite Hst.
    split; [|split].
    + split; [intros [e He]; discriminate He|discriminate].
    + intros e He. discriminate He.
    + intros result Hres _. injection Hres as <-.
      destruct (drift_loop_counts _ _ _ Hst) as (Hd & Hm & Hc).
      simpl disagreements in Hd, Hm. simpl severity_mismatches in Hm.
      simpl confidence_drop in Hc. simpl length in Hd, Hm, Hc.
      destruct (Z.ltb_spec 0 (Z.of_nat (length (insight :: rest))))
        as [_|Hle]; [|simpl length in Hle; lia].
      eexists. split; [reflexivity|].
      cbn [status drift_rate total_insights report_disagreements
           report_threshold period_days low_confidence_count
           report_severity_mismatches recommendation].
      repeat split; try lia.
      * rewrite slice_prefix_length by lia. f_equal. lia.
      * unfold Py.gtb.
        destruct (_ <? _)%float; [reflexivity|discriminate].
      * unfold Py.gtb.
        destruct (_ <? _)%float; [reflexivity|discriminate].
  - destruct (Hbad eq_refl) as [m Hm]. rewrite Hm.
    split; [|split].
    + split; [reflexivity|intros _; eexists; reflexivity].
    + intros e He. injection He as <-. eexists; reflexivity.
    + intros result Hres. discriminate Hres.
Qed.

(** On 2026-11-03 (ordinal 739923) a period of a million days has no
    cutoff date, and neither has one of 10^9 days. *)
Example detect_drift_cutoff_overflow :
  detect_drift 739923 [] 1000000 0.3
    = inl (OverflowError "date value out of range") /\
  detect_drift 739923 [] (-1000000000) 0.3
    = inl (OverflowError
             "days=-1000000000; must have magnitude <= 999999999") /\
  detect_drift 739923 [] 2147483648 0.3
    = inl (OverflowError "Python int too large to convert to C int") /\
  detect_drift 739923 [] 7 0.3
    = inr (NoData "no_data" "Not enough data to detect drift").
Proof. repeat split; vm_compute; reflexivity. Qed.

Lemma stored_row_comparable (saved : string * string * InsightResponse) :
  confidence_comparable (stored_row saved) = true.
Proof. reflexivity. Qed.

Lemma FeatureSet_dict_severity (fs : FeatureSet) :
  FeatureSet_dict fs !! "severity" = Some (JString (severity_str (severity fs))).
Proof. reflexivity. Qed.

Lemma InsightOutput_dict_severity (o : InsightOutput) :
  InsightOutput_dict o !! "severity"
    = Some (JString (severity_str (insight_severity o))).
Proof. reflexivity. Qed.

Lemma InsightOutput_dict_confidence (o : InsightOutput) :
  InsightOutput_dict o !! "confidence" = Some (JNumber (confidence o)).
Proof. reflexivity. Qed.

Lemma fallback_row_agrees (request : InsightRequest)
    (saved : string * string * InsightResponse) (log : list event) :
  generate_insight request [] = (inr saved.2, log) ->
  from_model saved = false ->
  forall st, drift_loop_body (stored_row saved) st = inr st.
Proof.
  intros Hrun Hfb st.
  destruct (response_cases request saved.2 log Hrun)
    as (_ & fs & calls & _ & _ & _ & [[Hresp _]|(o & accepted & Hresp & _)]).
  - unfold drift_loop_body, stored_row, row_of_response. rewrite Hresp.
    cbn [row_features row_llm_output].
    rewrite FeatureSet_dict_severity, InsightOutput_dict_severity,
      InsightOutput_dict_confidence.
    assert (Hsev : insight_severity (insight (fallback_response request fs))
                   = severity (features (fallback_response request fs))).
    { unfold fallback_response, build_response, _generate_fallback_insight.
      cbn [insight features].
      destruct (Py.gtb (change_percent fs) 0); reflexivity. }
    assert (Hconf : confidence (insight (fallback_response request fs))
                    = 0.60%float).
    { unfold fallback_response, build_response, _generate_fallback_insight.
      cbn [insight].
      destruct (Py.gtb (change_percent fs) 0); reflexivity. }
    rewrite Hsev, Hconf. simpl default.
    unfold jsonb_ne. rewrite bool_decide_true by reflexivity.
    destruct st; reflexivity.
  - unfold from_model in Hfb. rewrite Hresp in Hfb. discriminate Hfb.
Qed.

Lemma stored_loop_counts (stored : list (string * string * InsightResponse)) :
  Forall (fun saved => exists request log,
            generate_insight request [] = (inr saved.2, log)) stored ->
  forall st, exists st',
    drift_loop (map stored_row stored) st = inr st' /\
    (disagreements st <= disagreements st'
     <= disagreements st
        + Z.of_nat (length (List.filter from_model stored)))%Z /\
    (Z.of_nat (length (severity_mismatches st')) - disagreements st'
     = Z.of_nat (length (severity_mismatches st)) - disagreements st)%Z /\
    (length (confidence_drop st) <= length (confidence_drop st')
     <= length (confidence_drop st)
        + length (List.filter from_model stored))%nat.
Proof.
  induction 1 as [|saved rest (request & log & Hrun) _ IH]; intros st.
  - exists st. simpl. repeat split; lia.
  - simpl map. simpl drift_loop. simpl List.filter.
    destruct (from_model saved) eqn:Hfm.
    + destruct (proj1 (drift_loop_body_raises (stored_row saved) st)
                  (stored_row_comparable saved)) as [st1 Hbody].
      rewrite Hbody.
      destruct (drift_loop_body_counts _ _ _ Hbody) as (Hd & Hm & Hc).
      destruct (IH st1) as (st' & Hloop & Hd' & Hm' & Hc').
      exists st'. split; [exact Hloop|]. simpl length. repeat split; lia.
    + rewrite (fallback_row_agrees request saved log Hrun Hfm st).
      apply IH.
Qed.

Lemma float_nonneg_not_below_zero (x : float) :
  (0 <=? x)%float = true -> (x <? 0)%float = false.
Proof.
  rewrite FloatAxioms.leb_spec, FloatAxioms.ltb_spec.
  change (Prim2SF 0) with (S754_zero false).
  destruct (Prim2SF x) as [s|s| |s m e]; cbv [SFleb SFltb SFcompare];
    try destruct s; congruence.
Qed.

Lemma int_truediv_zero (n : Z) : (0 < n)%Z -> PyNum.int_truediv 0 n = 0%float.
Proof. destruct n; try lia. intros _. reflexivity. Qed.

(** X17. The drift monitor on rows saved from the service's own
    responses, in a period whose cutoff date exists (days within 999999999
    in magnitude, today minus days a date of the years 1 to 9999):
    detect_drift does not raise on them, and a row whose response came from
    the rule-based fallback is counted in the total but never as a
    disagreement nor as a low-confidence row, so both counts are at most
    the number of rows produced by the model.  When every row is a
    fallback row (the model was down for the whole period) and the
    threshold is not negative, the report says normal with a drift rate of
    0.0 and no mismatch. *)
Theorem X17_fallback_rows_never_drift (utcnow : Z)
    (stored : list (string * string * InsightResponse)) (days : Z)
    (disagreement_threshold : float) :
  (Z.abs days <= 999999999)%Z ->
  (1 <= utcnow - days <= 3652059)%Z ->
  stored <> [] ->
  Forall (fun saved => exists request log,
            generate_insight request [] = (inr saved.2, log)) stored ->
  exists report,
    detect_drift utcnow (map stored_row stored) days disagreement_threshold
      = inr (Drift report) /\
    total_insights report = Z.of_nat (length stored) /\
    (report_disagreements report
     <= Z.of_nat (length (List.filter from_model stored)))%Z /\
    (low_confidence_count report
     <= Z.of_nat (length (List.filter from_model stored)))%Z /\
    (List.filter from_model stored = [] ->
     (0 <=? disagreement_threshold)%float = true ->
     status report = "normal" /\ drift_rate report = 0%float /\
     report_disagreements report = 0%Z /\
     low_confidence_count report = 0%Z /\
     report_severity_mismatches report = []).
Proof.
  intros Hdays Hrange Hne Hall.
  destruct (stored_loop_counts stored Hall
              {| disagreements := 0; severity_mismatches := [];
                 confidence_drop := [] |})
    as (st & Hloop & Hd & Hm & Hc).
  simpl disagreements in Hd, Hm. simpl severity_mismatches in Hm.
  simpl confidence_drop in Hc. simpl length in Hm, Hc.
  unfold detect_drift.
  rewrite (proj1 (cutoff_date_cases utcnow days) (conj Hdays Hrange)).
  rewrite Hloop.
  destruct stored as [|saved rest]; [congruence|].
  rewrite length_map.
  destruct (Z.ltb_spec 0 (Z.of_nat (length (saved :: rest)))) as [Hpos|Hle];
    [|simpl length in Hle; lia].
  change (map stored_row (saved :: rest))
    with (stored_row saved :: map stored_row rest).
  cbv iota. eexists. split; [reflexivity|].
  cbn [status drift_rate total_insights report_disagreements
       report_threshold period_days low_confidence_count
       report_severity_mismatches recommendation].
  split; [reflexivity|]. split; [lia|]. split; [lia|].
  intros Hnone Hthr. rewrite Hnone in Hd, Hc. simpl length in Hd, Hc.
  assert (Hzero : disagreements st = 0%Z) by lia.
  rewrite Hzero, (int_truediv_zero _ Hpos).
  unfold Py.gtb. rewrite (float_nonneg_not_below_zero _ Hthr).
  repeat split; try lia.
  destruct (severity_mismatches st) as [|mm l]; [reflexivity|].
  simpl length in Hm. lia.
Qed.

(* ===================================================================== *)
(** ** The callers of generate_insight: the route and the batch task *)
(* ===================================================================== *)

Lemma metrics_request_answered_from (request : InsightRequest)
    (log : list event) :
  input_type request = metrics ->
  exists response log', generate_insight request log = (inr response, log').
Proof.
  intros Hty.
  destruct (extract_features_cases request Hty) as [[fs Hfs]|Hshort].
  - destruct (generate_insight_extracted request fs log Hfs)
      as (calls & result & _ & _ & _ & _ & Hgen).
    rewrite Hgen. unfold outcome_after_loop.
    destruct result as [e|llm_output];
      [|destruct (parse_output llm_output)]; eexists; eexists; reflexivity.
  - rewrite (generate_insight_short request log Hty Hshort).
    eexists; eexists; reflexivity.
Qed.

(** X18. The answers of POST /api/v1/generate-insight.  A request of type
    text or timeseries always gets 500 "Internal server error", with no
    model call and nothing saved.  A request of type metrics, whatever its
    values and whatever the model does, gets the response of
    generate_insight with status 200 unless saving it raises.  Status 400
    is only ever the answer to a ValueError raised while saving: no request
    is refused as invalid by this handler, the ValueError for fewer than two
    values never reaching it. *)
Theorem X18_route_answers (insight_request : InsightRequest)
    (log : list event) (db : database) :
  (input_type insight_request <> metrics ->
   route_generate_insight insight_request log db
     = (HTTPException 500 "Internal server error", log, db)) /\
  (input_type insight_request = metrics ->
   exists result log',
     generate_insight insight_request log = (inr result, log') /\
     forall saved db',
       repo_create result db = (saved, db') ->
       route_generate_insight insight_request log db
         = (match saved with
            | inr _ => Ok200 result
            | inl e => route_handler e
            end, log', db')) /\
  (forall http_detail log' db',
     route_generate_insight insight_request log db
       = (HTTPException 400 http_detail, log', db') ->
     exists result e,
       generate_insight insight_request log = (inr result, log') /\
       repo_create result db = (inl e, db') /\
       isinstance_ValueError e = true /\ http_detail = str_exn e).
Proof.
  unfold route_generate_insight.
  destruct (input_type insight_request) eqn:Hty.
  - destruct (metrics_request_answered_from insight_request log Hty)
      as (result & log1 & Hgen).
    rewrite Hgen. split; [congruence|]. split.
    + intros _. exists result, log1. split; [reflexivity|].
      intros saved db' Hsave. rewrite Hsave. destruct saved; reflexivity.
    + intros http_detail log' db'.
      destruct (repo_create result db) as [[e|u] db1] eqn:Hsave.
      * unfold route_handler.
        destruct (isinstance_ValueError e) eqn:Hval; intros H;
          [|discriminate H].
        injection H as <- <- <-. exists result, e. repeat split; assumption.
      * intros H. discriminate H.
  - destruct (generate_insight_not_metrics insight_request log) as [_ Hgen];
      [congruence|].
    rewrite Hgen. split; [reflexivity|]. split; [discriminate|].
    intros http_detail log' db' H. discriminate H.
  - destruct (generate_insight_not_metrics insight_request log) as [_ Hgen];
      [congruence|].
    rewrite Hgen. split; [reflexivity|]. split; [discriminate|].
    intros http_detail log' db' H. discriminate H.
Qed.

Lemma batch_item_counts (i : nat) (request_data : raw_request)
    (results results' : BatchResults) (log log' : list event)
    (db db' : database) :
  batch_item i request_data results log db = (results', log', db') ->
  total results' = total results /\
  (successful results' + failed results'
   = successful results + failed results + 1)%Z /\
  (successful results <= successful results')%Z /\
  (failed results <= failed results')%Z /\
  (Z.of_nat (length (insight_ids results')) - successful results'
   = Z.of_nat (length (insight_ids results)) - successful results)%Z.
Proof.
  unfold batch_item. intros H.
  destruct (InsightRequest_of_raw request_data) as [e|request].
  { injection H as <- _ _. simpl. repeat split; lia. }
  destruct (generate_insight request log) as [[e|result] log1].
  { injection H as <- _ _. simpl. repeat split; lia. }
  destruct (repo_create result db) as [[e|u] db1];
    injection H as <- _ _; simpl; rewrite ?length_app; simpl;
    repeat split; lia.
Qed.

Lemma batch_loop_counts (requests_data : list raw_request) :
  forall (i : nat) (results results' : BatchResults) (log log' : list event)
         (db db' : database),
  batch_loop i requests_data results log db = (results', log', db') ->
  total results' = total results /\
  (successful results' + failed results'
   = successful results + failed results
     + Z.of_nat (length requests_data))%Z /\
  (successful results <= successful results')%Z /\
  (failed results <= failed results')%Z /\
  (Z.of_nat (length (insight_ids results')) - successful results'
   = Z.of_nat (length (insight_ids results)) - successful results)%Z.
Proof.
  induction requests_data as [|request_data rest IH];
    intros i results results' log log' db db' H; simpl in H.
  - injection H as <- _ _. simpl. repeat split; lia.
  - destruct (batch_item i request_data results log db)
      as [[results1 log1] db1] eqn:Hitem.
    destruct (batch_item_counts _ _ _ _ _ _ _ _ Hitem)
      as (Ht & Hs & Hs1 & Hf1 & Hi).
    destruct (IH _ _ _ _ _ _ _ H) as (Ht' & Hs' & Hs1' & Hf1' & Hi').
    simpl length. repeat split; lia.
Qed.

(** X19. The summary of batch_generate_insights: the task never raises out
    of its loop; every item is counted exactly once, as successful or as
    failed, so successful + failed = total = the number of items, and
    insight_ids holds exactly one id per successful item. *)
Theorem X19_batch_summary_counts (requests_data : list raw_request)
    (log : list event) (db : database) :
  exists results log' db',
    batch_generate_insights requests_data log db = (results, log', db') /\
    total results = Z.of_nat (length requests_data) /\
    (successful results + failed results = total results)%Z /\
    (0 <= successful results)%Z /\ (0 <= failed results)%Z /\
    Z.of_nat (length (insight_ids results)) = successful results.
Proof.
  unfold batch_generate_insights.
  destruct (batch_loop 0 requests_data _ log db) as [[results log'] db']
    eqn:Hloop.
  exists results, log', db'. split; [reflexivity|].
  destruct (batch_loop_counts _ _ _ _ _ _ _ _ Hloop)
    as (Ht & Hs & Hs1 & Hf1 & Hi).
  simpl in Ht, Hs, Hs1, Hf1, Hi. repeat split; lia.
Qed.

Lemma batch_loop_accepting (requests_data : list raw_request) :
  (forall result db, exists db', repo_create result db = (inr tt, db')) ->
  forall (i : nat) (results results' : BatchResults) (log log' : list event)
         (db db' : database),
  batch_loop i requests_data results log db = (results', log', db') ->
  (successful results'
   = successful results
     + Z.of_nat (length (List.filter is_metrics_item requests_data)))%Z.
Proof.
  intros Hsave.
  induction requests_data as [|request_data rest IH];
    intros i results results' log log' db db' H; simpl in H.
  - injection H as <- _ _. simpl. lia.
  - destruct (batch_item i request_data results log db)
      as [[results1 log1] db1] eqn:Hitem.
    rewrite (IH _ _ _ _ _ _ _ H). clear IH H.
    simpl List.filter. unfold batch_item, is_metrics_item in *.
    destruct (InsightRequest_of_raw request_data) as [e|request].
    { injection Hitem as <- _ _. simpl. lia. }
    destruct (input_type request) eqn:Hty.
    + destruct (metrics_request_answered_from request log Hty)
        as (result & log2 & Hgen).
      rewrite Hgen in Hitem.
      destruct (Hsave result db) as [db2 Hdb]. rewrite Hdb in Hitem.
      injection Hitem as <- _ _. simpl. lia.
    + destruct (generate_insight_not_metrics request log) as [_ Hgen];
        [congruence|].
      rewrite Hgen in Hitem. injection Hitem as <- _ _. simpl. lia.
    + destruct (generate_insight_not_metrics request log) as [_ Hgen];
        [congruence|].
      rewrite Hgen in Hitem. injection Hitem as <- _ _. simpl. lia.
Qed.

(** X20. Which items of a batch succeed.  When the database accepts every
    save, successful counts exactly the items that validate as requests of
    type metrics, whatever their values and whatever the model answers, and
    failed counts all the others: every text or timeseries item, like
    every invalid one. *)
Theorem X20_batch_success_is_metrics_items
    (requests_data : list raw_request) (log : list event) (db : database) :
  (forall result db, exists db', repo_create result db = (inr tt, db')) ->
  exists results log' db',
    batch_generate_insights requests_data log db = (results, log', db') /\
    successful results
      = Z.of_nat (length (List.filter is_metrics_item requests_data)) /\
    failed results
      = Z.of_nat (length (List.filter (fun request_data =>
                            negb (is_metrics_item request_data))
                          requests_data)).
Proof.
  intros Hsave. unfold batch_generate_insights.
  destruct (batch_loop 0 requests_data _ log db) as [[results log'] db']
    eqn:Hloop.
  exists results, log', db'. split; [reflexivity|].
  pose proof (batch_loop_accepting requests_data Hsave _ _ _ _ _ _ _ Hloop)
    as Hsucc.
  destruct (batch_loop_counts _ _ _ _ _ _ _ _ Hloop) as (_ & Hs & _).
  simpl in Hsucc, Hs.
  assert (Hsplit : forall l : list raw_request,
            (length (List.filter is_metrics_item l)
             + length (List.filter (fun request_data =>
                         negb (is_metrics_item request_data)) l)
             = length l)%nat).
  { induction l as [|a l IHl]; [reflexivity|]. simpl.
    destruct (is_metrics_item a); simpl; lia. }
  specialize (Hsplit requests_data). split; lia.
Qed.

(* ===================================================================== *)
(** ** The requests the service receives *)
(* ===================================================================== *)

Lemma validated_metrics_values (p : Payload) (request : InsightRequest) :
  InsightRequest_of_payload p = inr request ->
  input_type request = metrics ->
  exists values,
    get_values (data request) = Some values /\ (2 <= length values)%nat.
Proof.
  unfold InsightRequest_of_payload, validate_data_format. intros Hreq Hty.
  destruct (payload_input_type p) eqn:Hkind.
  - unfold MetricsData_dict in Hreq.
    destruct (raw_metric_name (payload_data p)) as [name|];
      [|discriminate Hreq].
    destruct (raw_values (payload_data p)) as [values|]; [|discriminate Hreq].
    destruct (Nat.ltb_spec (length values) 2) as [?|Hlen];
      [discriminate Hreq|].
    injection Hreq as <-. exists values. split; [reflexivity|exact Hlen].
  - destruct (TextData_dict (payload_data p)); [|discriminate Hreq].
    injection Hreq as <-. discriminate Hty.
  - destruct (TimeSeriesData_dict (payload_data p)); [|discriminate Hreq].
    injection Hreq as <-. discriminate Hty.
Qed.

(** The payloads of the API tests: with two values or more the request
    built is [metrics_request]; with the single value 100
    (test_generate_insight_insufficient_data) no request is built. *)
Lemma metrics_payload_validated (values : list float) :
  (2 <= length values)%nat ->
  InsightRequest_of_payload (metrics_payload values)
    = inr (metrics_request values).
Proof.
  intros Hlen.
  unfold InsightRequest_of_payload, validate_data_format, MetricsData_dict.
  simpl. destruct (Nat.ltb_spec (length values) 2) as [?|_]; [lia|reflexivity].
Qed.

Example metrics_payload_insufficient_data :
  InsightRequest_of_payload (metrics_payload [100]%float)
    = inl (ValidationError
             (request_error_text (metrics_payload [100]%float))).
Proof. reflexivity. Qed.

(** C4 (the code on the requests it receives).  A metrics payload with
    fewer than two values never reaches generate_insight: building the
    InsightRequest fails with pydantic's ValidationError, a ValueError, and
    nothing is produced for it.  On a validated request the feature
    extraction of a metrics request always succeeds and a response is
    returned whatever the model does; but a text or timeseries request
    makes generate_insight raise AttributeError, so an error that is not
    the invalid-input kind does reach the caller, and it is the only kind
    that does. *)
Theorem C4_validated_requests_raise_attribute_error (p : Payload) :
  (payload_input_type p = metrics ->
   (length (default [] (raw_values (payload_data p))) < 2)%nat ->
   InsightRequest_of_payload p = inl (ValidationError (request_error_text p)) /\
   isinstance_ValueError (ValidationError (request_error_text p)) = true) /\
  (forall request,
     InsightRequest_of_payload p = inr request ->
     (input_type request = metrics ->
        (exists fs, _extract_features request = inr (Some fs)) /\
        (exists response log,
           generate_insight request [] = (inr response, log))) /\
     (input_type request <> metrics ->
        generate_insight request []
          = (inl (AttributeError
                    "'NoneType' object has no attribute 'change_percent'"),
             [])) /\
     (forall e log,
        generate_insight request [] = (inl e, log) ->
        input_type request <> metrics /\ isinstance_ValueError e = false)).
Proof.
  split.
  - intros Hkind Hshort. split; [|reflexivity].
    unfold InsightRequest_of_payload, validate_data_format, MetricsData_dict.
    rewrite Hkind.
    destruct (raw_metric_name (payload_data p)) as [name|]; [|reflexivity].
    destruct (raw_values (payload_data p)) as [values|]; [|reflexivity].
    simpl in Hshort.
    destruct (Nat.ltb_spec (length values) 2) as [_|?]; [reflexivity|lia].
  - intros request Hreq.
    assert (Hmetrics : input_type request = metrics ->
              (exists fs, _extract_features request = inr (Some fs)) /\
              (exists response log,
                 generate_insight request [] = (inr response, log))).
    { intros Hty.
      destruct (validated_metrics_values p request Hreq Hty)
        as (values & Hvalues & Hlen).
      destruct (extract_features_metrics request values Hty) as (fs & Hfs & _);
        [rewrite Hvalues; reflexivity|exact Hlen|].
      split; [exists fs; exact Hfs|].
      exact (metrics_request_answered request Hty). }
    split; [exact Hmetrics|]. split.
    + intros Hty. exact (proj2 (generate_insight_not_metrics request [] Hty)).
    + intros e log Hrun.
      destruct (input_type request) eqn:Hty.
      * destruct (proj2 (Hmetrics eq_refl)) as (response & log' & Hgen).
        rewrite Hgen in Hrun. discriminate Hrun.
      * destruct (generate_insight_not_metrics request []) as [_ Hgen];
          [congruence|].
        rewrite Hgen in Hrun. injection Hrun as <- _.
        split; [discriminate|reflexivity].
      * destruct (generate_insight_not_metrics request []) as [_ Hgen];
          [congruence|].
        rewrite Hgen in Hrun. injection Hrun as <- _.
        split; [discriminate|reflexivity].
Qed.

End InsightService.

(* ===================================================================== *)
(** ** Closed instances: the theorems applied to concrete requests, and
       the inputs on which the specification's wording fails *)
(* ===================================================================== *)

(** C1 at the request of the test suite, [100, 105, 103, 150], with a
    client that always times out. *)
Lemma C1_witness :
  exists response log,
    generate_insight sample_format string sample_json_loads sample_of_json 42
      (failing_client "timeout") default_settings
      (metrics_request [100; 105; 103; 150]%float) [] = (inr response, log) /\
    fallback_used (metadata response) = true /\
    confidence (insight response) = 0.60%float /\
    length (recommended_actions (insight response)) = 3%nat /\
    length (key_findings (insight response)) = 3%nat /\
    In "Analysis based on rule-based thresholds (LLM unavailable)"
       (key_findings (insight response)) /\
    extract_from_metrics default_settings [100; 105; 103; 150]%float None
      = inr (features response).
Proof.
  apply (C1_degrades_to_fallback sample_format string sample_json_loads
           sample_of_json 42 (failing_client "timeout") default_settings
           (metrics_request [100; 105; 103; 150]%float)
           [100; 105; 103; 150]%float).
  - reflexivity.
  - reflexivity.
  - simpl. lia.
  - intros k prompt. exists (ProviderError "timeout"). reflexivity.
Defined.

(** C2 on a run where the model answers at once: the flag is false and the
    insight is the parsed answer. *)
Lemma C2_witness :
  exists response log,
    generate_insight sample_format string sample_json_loads sample_of_json 42
      answering_client default_settings
      (metrics_request [100; 105]%float) [] = (inr response, log) /\
    fallback_used (metadata response) = false /\
    exists llm_output p,
      last log = Some (ModelOutputAccepted llm_output) /\
      In (LLMCall p (inr llm_output)) log /\
      parse_output string sample_json_loads sample_of_json llm_output
        = inr (insight response).
Proof.
  destruct (generate_insight sample_format string sample_json_loads
              sample_of_json 42 answering_client default_settings
              (metrics_request [100; 105]%float) [])
    as [[e|response] log] eqn:Hrun.
  - exfalso. vm_compute in Hrun. discriminate Hrun.
  - exists response, log. split; [reflexivity|].
    assert (Hflag : fallback_used (metadata response) = false).
    { vm_compute in Hrun. injection Hrun as <- _. reflexivity. }
    split; [exact Hflag|].
    exact (proj1 (proj2 (C2_fallback_flag_tracks_producer sample_format string
                           sample_json_loads sample_of_json 42 answering_client
                           default_settings _ response log Hrun)) Hflag).
Defined.

(** C5 at [100, 150]: previous is not 0, so the change is
    round(((150 - 100) / 100) * 100, 2) = 50.0. *)
Lemma C5_witness :
  exists fs,
    extract_from_metrics default_settings [100; 150]%float None = inr fs /\
    change_percent fs = 50%float.
Proof.
  destruct (proj1 C5_change_percent_rule default_settings [100; 150]%float None)
    as (p & c & fs & Hp & Hc & Hfs & _ & _ & _ & _ & Hrule).
  - simpl. lia.
  - exists fs. split; [exact Hfs|].
    injection Hp as <-. injection Hc as <-. rewrite Hrule; reflexivity.
Defined.

(** C6 as stated fails on [100, 149.996]: the FeatureSet reports a change
    of exactly 50.0, the critical threshold, with severity high, because
    the classification read the unrounded 49.996.... *)
Lemma C6_counterexample :
  exists fs,
    extract_from_metrics default_settings [100; 149.996]%float None = inr fs /\
    change_percent fs = 50%float /\
    severity fs = high /\
    classify_severity (effective_thresholds default_settings None)
      (abs (change_percent fs)) = critical /\
    severity fs <>
      classify_severity (effective_thresholds default_settings None)
        (abs (change_percent fs)).
Proof.
  eexists. split; [vm_compute; reflexivity|].
  repeat split; try (vm_compute; reflexivity).
  vm_compute. discriminate.
Qed.

(** C6 as amended, at the boundary case of the test suite, [100, 150]. *)
Lemma C6_witness :
  exists fs,
    extract_from_metrics default_settings [100; 150]%float None = inr fs /\
    severity fs = critical.
Proof.
  destruct (C6_severity_from_unrounded_change default_settings
              [100; 150]%float None)
    as (p & c & fs & Hp & Hc & Hfs & Hrule & Hboundary & _).
  - simpl. lia.
  - exists fs. split; [exact Hfs|].
    injection Hp as <-. injection Hc as <-. apply Hboundary. reflexivity.
Defined.

(** C7 as stated fails on [1, 1.0625]: current - previous is 0.0625 and the
    FeatureSet carries 0.06. *)
Lemma C7_counterexample :
  exists fs,
    extract_from_metrics default_settings [1; 1.0625]%float None = inr fs /\
    (current_value fs - previous_value fs)%float = 0.0625%float /\
    change_absolute fs = 0.06%float /\
    change_absolute fs <> (current_value fs - previous_value fs)%float.
Proof.
  eexists. split; [vm_compute; reflexivity|].
  repeat split; try (vm_compute; reflexivity).
  vm_compute. intros H. apply (f_equal Prim2SF) in H. vm_compute in H.
  discriminate H.
Qed.

(** C7 as amended, at the same list. *)
Lemma C7_witness :
  exists fs,
    extract_from_metrics default_settings [1; 1.0625]%float None = inr fs /\
    change_absolute fs = Py.round2 (1.0625 - 1)%float.
Proof.
  destruct (C7_change_absolute_rounded default_settings [1; 1.0625]%float None)
    as (p & c & fs & Hp & Hc & Hfs & Hprev & Hcur & Habs).
  - simpl. lia.
  - exists fs. split; [exact Hfs|].
    injection Hp as <-. injection Hc as <-. rewrite Habs, Hprev, Hcur.
    reflexivity.
Defined.

(** C8 as stated fails when a failure has an empty text (a timeout raised
    without a message): the three prompts sent are all the original one; no
    note was appended. *)
Lemma C8_counterexample :
  let run :=
    _call_llm_with_retry string sample_json_loads (failing_client "")
      default_settings "P" [] in
  prompts_of run.2 = ["P"; "P"; "P"] /\
  noted_prompt "P" (ProviderError "") <> "P" /\
  ~ attempts_chain string sample_json_loads (failing_client "") noted_prompt
      0 "P" run.2.
Proof.
  cbv zeta. split; [vm_compute; reflexivity|]. split.
  - vm_compute. discriminate.
  - vm_compute. intros (_ & _ & e & He & Hp & _).
    injection He as <-. discriminate Hp.
Qed.

(** C8 as amended, with a client that always times out: three calls, then
    the loop raises the last error. *)
Lemma C8_witness :
  exists calls,
    _call_llm_with_retry string sample_json_loads (failing_client "timeout")
      default_settings "P" [] = (inl (ProviderError "timeout"), calls) /\
    length calls = 3%nat.
Proof.
  destruct (C8_retry_protocol sample_format string sample_json_loads
              sample_of_json 42 (failing_client "timeout") default_settings "P")
    as (calls & result & Hrun & _ & _ & _ & _ & Hfail).
  destruct Hfail as ([e ->] & Hlen & _).
  { intros k prompt. discriminate. }
  exists calls. split; [|exact Hlen].
  rewrite Hrun. vm_compute in Hrun. injection Hrun as He _.
  rewrite <- He. reflexivity.
Defined.

(** C10 at a text request. *)
Lemma C10_witness :
  generate_insight sample_format string sample_json_loads sample_of_json 42
    answering_client default_settings text_request [] =
    (inl (AttributeError "'NoneType' object has no attribute 'change_percent'"),
     []).
Proof.
  apply (C10_other_input_types_raise sample_format string sample_json_loads
           sample_of_json 42 answering_client default_settings text_request []).
  left. reflexivity.
Defined.

(* ===================================================================== *)
(** ** Closed instances of the further properties *)
(* ===================================================================== *)

(** X2 with [llm_max_retries = 0]: the model is never called and the
    request is answered by the fallback. *)
Lemma X2_witness :
  exists fs,
    _extract_features no_retry_settings (metrics_request [100; 150]%float)
      = inr (Some fs) /\
    (forall prompt log,
       _call_llm_with_retry string sample_json_loads answering_client
         no_retry_settings prompt log
         = (inl (PlainException "LLM retry limit exceeded"), log)) /\
    generate_insight sample_format string sample_json_loads sample_of_json 42
      answering_client no_retry_settings (metrics_request [100; 150]%float) []
      = (inr (fallback_response sample_format 42 answering_client
                no_retry_settings (metrics_request [100; 150]%float) fs),
         [fallback_event (metrics_request [100; 150]%float) fs]).
Proof.
  eexists. split; [vm_compute; reflexivity|].
  apply (X2_no_attempts_configured sample_format string sample_json_loads
           sample_of_json 42 answering_client no_retry_settings
           (metrics_request [100; 150]%float)).
  - simpl. lia.
  - vm_compute. reflexivity.
Defined.

(** X3 with a client that times out once: the loop makes two calls and
    returns the second answer. *)
Lemma X3_witness :
  exists calls response p,
    _call_llm_with_retry string sample_json_loads flaky_client
      default_settings "prompt" [] = (inr response, calls) /\
    length calls = 2%nat /\
    last calls = Some (LLMCall p (inr response)) /\
    generate flaky_client 1 p = inr response.
Proof.
  apply (X3_loop_stops_at_first_success string sample_json_loads flaky_client
           default_settings 1 "prompt").
  - simpl. lia.
  - intros j p Hj. destruct j as [|j]; [discriminate|lia].
  - intros p. reflexivity.
Defined.

(** X4 with a client that answers at once: one call, and the answer is the
    insight. *)
Lemma X4_witness :
  exists fs,
    _extract_features default_settings (metrics_request [100; 150]%float)
      = inr (Some fs) /\
    generate_insight sample_format string sample_json_loads sample_of_json 42
      answering_client default_settings (metrics_request [100; 150]%float) []
      = (inr (build_response 42 answering_client default_settings
                (metrics_request [100; 150]%float) fs
                (_get_metric_name (metrics_request [100; 150]%float))
                sample_output false),
         [LLMCall (prompt_for sample_format (metrics_request [100; 150]%float) fs)
            (inr "{}");
          ModelOutputAccepted "{}"]).
Proof.
  eexists. split; [vm_compute; reflexivity|].
  apply (X4_first_json_answer_decides sample_format string sample_json_loads
           sample_of_json 42 answering_client default_settings
           (metrics_request [100; 150]%float) _ "{}" "{}").
  - vm_compute. reflexivity.
  - simpl. lia.
  - reflexivity.
  - reflexivity.
Defined.

(** X5 on a request the model answers. *)
Lemma X5_witness :
  exists response log,
    generate_insight sample_format string sample_json_loads sample_of_json 42
      answering_client default_settings (metrics_request [100; 105]%float) []
      = (inr response, log) /\
    response_user_id response = "test_user_123" /\
    response_tenant_id response = "test_tenant" /\
    metric_name (input_summary response) = "sales_data" /\
    data_points_count (input_summary response) = 2%nat /\
    provider (metadata response) = "gemini" /\
    model_version (metadata response) = "mock-llm-v1".
Proof.
  destruct (generate_insight sample_format string sample_json_loads
              sample_of_json 42 answering_client default_settings
              (metrics_request [100; 105]%float) [])
    as [[e|response] log] eqn:Hrun.
  - exfalso. vm_compute in Hrun. discriminate Hrun.
  - exists response, log. split; [reflexivity|].
    destruct (X5_model_cannot_change_envelope sample_format string
                sample_json_loads sample_of_json 42 answering_client
                default_settings _ response log Hrun)
      as (_ & Hu & Ht & Hm & _ & Hn & Hp & Hv & _).
    repeat split; assumption.
Defined.

(** X6 on the request of the test suite with a client that always times
    out. *)
Lemma X6_witness :
  exists response log,
    generate_insight sample_format string sample_json_loads sample_of_json 42
      (failing_client "timeout") default_settings
      (metrics_request [100; 105; 103; 150]%float) [] = (inr response, log) /\
    insight response =
      _generate_fallback_insight sample_format (features response)
        (metric_name (input_summary response)) /\
    insight_severity (insight response) = severity (features response) /\
    confidence (insight response) = 0.60%float.
Proof.
  destruct (generate_insight sample_format string sample_json_loads
              sample_of_json 42 (failing_client "timeout") default_settings
              (metrics_request [100; 105; 103; 150]%float) [])
    as [[e|response] log] eqn:Hrun.
  - exfalso. vm_compute in Hrun. discriminate Hrun.
  - exists response, log. split; [reflexivity|].
    apply (X6_fallback_insight_agrees_with_features sample_format string
             sample_json_loads sample_of_json 42 (failing_client "timeout")
             default_settings _ response log Hrun).
    vm_compute in Hrun. injection Hrun as <- _. reflexivity.
Defined.

(** X7 on a request whose first attempt times out: two calls, then the
    accepted answer. *)
Lemma X7_witness :
  exists response log,
    generate_insight sample_format string sample_json_loads sample_of_json 42
      flaky_client default_settings (metrics_request [100; 150]%float) []
      = (inr response, log) /\
    (count_calls log <= 3)%nat /\
    calls_then_producer log /\ count_calls log = pred (length log).
Proof.
  destruct (generate_insight sample_format string sample_json_loads
              sample_of_json 42 flaky_client default_settings
              (metrics_request [100; 150]%float) [])
    as [[e|response] log] eqn:Hrun.
  - exfalso. vm_compute in Hrun. discriminate Hrun.
  - exists response, log. split; [reflexivity|].
    exact (X7_log_shape sample_format string sample_json_loads sample_of_json
             42 flaky_client default_settings _ (inr response) log Hrun).
Defined.

(** X12 on the same run: both prompts sent carry the task text, which the
    mock client reads as high. *)
Lemma X12_witness :
  exists outcome log,
    generate_insight sample_format string sample_json_loads sample_of_json 42
      flaky_client default_settings (metrics_request [100; 150]%float) []
      = (outcome, log) /\
    length (prompts_of log) = 2%nat /\
    Forall (fun p => has_part prompt_task p /\
                     (mock_severity p = "high" \/ mock_severity p = "critical"))
           (prompts_of log).
Proof.
  destruct (generate_insight sample_format string sample_json_loads
              sample_of_json 42 flaky_client default_settings
              (metrics_request [100; 150]%float) [])
    as [outcome log] eqn:Hrun.
  exists outcome, log. split; [reflexivity|]. split.
  - vm_compute in Hrun. injection Hrun as _ <-. reflexivity.
  - exact (X12_mock_severity_never_medium sample_format string
             sample_json_loads sample_of_json 42 flaky_client default_settings
             _ outcome log Hrun).
Defined.

(** X14 with a window of 5: the value 100 before the window changes
    nothing. *)
Lemma X14_witness :
  rolling_std_detection sample_format
    ([100] ++ [100; 105; 110; 108; 112] ++ [300])%float 5 2
    = rolling_std_detection sample_format
        ([100; 105; 110; 108; 112] ++ [300])%float 5 2 /\
  exists r,
    rolling_std_detection sample_format
      ([100; 105; 110; 108; 112] ++ [300])%float 5 2 = inr r /\
    rolling_details r !! "rolling_mean"
      = Some (RFloat (np.mean [100; 105; 110; 108; 112]%float)) /\
    rolling_is_anomaly r = true.
Proof.
  destruct (X14_rolling_window_is_the_baseline sample_format [100]%float
              [100; 105; 110; 108; 112]%float 300 5 2)
    as (Hold & r & Hr & Hmean & _ & Hflag).
  - lia.
  - reflexivity.
  - split; [exact Hold|]. exists r. split; [exact Hr|]. split; [exact Hmean|].
    destruct (Hflag eq_refl) as (-> & _). reflexivity.
Defined.

(** X15 on two values. *)
Lemma X15_witness :
  exists r,
    rolling_std_detection sample_format [1; 2]%float 0 3 = inr r /\
    rolling_is_anomaly r = false /\
    rolling_z_score r = nan /\
    rolling_details r !! "error" = None /\
    rolling_details r !! "note" = None.
Proof.
  apply (X15_rolling_window_zero_never_flags sample_format [1; 2]%float 3).
  discriminate.
Defined.

(** X17 on a week in which the model timed out on every call: two saved
    responses, both from the fallback; the monitor reports normal. *)
Lemma X17_witness :
  exists response1 response2 log1 log2 report,
    generate_insight sample_format string sample_json_loads sample_of_json 42
      (failing_client "timeout") default_settings
      (metrics_request [100; 150]%float) [] = (inr response1, log1) /\
    generate_insight sample_format string sample_json_loads sample_of_json 42
      (failing_client "timeout") default_settings
      (metrics_request [100; 105; 103; 150]%float) [] = (inr response2, log2) /\
    detect_drift 739923
      (map stored_row [("id-1", "2026-11-01T09:00:00", response1);
                       ("id-2", "2026-11-02T09:00:00", response2)])
      7 0.3 = inr (Drift report) /\
    total_insights report = 2%Z /\
    status report = "normal" /\
    drift_rate report = 0%float /\
    report_disagreements report = 0%Z.
Proof.
  destruct (generate_insight sample_format string sample_json_loads
              sample_of_json 42 (failing_client "timeout") default_settings
              (metrics_request [100; 150]%float) [])
    as [[e1|response1] log1] eqn:Hrun1;
    [exfalso; vm_compute in Hrun1; discriminate Hrun1|].
  destruct (generate_insight sample_format string sample_json_loads
              sample_of_json 42 (failing_client "timeout") default_settings
              (metrics_request [100; 105; 103; 150]%float) [])
    as [[e2|response2] log2] eqn:Hrun2;
    [exfalso; vm_compute in Hrun2; discriminate Hrun2|].
  destruct (X17_fallback_rows_never_drift sample_format string
              sample_json_loads sample_of_json 42 (failing_client "timeout")
              default_settings 739923
              [("id-1", "2026-11-01T09:00:00", response1);
               ("id-2", "2026-11-02T09:00:00", response2)]
              7 0.3%float)
    as (report & Hrun & Htotal & _ & _ & Hdown).
  - simpl. lia.
  - lia.
  - discriminate.
  - repeat constructor.
    + exists (metrics_request [100; 150]%float), log1. exact Hrun1.
    + exists (metrics_request [100; 105; 103; 150]%float), log2. exact Hrun2.
  - exists response1, response2, log1, log2, report.
    split; [reflexivity|]. split; [reflexivity|]. split; [exact Hrun|].
    split; [exact Htotal|].
    destruct Hdown as (Hs & Hr & Hd & _).
    + vm_compute in Hrun1. injection Hrun1 as <- _.
      vm_compute in Hrun2. injection Hrun2 as <- _. reflexivity.
    + reflexivity.
    + repeat split; assumption.
Defined.

(** X20 on a batch of four items: two metrics requests (one with a single
    value), a text request and an invalid item. *)
Lemma X20_witness :
  exists results log' db',
    batch_generate_insights sample_format string sample_json_loads
      sample_of_json 42 answering_client default_settings
      (list InsightResponse) sample_repo_create (option InsightRequest)
      sample_validate sample_uuid4_str
      [Some (metrics_request [100; 150]%float); Some text_request; None;
       Some (metrics_request [100]%float)] [] []
      = (results, log', db') /\
    successful results = 2%Z /\ failed results = 2%Z.
Proof.
  apply (X20_batch_success_is_metrics_items sample_format string
           sample_json_loads sample_of_json 42 answering_client
           default_settings (list InsightResponse) sample_repo_create
           (option InsightRequest) sample_validate sample_uuid4_str
           [Some (metrics_request [100; 150]%float); Some text_request; None;
            Some (metrics_request [100]%float)] [] []).
  intros result db. eexists. reflexivity.
Defined.

(** C4 at a valid text request: it is accepted by the validation, and
    generate_insight raises AttributeError for it. *)
Lemma C4_witness :
  exists request,
    InsightRequest_of_payload sample_error_text
      sample_request_error_text (text_payload "hello") = inr request /\
    generate_insight sample_format string sample_json_loads sample_of_json 42
      answering_client default_settings request []
      = (inl (AttributeError
                "'NoneType' object has no attribute 'change_percent'"),
         []) /\
    isinstance_ValueError
      (AttributeError "'NoneType' object has no attribute 'change_percent'")
      = false.
Proof.
  eexists. split; [reflexivity|]. split; [|reflexivity].
  apply (proj2 (C4_validated_requests_raise_attribute_error sample_format
                  string sample_json_loads sample_of_json 42 answering_client
                  default_settings sample_error_text
                  sample_request_error_text (text_payload "hello"))
           _ eq_refl).
  discriminate.
Defined.
